(** * RollerMate: the screens' data handlers against a model of the hosted backend

    The application is a set of React screens whose event handlers issue
    queries and mutations against a hosted database through the [supabase]
    client and keep the results in per-screen view state.  This development
    embeds those handlers:

    - JavaScript values, truthiness and [String.prototype.trim];
    - the backend: tables as lists of rows, a log of received requests, and a
      schedule saying how each request is answered;
    - an [Async] monad: view state, backend, router and console threaded
      through the handler, with [throw], [try_catch] and [finally];
    - one module per screen, each handler translated statement by statement:
      [UserProfileScreen] (the screen of another user's profile, with
      [fetchProfile], [handleFollow], [handleMessage]), [TabLayout] (the tab
      bar with its badges and notification list), [FeedScreen] (the feed
      with [fetchPosts], [handleLike], [handleCreatePost]) and
      [ProfileScreen] (the own profile with [fetchProfile] and the
      completion percentage).

    A handler reads the view state once, on entry: that is the closure React
    captured at the last render.  Handlers run to completion; interleavings of
    two pending handlers are outside this model. *)

From stdpp Require Import base list strings gmap sorting pretty.
From Stdlib Require Import ZArith QArith Qround Lia.

Open Scope Z_scope.
Set Warnings "-register-all".

(* ===================================================================== *)
(** ** JavaScript values *)
(* ===================================================================== *)

(** A JSON value as the client receives it in a row.  Numbers are rationals:
    every finite double is one, and JSON carries neither NaN nor infinities. *)
Inductive jsval :=
  | JUndefined
  | JNull
  | JBool (b : bool)
  | JNum (q : Q)
  | JStr (s : string)
  | JArr (l : list jsval)
  | JObj.

(** [ToBoolean]: what [value && ...] and [!value] test. *)
Definition truthy (v : jsval) : bool :=
  match v with
  | JUndefined | JNull => false
  | JBool b => b
  | JNum q => negb (Qeq_bool q 0)
  | JStr s => negb (String.eqb s "")
  | JArr _ | JObj => true
  end.

(** [Array.isArray]. *)
Definition Array_isArray (v : jsval) : bool :=
  match v with JArr _ => true | _ => false end.

(** [obj[key]]: a missing property reads as [undefined]. *)
Definition prop (o : gmap string jsval) (key : string) : jsval :=
  default JUndefined (o !! key).

(** [Math.round]: the nearest integer, halves rounded towards +infinity. *)
Definition Math_round (x : Q) : Z := Qfloor (x + (1 # 2))%Q.

(** A string whose characters matter: a sequence of UTF-16 code units. *)
Definition jsstring := list N.

(** ECMAScript [WhiteSpace] and [LineTerminator] code points, the characters
    [trim] strips. *)
Definition isWhiteSpace (c : N) : bool :=
  ((9 <=? c) && (c <=? 13) || (c =? 32) || (c =? 160) || (c =? 5760)
   || (8192 <=? c) && (c <=? 8202) || (c =? 8232) || (c =? 8233)
   || (c =? 8239) || (c =? 8287) || (c =? 12288) || (c =? 65279))%N.

Fixpoint trimStart (s : jsstring) : jsstring :=
  match s with
  | [] => []
  | c :: rest => if isWhiteSpace c then trimStart rest else s
  end.

Definition trimEnd (s : jsstring) : jsstring := rev (trimStart (rev s)).

Definition trim (s : jsstring) : jsstring := trimEnd (trimStart s).

(** A non-empty string, which is what [!s] negates. *)
Definition truthy_jsstring (s : jsstring) : bool :=
  match s with
  | [] => false
  | _ :: _ => true
  end.

(** [n || 0] on a [number | null]. *)
Definition or_zero (n : option Z) : Z :=
  match n with
  | Some k => k
  | None => 0
  end.

(* ===================================================================== *)
(** ** The backend *)
(* ===================================================================== *)

(** One module per table, so that columns keep their names. *)

Module profiles.
(** [id] is the key; the other columns are kept as the JSON object a
    [select] returns. *)
Record row := { id : string; columns : gmap string jsval }.
End profiles.

Module follows.
Record row := { follower_id : string; following_id : string }.

#[global] Instance row_eq_dec : EqDecision row.
Proof. solve_decision. Defined.
End follows.

Module posts.
Record row := {
  id : string;
  user_id : option string;
  content : jsstring;
  image_url : option string;
  latitude : option Q;
  longitude : option Q;
  created_at : Z }.
End posts.

Module likes.
Record row := { post_id : string; user_id : string }.

#[global] Instance row_eq_dec : EqDecision row.
Proof. solve_decision. Defined.
End likes.

Module comments.
Record row := { id : string; post_id : string }.
End comments.

Module chats.
Record row := { id : string }.
End chats.

Module chat_participants.
Record row := { chat_id : string; user_id : string }.
End chat_participants.

Module messages.
Record row := {
  id : string;
  chat_id : string;
  user_id : string;
  read_at : option Z }.
End messages.

Module notifications.
Record row := {
  id : string;
  user_id : string;
  type : string;
  data : gmap string string;
  read : bool;
  created_at : Z }.
End notifications.

Module auth.
Record User := { id : string }.
End auth.

Inductive Verb := GET_USER | SELECT | INSERT | UPDATE | DELETE | UPLOAD.

(** A request as the backend logs it: the verb and the table or bucket. *)
Record Request := { verb : Verb; target : string }.

(** How the backend answers one table or storage request.  The client
    resolves a failed request to a response whose [error] is set; it does
    not throw.  A response may also come back without its payload: [count]
    is read from a response header and is [null] when the header is missing,
    which is what the handlers' [count || 0] provides for. *)
Inductive fault :=
  | Healthy        (* the request is carried out and answered *)
  | ErrorResponse  (* resolves with [error] set; nothing is carried out *)
  | NullPayload    (* carried out; resolves with neither payload nor error *)
  | Reject.        (* the promise rejects; nothing is carried out *)

Record Backend := {
  session : option auth.User;
  tbl_profiles : list profiles.row;
  tbl_follows : list follows.row;
  tbl_posts : list posts.row;
  tbl_likes : list likes.row;
  tbl_comments : list comments.row;
  tbl_chats : list chats.row;
  tbl_chat_participants : list chat_participants.row;
  tbl_messages : list messages.row;
  tbl_notifications : list notifications.row;
  bucket_post_images : list string;
  (** ids and timestamps the database will give the rows inserted next *)
  id_supply : nat → string;
  db_now : Z;
  (** answers to the coming requests, in order; [Healthy] once exhausted *)
  faults : list fault;
  requests : list Request }.

Definition with_follows (f : list follows.row → list follows.row) (b : Backend) : Backend :=
  {| session := session b; tbl_profiles := tbl_profiles b;
     tbl_follows := f (tbl_follows b); tbl_posts := tbl_posts b;
     tbl_likes := tbl_likes b; tbl_comments := tbl_comments b;
     tbl_chats := tbl_chats b;
     tbl_chat_participants := tbl_chat_participants b;
     tbl_messages := tbl_messages b;
     tbl_notifications := tbl_notifications b;
     bucket_post_images := bucket_post_images b;
     id_supply := id_supply b; db_now := db_now b;
     faults := faults b; requests := requests b |}.

Definition with_posts (f : list posts.row → list posts.row) (b : Backend) : Backend :=
  {| session := session b; tbl_profiles := tbl_profiles b;
     tbl_follows := tbl_follows b; tbl_posts := f (tbl_posts b);
     tbl_likes := tbl_likes b; tbl_comments := tbl_comments b;
     tbl_chats := tbl_chats b;
     tbl_chat_participants := tbl_chat_participants b;
     tbl_messages := tbl_messages b;
     tbl_notifications := tbl_notifications b;
     bucket_post_images := bucket_post_images b;
     id_supply := id_supply b; db_now := db_now b;
     faults := faults b; requests := requests b |}.

Definition with_likes (f : list likes.row → list likes.row) (b : Backend) : Backend :=
  {| session := session b; tbl_profiles := tbl_profiles b;
     tbl_follows := tbl_follows b; tbl_posts := tbl_posts b;
     tbl_likes := f (tbl_likes b); tbl_comments := tbl_comments b;
     tbl_chats := tbl_chats b;
     tbl_chat_participants := tbl_chat_participants b;
     tbl_messages := tbl_messages b;
     tbl_notifications := tbl_notifications b;
     bucket_post_images := bucket_post_images b;
     id_supply := id_supply b; db_now := db_now b;
     faults := faults b; requests := requests b |}.

Definition with_chats (f : list chats.row → list chats.row) (b : Backend) : Backend :=
  {| session := session b; tbl_profiles := tbl_profiles b;
     tbl_follows := tbl_follows b; tbl_posts := tbl_posts b;
     tbl_likes := tbl_likes b; tbl_comments := tbl_comments b;
     tbl_chats := f (tbl_chats b);
     tbl_chat_participants := tbl_chat_participants b;
     tbl_messages := tbl_messages b;
     tbl_notifications := tbl_notifications b;
     bucket_post_images := bucket_post_images b;
     id_supply := id_supply b; db_now := db_now b;
     faults := faults b; requests := requests b |}.

Definition with_chat_participants
    (f : list chat_participants.row → list chat_participants.row) (b : Backend) : Backend :=
  {| session := session b; tbl_profiles := tbl_profiles b;
     tbl_follows := tbl_follows b; tbl_posts := tbl_posts b;
     tbl_likes := tbl_likes b; tbl_comments := tbl_comments b;
     tbl_chats := tbl_chats b;
     tbl_chat_participants := f (tbl_chat_participants b);
     tbl_messages := tbl_messages b;
     tbl_notifications := tbl_notifications b;
     bucket_post_images := bucket_post_images b;
     id_supply := id_supply b; db_now := db_now b;
     faults := faults b; requests := requests b |}.

Definition with_notifications
    (f : list notifications.row → list notifications.row) (b : Backend) : Backend :=
  {| session := session b; tbl_profiles := tbl_profiles b;
     tbl_follows := tbl_follows b; tbl_posts := tbl_posts b;
     tbl_likes := tbl_likes b; tbl_comments := tbl_comments b;
     tbl_chats := tbl_chats b;
     tbl_chat_participants := tbl_chat_participants b;
     tbl_messages := tbl_messages b;
     tbl_notifications := f (tbl_notifications b);
     bucket_post_images := bucket_post_images b;
     id_supply := id_supply b; db_now := db_now b;
     faults := faults b; requests := requests b |}.

Definition with_post_images (f : list string → list string) (b : Backend) : Backend :=
  {| session := session b; tbl_profiles := tbl_profiles b;
     tbl_follows := tbl_follows b; tbl_posts := tbl_posts b;
     tbl_likes := tbl_likes b; tbl_comments := tbl_comments b;
     tbl_chats := tbl_chats b;
     tbl_chat_participants := tbl_chat_participants b;
     tbl_messages := tbl_messages b;
     tbl_notifications := tbl_notifications b;
     bucket_post_images := f (bucket_post_images b);
     id_supply := id_supply b; db_now := db_now b;
     faults := faults b; requests := requests b |}.

Definition with_id_supply (f : (nat → string) → (nat → string)) (b : Backend) : Backend :=
  {| session := session b; tbl_profiles := tbl_profiles b;
     tbl_follows := tbl_follows b; tbl_posts := tbl_posts b;
     tbl_likes := tbl_likes b; tbl_comments := tbl_comments b;
     tbl_chats := tbl_chats b;
     tbl_chat_participants := tbl_chat_participants b;
     tbl_messages := tbl_messages b;
     tbl_notifications := tbl_notifications b;
     bucket_post_images := bucket_post_images b;
     id_supply := f (id_supply b); db_now := db_now b;
     faults := faults b; requests := requests b |}.

(** The backend takes note of a request and of the answer it will give. *)
Definition receive (r : Request) (b : Backend) : Backend :=
  {| session := session b; tbl_profiles := tbl_profiles b;
     tbl_follows := tbl_follows b; tbl_posts := tbl_posts b;
     tbl_likes := tbl_likes b; tbl_comments := tbl_comments b;
     tbl_chats := tbl_chats b;
     tbl_chat_participants := tbl_chat_participants b;
     tbl_messages := tbl_messages b;
     tbl_notifications := tbl_notifications b;
     bucket_post_images := bucket_post_images b;
     id_supply := id_supply b; db_now := db_now b;
     faults := tail (faults b); requests := requests b ++ [r] |}.

Definition next_fault (b : Backend) : fault := default Healthy (head (faults b)).

(* ===================================================================== *)
(** ** Asynchronous handlers *)
(* ===================================================================== *)

Inductive Err :=
  | PostgrestError  (* the [error] of a response, rethrown by the handler *)
  | StorageError
  | FetchError      (* a rejected request *)
  | TypeError       (* a property read on [null] or [undefined] *)
  | Error (message : string).

Inductive Navigation := push (href : string) | replace (href : string).

(** Everything a handler of a screen with view state [V] can read or change. *)
Record Sys (V : Type) := {
  view : V;
  backend : Backend;
  router : list Navigation;
  console : list string;
  Date_now : Z }.

Arguments view {V}.
Arguments backend {V}.
Arguments router {V}.
Arguments console {V}.
Arguments Date_now {V}.

(** How a statement list completes: normally, or by a [throw]. *)
Inductive Completion (A : Type) :=
  | Normal (a : A)
  | Abrupt (e : Err).

Arguments Normal {A}.
Arguments Abrupt {A}.

Definition Async (V A : Type) : Type := Sys V → Completion A * Sys V.

#[global] Instance Async_ret {V} : MRet (Async V) :=
  λ A a s, (Normal a, s).

#[global] Instance Async_bind {V} : MBind (Async V) :=
  λ A B k m s,
    match m s with
    | (Normal a, s') => k a s'
    | (Abrupt e, s') => (Abrupt e, s')
    end.

Module supabase.
(** What [await supabase...] resolves to. *)
Record Response (A : Type) := {
  data : option A;
  count : option Z;
  error : option Err }.

Arguments data {A}.
Arguments count {A}.
Arguments error {A}.
End supabase.

Import supabase.

#[global] Instance Async_fmap {V} : FMap (Async V) :=
  λ A B f m s,
    match m s with
    | (Normal a, s') => (Normal (f a), s')
    | (Abrupt e, s') => (Abrupt e, s')
    end.

Section Statements.
Context {V : Type}.

Definition throw {A} (e : Err) : Async V A := λ s, (Abrupt e, s).

(** [try { body } catch (error) { handler }] *)
Definition try_catch (body : Async V unit) (handler : Err → Async V unit) : Async V unit :=
  λ s,
    match body s with
    | (Normal a, s') => (Normal a, s')
    | (Abrupt e, s') => handler e s'
    end.

(** [... finally { fin }]: [fin] runs however [body] completes. *)
Definition finally {A} (body : Async V A) (fin : Async V unit) : Async V A :=
  λ s,
    match body s with
    | (c, s') =>
        match fin s' with
        | (Normal _, s'') => (c, s'')
        | (Abrupt e, s'') => (Abrupt e, s'')
        end
    end.

Definition getView : Async V V := λ s, (Normal (view s), s).

(** A [setX(...)] call of the screen: the view state is replaced. *)
Definition setView (f : V → V) : Async V unit :=
  λ s, (Normal (),
        {| view := f (view s); backend := backend s; router := router s;
           console := console s; Date_now := Date_now s |}).

Definition console_error (label : string) : Async V unit :=
  λ s, (Normal (),
        {| view := view s; backend := backend s; router := router s;
           console := console s ++ [label]; Date_now := Date_now s |}).

Definition navigate (n : Navigation) : Async V unit :=
  λ s, (Normal (),
        {| view := view s; backend := backend s; router := router s ++ [n];
           console := console s; Date_now := Date_now s |}).

Definition getDate_now : Async V Z := λ s, (Normal (Date_now s), s).

Definition with_backend (b : Backend) (s : Sys V) : Sys V :=
  {| view := view s; backend := b; router := router s;
     console := console s; Date_now := Date_now s |}.

(** A table request answering with rows: [act] is what a healthy backend
    does with it. *)
Definition request {A} (v : Verb) (t : string) (act : Backend → A * Backend)
    : Async V (Response A) :=
  λ s,
    let b := receive {| verb := v; target := t |} (backend s) in
    match next_fault (backend s) with
    | Healthy =>
        let '(a, b') := act b in
        (Normal {| data := Some a; count := None; error := None |}, with_backend b' s)
    | NullPayload =>
        let '(a, b') := act b in
        (Normal {| data := None; count := None; error := None |}, with_backend b' s)
    | ErrorResponse =>
        (Normal {| data := None; count := None; error := Some PostgrestError |},
         with_backend b s)
    | Reject => (Abrupt FetchError, with_backend b s)
    end.

(** A [select(..., { count: 'exact', head: true })]: no rows, only their
    number. *)
Definition request_count (t : string) (rows : Backend → nat) : Async V (Response unit) :=
  λ s,
    let b := receive {| verb := SELECT; target := t |} (backend s) in
    match next_fault (backend s) with
    | Healthy =>
        (Normal {| data := None; count := Some (Z.of_nat (rows b)); error := None |},
         with_backend b s)
    | NullPayload =>
        (Normal {| data := None; count := None; error := None |}, with_backend b s)
    | ErrorResponse =>
        (Normal {| data := None; count := None; error := Some PostgrestError |},
         with_backend b s)
    | Reject => (Abrupt FetchError, with_backend b s)
    end.

(** [.single()]: the answer must be exactly one row, otherwise the response
    carries an error and no data. *)
Definition single {A} (r : Response (list A)) : Response A :=
  match data r with
  | Some [x] => {| data := Some x; count := count r; error := error r |}
  | Some _ =>
      {| data := None; count := count r;
         error := Some (default PostgrestError (error r)) |}
  | None => {| data := None; count := count r; error := error r |}
  end.

(** [supabase.auth.getUser()]: the signed-in user, if any.  A lookup that
    fails resolves to no user, which is a [session] of [None]. *)
Definition auth_getUser : Async V (option auth.User) :=
  λ s,
    let b := backend s in
    (Normal (session b),
     with_backend
       {| session := session b; tbl_profiles := tbl_profiles b;
          tbl_follows := tbl_follows b; tbl_posts := tbl_posts b;
          tbl_likes := tbl_likes b; tbl_comments := tbl_comments b;
          tbl_chats := tbl_chats b;
          tbl_chat_participants := tbl_chat_participants b;
          tbl_messages := tbl_messages b;
          tbl_notifications := tbl_notifications b;
          bucket_post_images := bucket_post_images b;
          id_supply := id_supply b; db_now := db_now b;
          faults := faults b;
          requests := requests b ++ [{| verb := GET_USER; target := "auth" |}] |} s).

(** [if (error) throw error;] *)
Definition throw_if (e : option Err) : Async V unit :=
  match e with
  | Some err => throw err
  | None => mret ()
  end.

(** Reading a property of a value that may be [null]: a [TypeError] then. *)
Definition deref {A} (o : option A) : Async V A :=
  match o with
  | Some a => mret a
  | None => throw TypeError
  end.

End Statements.

(** An aggregate row, as [select('count')] and an embedded [t(count)] return
    it. *)
Module agg.
Record row := { count : Z }.
End agg.

(** [rows[0]?.count || 0] *)
Definition first_count_or_zero (rows : list agg.row) : Z :=
  or_zero (agg.count <$> rows !! 0%nat).

(** A string that is neither [null] nor empty, which is what [if (s)] and
    [!s] test. *)
Definition truthy_string (s : option string) : bool :=
  match s with
  | Some x => negb (String.eqb x "")
  | None => false
  end.

(* ===================================================================== *)
(** ** The screen of another user's profile *)
(* ===================================================================== *)

Module UserProfileScreen.

Record Profile := {
  id : string;
  full_name : jsval;
  avatar_url : jsval;
  bio : jsval;
  sports : jsval;
  followers_count : Z;
  following_count : Z;
  posts_count : Z;
  created_at : jsval;
  is_following : bool }.

Record Post := {
  post_id : string;
  post_content : jsstring;
  post_image_url : option string;
  post_likes : Z;
  post_created_at : Z }.

Record View := {
  route_id : string;  (* [useLocalSearchParams().id] *)
  profile : option Profile;
  posts : list Post;
  loading : bool;
  followLoading : bool;
  currentUserId : option string }.

Definition setProfile (p : Profile) (v : View) : View :=
  {| route_id := route_id v; profile := Some p; posts := posts v;
     loading := loading v; followLoading := followLoading v;
     currentUserId := currentUserId v |}.

Definition setLoading (l : bool) (v : View) : View :=
  {| route_id := route_id v; profile := profile v; posts := posts v;
     loading := l; followLoading := followLoading v;
     currentUserId := currentUserId v |}.

Definition setFollowLoading (l : bool) (v : View) : View :=
  {| route_id := route_id v; profile := profile v; posts := posts v;
     loading := loading v; followLoading := l;
     currentUserId := currentUserId v |}.

(** The row [select(`id, full_name, ..., posts:posts(count)`)] returns. *)
Record ProfileData := {
  pd_id : string;
  pd_full_name : jsval;
  pd_avatar_url : jsval;
  pd_bio : jsval;
  pd_sports : jsval;
  pd_created_at : jsval;
  pd_posts : list agg.row }.

(** *** The queries of this screen, as a healthy backend answers them *)

Definition count_posts_of (uid : string) (b : Backend) : Z :=
  Z.of_nat (length (filter (λ p, posts.user_id p = Some uid) (tbl_posts b))).

Definition profiles_select_eq_id (id : string) : Async View (Response (list ProfileData)) :=
  request SELECT "profiles" (λ b,
    ((λ r, {| pd_id := profiles.id r;
              pd_full_name := prop (profiles.columns r) "full_name";
              pd_avatar_url := prop (profiles.columns r) "avatar_url";
              pd_bio := prop (profiles.columns r) "bio";
              pd_sports := prop (profiles.columns r) "sports";
              pd_created_at := prop (profiles.columns r) "created_at";
              pd_posts := [ {| agg.count := count_posts_of (profiles.id r) b |} ] |})
       <$> filter (λ r, profiles.id r = id) (tbl_profiles b),
     b)).

Definition followers_of (id : string) (b : Backend) : list follows.row :=
  filter (λ r, follows.following_id r = id) (tbl_follows b).

Definition followed_by (id : string) (b : Backend) : list follows.row :=
  filter (λ r, follows.follower_id r = id) (tbl_follows b).

Definition follows_select_count_eq_following_id (id : string)
    : Async View (Response (list agg.row)) :=
  request SELECT "follows" (λ b,
    ([ {| agg.count := Z.of_nat (length (followers_of id b)) |} ], b)).

Definition follows_select_count_eq_follower_id (id : string)
    : Async View (Response (list agg.row)) :=
  request SELECT "follows" (λ b,
    ([ {| agg.count := Z.of_nat (length (followed_by id b)) |} ], b)).

Definition follows_select_eq_pair (follower following : string)
    : Async View (Response (list follows.row)) :=
  request SELECT "follows" (λ b,
    (filter (λ r, follows.follower_id r = follower ∧ follows.following_id r = following)
       (tbl_follows b),
     b)).

Definition follows_delete_match (follower following : string)
    : Async View (Response (list follows.row)) :=
  request DELETE "follows" (λ b,
    ([],
     with_follows
       (filter (λ r, ¬ (follows.follower_id r = follower
                        ∧ follows.following_id r = following))) b)).

Definition follows_insert (follower following : string)
    : Async View (Response (list follows.row)) :=
  request INSERT "follows" (λ b,
    ([],
     with_follows
       (λ t, t ++ [ {| follows.follower_id := follower;
                       follows.following_id := following |} ]) b)).

Definition chat_participants_select_eq_user_id (uid : string)
    : Async View (Response (list chat_participants.row)) :=
  request SELECT "chat_participants" (λ b,
    (filter (λ r, chat_participants.user_id r = uid) (tbl_chat_participants b), b)).

Definition chat_participants_select_eq_user_id_in (uid : string) (chatIds : list string)
    : Async View (Response (list chat_participants.row)) :=
  request SELECT "chat_participants" (λ b,
    (filter (λ r, chat_participants.user_id r = uid
                  ∧ chat_participants.chat_id r ∈ chatIds)
       (tbl_chat_participants b),
     b)).

(** [insert({}).select()]: the database chooses the id of the new row. *)
Definition chats_insert_select : Async View (Response (list chats.row)) :=
  request INSERT "chats" (λ b,
    let c := {| chats.id := id_supply b 0%nat |} in
    ([c],
     with_id_supply (λ g n, g (S n)) (with_chats (λ t, t ++ [c]) b))).

Definition chat_participants_insert (rows : list chat_participants.row)
    : Async View (Response (list chat_participants.row)) :=
  request INSERT "chat_participants" (λ b,
    ([], with_chat_participants (λ t, t ++ rows) b)).

(** *** The handlers *)

Definition fetchProfile : Async View unit :=
  v ← getView;
  let id := route_id v in
  finally
    (try_catch
       (user ← auth_getUser;
        match user with
        | None => mret ()
        | Some user =>
            r ← single <$> profiles_select_eq_id id;
            let profileData := data r in
            throw_if (error r);;
            r ← follows_select_count_eq_following_id id;
            let followersData := data r in
            throw_if (error r);;
            r ← follows_select_count_eq_follower_id id;
            let followingData := data r in
            throw_if (error r);;
            r ← follows_select_eq_pair (auth.id user) id;
            let isFollowingData := data r in
            throw_if (error r);;
            followersData ← deref followersData;
            followingData ← deref followingData;
            profileData ← deref profileData;
            isFollowingData ← deref isFollowingData;
            let profile :=
              {| id := pd_id profileData;
                 full_name := pd_full_name profileData;
                 avatar_url := pd_avatar_url profileData;
                 bio := pd_bio profileData;
                 sports := pd_sports profileData;
                 created_at := pd_created_at profileData;
                 followers_count := first_count_or_zero followersData;
                 following_count := first_count_or_zero followingData;
                 posts_count := first_count_or_zero (pd_posts profileData);
                 is_following := bool_decide (0 < length isFollowingData)%nat |} in
            setView (setProfile profile)
        end)
       (λ error, console_error "Error fetching profile:"))
    (setView (setLoading false)).

(** The [{ ...profile, followers_count: ..., is_following: ... }] of
    [handleFollow]. *)
Definition toggled (profile : Profile) : Profile :=
  {| id := id profile;
     full_name := full_name profile;
     avatar_url := avatar_url profile;
     bio := bio profile;
     sports := sports profile;
     created_at := created_at profile;
     following_count := following_count profile;
     posts_count := posts_count profile;
     followers_count :=
       if is_following profile
       then followers_count profile - 1
       else followers_count profile + 1;
     is_following := negb (is_following profile) |}.

Definition handleFollow : Async View unit :=
  v ← getView;
  match profile v with
  | None => mret ()
  | Some profile =>
      setView (setFollowLoading true);;
      finally
        (try_catch
           (user ← auth_getUser;
            match user with
            | None => mret ()
            | Some user =>
                (if is_following profile
                 then follows_delete_match (auth.id user) (id profile)
                 else follows_insert (auth.id user) (id profile));;
                setView (setProfile (toggled profile))
            end)
           (λ error, console_error "Error following user:"))
        (setView (setFollowLoading false))
  end.

Definition handleMessage : Async View unit :=
  v ← getView;
  try_catch
    (match profile v with
     | None => mret ()
     | Some profile =>
         if negb (truthy_string (currentUserId v)) then mret () else
         let currentUserId := default "" (currentUserId v) in
         r ← chat_participants_select_eq_user_id currentUserId;
         match data r with
         | None => mret ()
         | Some existingChats =>
             let chatIds := chat_participants.chat_id <$> existingChats in
             r ← single <$> chat_participants_select_eq_user_id_in (id profile) chatIds;
             match data r with
             | Some existingChat =>
                 navigate (push ("/chat/" +:+ chat_participants.chat_id existingChat))
             | None =>
                 r ← single <$> chats_insert_select;
                 let newChat := data r in
                 throw_if (error r);;
                 newChat ← deref newChat;
                 chat_participants_insert
                   [ {| chat_participants.chat_id := chats.id newChat;
                        chat_participants.user_id := currentUserId |};
                     {| chat_participants.chat_id := chats.id newChat;
                        chat_participants.user_id := id profile |} ];;
                 navigate (push ("/chat/" +:+ chats.id newChat))
             end
         end
     end)
    (λ error, console_error "Error creating chat:").

(** *** The posts of the profile, and the mount *)

Definition setPosts (l : list Post) (v : View) : View :=
  {| route_id := route_id v; profile := profile v; posts := l;
     loading := loading v; followLoading := followLoading v;
     currentUserId := currentUserId v |}.

Definition setCurrentUserId (u : string) (v : View) : View :=
  {| route_id := route_id v; profile := profile v; posts := posts v;
     loading := loading v; followLoading := followLoading v;
     currentUserId := Some u |}.

(** [.order('created_at', { ascending: false })] *)
Definition newer_first (x y : posts.row) : Prop :=
  posts.created_at y ≤ posts.created_at x.

#[global] Instance newer_first_dec x y : Decision (newer_first x y).
Proof. unfold newer_first. apply _. Defined.

(** A row of [select(`id, content, image_url, created_at, likes(count)`)]. *)
Record UserPostData := {
  up_row : posts.row;
  up_likes : list agg.row }.

Definition posts_select_eq_user_id (id : string)
    : Async View (Response (list UserPostData)) :=
  request SELECT "posts" (λ b,
    ((λ p, {| up_row := p;
              up_likes :=
                [ {| agg.count :=
                       Z.of_nat (length (filter (λ l, likes.post_id l = posts.id p)
                                           (tbl_likes b))) |} ] |})
       <$> merge_sort newer_first
             (filter (λ p, posts.user_id p = Some id) (tbl_posts b)),
     b)).

(** One element of [data.map(post => ({ ...post, likes: ... }))]. *)
Definition with_likes_count (post : UserPostData) : Post :=
  {| post_id := posts.id (up_row post);
     post_content := posts.content (up_row post);
     post_image_url := posts.image_url (up_row post);
     post_created_at := posts.created_at (up_row post);
     post_likes := first_count_or_zero (up_likes post) |}.

Definition fetchUserPosts : Async View unit :=
  v ← getView;
  let id := route_id v in
  try_catch
    (r ← posts_select_eq_user_id id;
     throw_if (error r);;
     data ← deref (data r);
     let postsWithCounts := with_likes_count <$> data in
     setView (setPosts postsWithCounts))
    (λ error, console_error "Error fetching user posts:").

(** The two fetches are started without [await]; each handles its own
    errors, so they are run one after the other here. *)
Definition checkUser : Async View unit :=
  try_catch
    (user ← auth_getUser;
     match user with
     | None => navigate (replace "/auth")
     | Some user =>
         setView (setCurrentUserId (auth.id user));;
         fetchProfile;;
         fetchUserPosts
     end)
    (λ error,
       console_error "Error checking user:";;
       navigate (replace "/auth")).

End UserProfileScreen.

(* ===================================================================== *)
(** ** The tab bar: unread counters and the notification list *)
(* ===================================================================== *)

(** A nullable [text] column read from a JSON row. *)
Definition text_column (o : gmap string jsval) (key : string) : option string :=
  match prop o key with
  | JStr s => Some s
  | _ => None
  end.

(** [`${x}`] for a string that may be [null]. *)
Definition template (x : option string) : string := default "null" x.

(** [`${obj.key}`] for an object of strings: a missing key prints as
    [undefined]. *)
Definition template_prop (o : gmap string string) (key : string) : string :=
  default "undefined" (o !! key).

Module TabLayout.

Record NotificationUser := {
  full_name : option string;
  avatar_url : option string }.

Record Notification := {
  id : string;
  type : string;
  data : gmap string string;
  read : bool;
  created_at : Z;
  user : NotificationUser }.

Record View := {
  unreadNotifications : Z;
  unreadMessages : Z;
  showNotifications : bool;
  notifications : list Notification }.

Definition setUnreadNotifications (n : Z) (v : View) : View :=
  {| unreadNotifications := n; unreadMessages := unreadMessages v;
     showNotifications := showNotifications v; notifications := notifications v |}.

Definition setUnreadMessages (n : Z) (v : View) : View :=
  {| unreadNotifications := unreadNotifications v; unreadMessages := n;
     showNotifications := showNotifications v; notifications := notifications v |}.

Definition setShowNotifications (b : bool) (v : View) : View :=
  {| unreadNotifications := unreadNotifications v; unreadMessages := unreadMessages v;
     showNotifications := b; notifications := notifications v |}.

Definition setNotifications (l : list Notification) (v : View) : View :=
  {| unreadNotifications := unreadNotifications v; unreadMessages := unreadMessages v;
     showNotifications := showNotifications v; notifications := l |}.

(** *** The queries of this screen, as a healthy backend answers them *)

(** The rows [.eq('user_id', uid).eq('read', false)] selects. *)
Definition unread_of (uid : string) (r : notifications.row) : Prop :=
  notifications.user_id r = uid ∧ notifications.read r = false.

#[global] Instance unread_of_dec uid r : Decision (unread_of uid r).
Proof. unfold unread_of. apply _. Defined.

Definition notifications_count_unread (uid : string) : Async View (Response unit) :=
  request_count "notifications" (λ b, length (filter (unread_of uid) (tbl_notifications b))).

Definition mark_read (r : notifications.row) : notifications.row :=
  {| notifications.id := notifications.id r;
     notifications.user_id := notifications.user_id r;
     notifications.type := notifications.type r;
     notifications.data := notifications.data r;
     notifications.read := true;
     notifications.created_at := notifications.created_at r |}.

(** [update({ read: true }).eq('user_id', uid).eq('read', false)] *)
Definition notifications_update_read (uid : string)
    : Async View (Response (list notifications.row)) :=
  request UPDATE "notifications" (λ b,
    ([],
     with_notifications
       (fmap (λ r, if decide (unread_of uid r) then mark_read r else r)) b)).

Definition chat_participants_select_eq_user_id (uid : string)
    : Async View (Response (list chat_participants.row)) :=
  request SELECT "chat_participants" (λ b,
    (filter (λ r, chat_participants.user_id r = uid) (tbl_chat_participants b), b)).

(** The rows [.in('chat_id', chatIds).is('read_at', null).neq('user_id', uid)]
    selects. *)
Definition unread_message (chatIds : list string) (uid : string) (m : messages.row) : Prop :=
  messages.chat_id m ∈ chatIds ∧ messages.read_at m = None ∧ messages.user_id m ≠ uid.

#[global] Instance unread_message_dec chatIds uid m : Decision (unread_message chatIds uid m).
Proof. unfold unread_message. apply _. Defined.

Definition messages_count_unread (chatIds : list string) (uid : string)
    : Async View (Response unit) :=
  request_count "messages" (λ b, length (filter (unread_message chatIds uid) (tbl_messages b))).

(** [.order('created_at', { ascending: false })] *)
Definition newer_first (x y : notifications.row) : Prop :=
  notifications.created_at y ≤ notifications.created_at x.

#[global] Instance newer_first_dec x y : Decision (newer_first x y).
Proof. unfold newer_first. apply _. Defined.

(** The embedded [user:profiles!notifications_user_id_fkey(full_name,
    avatar_url)]: the foreign key guarantees the profile row. *)
Definition embed_user (b : Backend) (r : notifications.row) : option Notification :=
  p ← head (filter (λ p, profiles.id p = notifications.user_id r) (tbl_profiles b));
  Some {| id := notifications.id r;
          type := notifications.type r;
          data := notifications.data r;
          read := notifications.read r;
          created_at := notifications.created_at r;
          user := {| full_name := text_column (profiles.columns p) "full_name";
                     avatar_url := text_column (profiles.columns p) "avatar_url" |} |}.

Definition notifications_select_eq_user_id (uid : string)
    : Async View (Response (list Notification)) :=
  request SELECT "notifications" (λ b,
    (omap (embed_user b)
       (merge_sort newer_first
          (filter (λ r, notifications.user_id r = uid) (tbl_notifications b))),
     b)).

(** *** The handlers *)

Definition fetchUnreadNotifications : Async View unit :=
  try_catch
    (user ← auth_getUser;
     match user with
     | None => mret ()
     | Some user =>
         r ← notifications_count_unread (auth.id user);
         setView (setUnreadNotifications (or_zero (count r)))
     end)
    (λ error,
       console_error "Error fetching notifications:";;
       setView (setUnreadNotifications 0)).

Definition fetchUnreadMessages : Async View unit :=
  try_catch
    (user ← auth_getUser;
     match user with
     | None => mret ()
     | Some user =>
         r ← chat_participants_select_eq_user_id (auth.id user);
         match supabase.data r with
         | None => mret ()
         | Some participatedChats =>
             let chatIds := chat_participants.chat_id <$> participatedChats in
             r ← messages_count_unread chatIds (auth.id user);
             setView (setUnreadMessages (or_zero (count r)))
         end
     end)
    (λ error,
       console_error "Error fetching unread messages:";;
       setView (setUnreadMessages 0)).

Definition fetchNotifications : Async View unit :=
  try_catch
    (user ← auth_getUser;
     match user with
     | None => mret ()
     | Some user =>
         r ← notifications_select_eq_user_id (auth.id user);
         throw_if (error r);;
         setView (setNotifications (default [] (supabase.data r)))
     end)
    (λ error, console_error "Error fetching notifications:").

(** [Promise.all] of the three fetches; each one handles its own errors. *)
Definition fetchUnreadCounts : Async View unit :=
  fetchUnreadNotifications;;
  fetchUnreadMessages;;
  fetchNotifications.

Definition markNotificationsAsRead : Async View unit :=
  try_catch
    (user ← auth_getUser;
     match user with
     | None => mret ()
     | Some user =>
         notifications_update_read (auth.id user);;
         setView (setUnreadNotifications 0);;
         fetchNotifications
     end)
    (λ error, console_error "Error marking notifications as read:").

(** What [getNotificationContent] returns: the line to show and what a tap
    does. *)
Record NotificationContent := {
  text : string;
  onPress : Async View unit }.

(** The tap handler of the three handled types: close the list, open
    [href]. *)
Definition open_route (href : string) : Async View unit :=
  setView (setShowNotifications false);;
  navigate (push href).

Definition getNotificationContent (notification : Notification) : NotificationContent :=
  let user := user notification in
  if decide (type notification = "like") then
    {| text := template (full_name user) +:+ " лайкнул ваш пост";
       onPress := open_route ("/post/" +:+ template_prop (data notification) "post_id") |}
  else if decide (type notification = "comment") then
    {| text := template (full_name user) +:+ " прокомментировал ваш пост";
       onPress := open_route ("/post/" +:+ template_prop (data notification) "post_id") |}
  else if decide (type notification = "follow") then
    {| text := template (full_name user) +:+ " подписался на вас";
       onPress := open_route ("/" +:+ template_prop (data notification) "follower_id") |}
  else
    {| text := "Новое уведомление";
       onPress := mret () |}.

End TabLayout.

(* ===================================================================== *)
(** ** The feed *)
(* ===================================================================== *)

Module FeedScreen.

Record PostUser := {
  full_name : option string;
  avatar_url : option string }.

Record Post := {
  id : string;
  user_id : option string;
  content : jsstring;
  image_url : option string;
  likes : Z;
  comments_count : Z;
  latitude : option Q;
  longitude : option Q;
  created_at : Z;
  user : option PostUser;
  liked_by_user : bool }.

Record Coords := { coords_latitude : Q; coords_longitude : Q }.

Record View := {
  posts : list Post;
  isCreating : bool;
  content_input : jsstring;        (* the state cell [content] *)
  selectedImage : option string;
  location : option Coords;
  isLoading : bool;
  refreshing : bool }.

Definition setPosts (l : list Post) (v : View) : View :=
  {| posts := l; isCreating := isCreating v; content_input := content_input v;
     selectedImage := selectedImage v; location := location v;
     isLoading := isLoading v; refreshing := refreshing v |}.

Definition setIsCreating (b : bool) (v : View) : View :=
  {| posts := posts v; isCreating := b; content_input := content_input v;
     selectedImage := selectedImage v; location := location v;
     isLoading := isLoading v; refreshing := refreshing v |}.

Definition setContent (c : jsstring) (v : View) : View :=
  {| posts := posts v; isCreating := isCreating v; content_input := c;
     selectedImage := selectedImage v; location := location v;
     isLoading := isLoading v; refreshing := refreshing v |}.

Definition setSelectedImage (i : option string) (v : View) : View :=
  {| posts := posts v; isCreating := isCreating v; content_input := content_input v;
     selectedImage := i; location := location v;
     isLoading := isLoading v; refreshing := refreshing v |}.

Definition setLocation (l : option Coords) (v : View) : View :=
  {| posts := posts v; isCreating := isCreating v; content_input := content_input v;
     selectedImage := selectedImage v; location := l;
     isLoading := isLoading v; refreshing := refreshing v |}.

Definition setIsLoading (b : bool) (v : View) : View :=
  {| posts := posts v; isCreating := isCreating v; content_input := content_input v;
     selectedImage := selectedImage v; location := location v;
     isLoading := b; refreshing := refreshing v |}.

(** *** The queries of this screen, as a healthy backend answers them *)

(** A row of [select(`*, user:profiles(...), likes(user_id),
    comments:comments(count)`)]: the post with its embedded relations. *)
Record PostData := {
  row : posts.row;
  embedded_user : option PostUser;
  embedded_likes : option (list string);      (* the [user_id] of each like *)
  embedded_comments : option (list agg.row) }.

(** [.order('created_at', { ascending: false })] *)
Definition newer_first (x y : posts.row) : Prop :=
  posts.created_at y ≤ posts.created_at x.

#[global] Instance newer_first_dec x y : Decision (newer_first x y).
Proof. unfold newer_first. apply _. Defined.

Definition likes_of (pid : string) (b : Backend) : list likes.row :=
  filter (λ l, likes.post_id l = pid) (tbl_likes b).

Definition comments_of (pid : string) (b : Backend) : list comments.row :=
  filter (λ c, comments.post_id c = pid) (tbl_comments b).

Definition embed (b : Backend) (p : posts.row) : PostData :=
  {| row := p;
     embedded_user :=
       (λ u, {| full_name := text_column (profiles.columns u) "full_name";
                avatar_url := text_column (profiles.columns u) "avatar_url" |})
         <$> head (filter (λ u, Some (profiles.id u) = posts.user_id p) (tbl_profiles b));
     embedded_likes := Some (likes.user_id <$> likes_of (posts.id p) b);
     embedded_comments :=
       Some [ {| agg.count := Z.of_nat (length (comments_of (posts.id p) b)) |} ] |}.

Definition posts_select_order_created_at : Async View (Response (list PostData)) :=
  request SELECT "posts" (λ b, (embed b <$> merge_sort newer_first (tbl_posts b), b)).

Definition likes_delete_match (postId uid : string) : Async View (Response (list likes.row)) :=
  request DELETE "likes" (λ b,
    ([],
     with_likes
       (filter (λ l, ¬ (likes.post_id l = postId ∧ likes.user_id l = uid))) b)).

Definition likes_insert (postId uid : string) : Async View (Response (list likes.row)) :=
  request INSERT "likes" (λ b,
    ([],
     with_likes (λ t, t ++ [ {| likes.post_id := postId; likes.user_id := uid |} ]) b)).

(** What [storage.upload] resolves [data] to. *)
Record UploadData := { path : string }.

(** [supabase.storage.from('post-images').upload(name, formData)] *)
Definition storage_upload (name : string) : Async View (Response UploadData) :=
  λ s,
    match request UPLOAD "post-images"
            (λ b, ({| path := name |}, with_post_images (λ o, o ++ [name]) b)) s with
    | (Normal r, s') =>
        (Normal {| data := data r; count := None;
                   error := (λ _, StorageError) <$> error r |}, s')
    | (Abrupt e, s') => (Abrupt e, s')
    end.

(** [getPublicUrl]: computed by the client, relative to the project's
    storage root. *)
Definition storage_getPublicUrl (path : string) : string :=
  "/storage/v1/object/public/post-images/" +:+ path.

(** [insert([{ content, image_url, latitude, longitude }])]: the database
    fills in the id, the author and the creation time. *)
Definition posts_insert (content : jsstring) (image_url : option string)
    (latitude longitude : option Q) : Async View (Response (list posts.row)) :=
  request INSERT "posts" (λ b,
    ([],
     with_id_supply (λ g n, g (S n))
       (with_posts
          (λ t, t ++ [ {| posts.id := id_supply b 0%nat;
                          posts.user_id := auth.id <$> session b;
                          posts.content := content;
                          posts.image_url := image_url;
                          posts.latitude := latitude;
                          posts.longitude := longitude;
                          posts.created_at := db_now b |} ]) b))).

(** *** The handlers *)

(** One element of [data.map(post => ({ ...post, likes: ..., ... }))]. *)
Definition with_counts (user : auth.User) (post : PostData) : Post :=
  {| id := posts.id (row post);
     user_id := posts.user_id (row post);
     content := posts.content (row post);
     image_url := posts.image_url (row post);
     latitude := posts.latitude (row post);
     longitude := posts.longitude (row post);
     created_at := posts.created_at (row post);
     user := embedded_user post;
     likes := or_zero ((λ l, Z.of_nat (length l)) <$> embedded_likes post);
     comments_count :=
       or_zero (embedded_comments post ≫= λ c, agg.count <$> c !! 0%nat);
     liked_by_user :=
       default false
         ((λ l, existsb (λ like, String.eqb like (auth.id user)) l)
            <$> embedded_likes post) |}.

Definition fetchPosts : Async View unit :=
  try_catch
    (user ← auth_getUser;
     match user with
     | None => mret ()
     | Some user =>
         r ← posts_select_order_created_at;
         throw_if (error r);;
         data ← deref (data r);
         let postsWithCounts := with_counts user <$> data in
         setView (setPosts postsWithCounts)
     end)
    (λ error, console_error "Error fetching posts:").

(** The [{ ...p, likes: ..., liked_by_user: ... }] of [handleLike]. *)
Definition toggled (post p : Post) : Post :=
  {| id := id p; user_id := user_id p; content := content p;
     image_url := image_url p; latitude := latitude p; longitude := longitude p;
     created_at := created_at p; user := user p;
     comments_count := comments_count p;
     likes := if liked_by_user post then likes p - 1 else likes p + 1;
     liked_by_user := negb (liked_by_user post) |}.

Definition handleLike (postId : string) : Async View unit :=
  v ← getView;
  let posts := posts v in
  try_catch
    (user ← auth_getUser;
     match user with
     | None => mret ()
     | Some user =>
         match find (λ p, String.eqb (id p) postId) posts with
         | None => mret ()
         | Some post =>
             (if liked_by_user post
              then likes_delete_match postId (auth.id user)
              else likes_insert postId (auth.id user));;
             setView (setPosts
               ((λ p, if String.eqb (id p) postId then toggled post p else p) <$> posts))
         end
     end)
    (λ error, console_error "Error handling like:").

Definition handleCreatePost : Async View unit :=
  v ← getView;
  let content := content_input v in
  let selectedImage := selectedImage v in
  let location := location v in
  if negb (truthy_jsstring (trim content)) && negb (truthy_string selectedImage)
  then mret ()
  else
    setView (setIsLoading true);;
    finally
      (try_catch
         (imageUrl ←
            (if truthy_string selectedImage then
               now ← getDate_now;
               r ← storage_upload ("post-" +:+ pretty now +:+ ".jpg");
               let uploadData := data r in
               throw_if (error r);;
               uploadData ← deref uploadData;
               mret (Some (storage_getPublicUrl (path uploadData)))
             else mret None);
          r ← posts_insert content imageUrl
                (coords_latitude <$> location) (coords_longitude <$> location);
          throw_if (error r);;
          setView (setContent []);;
          setView (setSelectedImage None);;
          setView (setLocation None);;
          setView (setIsCreating false);;
          fetchPosts)
         (λ error, console_error "Error creating post:"))
      (setView (setIsLoading false)).

(** *** The mount and the pull to refresh *)

Definition setRefreshing (b : bool) (v : View) : View :=
  {| posts := posts v; isCreating := isCreating v; content_input := content_input v;
     selectedImage := selectedImage v; location := location v;
     isLoading := isLoading v; refreshing := b |}.

Definition checkUser : Async View unit :=
  try_catch
    (user ← auth_getUser;
     match user with
     | None => navigate (replace "/auth")
     | Some user => fetchPosts
     end)
    (λ error,
       console_error "Error checking user:";;
       navigate (replace "/auth")).

Definition onRefresh : Async View unit :=
  setView (setRefreshing true);;
  fetchPosts;;
  setView (setRefreshing false).

End FeedScreen.

(* ===================================================================== *)
(** ** The signed-in user's own profile *)
(* ===================================================================== *)

Module ProfileScreen.

Definition PROFILE_FIELDS : list string :=
  [ "full_name"; "avatar_url"; "bio"; "city"; "experience_years";
    "skates"; "sports"; "skating_style" ].

(** The profile is kept as the object the query returned, with the three
    counts added: the screen reads its fields by name.  The state cells the
    handlers below never touch (the edit form's flags, the follower lists)
    are left out. *)
Record View := {
  profile : option (gmap string jsval);
  loading : bool;
  editedProfile : gmap string jsval;
  error_banner : option string }.   (* the state cell [error] *)

Definition setProfile (p : gmap string jsval) (v : View) : View :=
  {| profile := Some p; loading := loading v;
     editedProfile := editedProfile v; error_banner := error_banner v |}.

Definition setLoading (l : bool) (v : View) : View :=
  {| profile := profile v; loading := l;
     editedProfile := editedProfile v; error_banner := error_banner v |}.

Definition setEditedProfile (p : gmap string jsval) (v : View) : View :=
  {| profile := profile v; loading := loading v;
     editedProfile := p; error_banner := error_banner v |}.

Definition setError (e : string) (v : View) : View :=
  {| profile := profile v; loading := loading v;
     editedProfile := editedProfile v; error_banner := Some e |}.

(** [value && (Array.isArray(value) ? value.length > 0 : true)] *)
Definition completed (profile : gmap string jsval) (field : string) : bool :=
  let value := prop profile field in
  truthy value
  && match value with
     | JArr l => bool_decide (0 < length l)%nat
     | _ => true
     end.

Definition completedFields (profile : gmap string jsval) : list string :=
  List.filter (completed profile) PROFILE_FIELDS.

Definition completionPercentage (profile : option (gmap string jsval)) : Z :=
  match profile with
  | None => 0
  | Some profile =>
      Math_round
        (inject_Z (Z.of_nat (length (completedFields profile)))
         / inject_Z (Z.of_nat (length PROFILE_FIELDS)) * 100)%Q
  end.

Definition isVerified (profile : option (gmap string jsval)) : bool :=
  match profile with
  | None => false
  | Some _ => 80 <=? completionPercentage profile
  end.

(** *** The queries of this screen, as a healthy backend answers them *)

(** [select('*')]: the whole row as an object. *)
Definition row_object (r : profiles.row) : gmap string jsval :=
  <["id" := JStr (profiles.id r)]> (profiles.columns r).

Definition profiles_select_eq_id (id : string)
    : Async View (Response (list (gmap string jsval))) :=
  request SELECT "profiles" (λ b,
    (row_object <$> filter (λ r, profiles.id r = id) (tbl_profiles b), b)).

Definition followers_of (id : string) (b : Backend) : list follows.row :=
  filter (λ r, follows.following_id r = id) (tbl_follows b).

Definition followed_by (id : string) (b : Backend) : list follows.row :=
  filter (λ r, follows.follower_id r = id) (tbl_follows b).

Definition posts_of (id : string) (b : Backend) : list posts.row :=
  filter (λ p, posts.user_id p = Some id) (tbl_posts b).

Definition follows_count_eq_following_id (id : string) : Async View (Response unit) :=
  request_count "follows" (λ b, length (followers_of id b)).

Definition follows_count_eq_follower_id (id : string) : Async View (Response unit) :=
  request_count "follows" (λ b, length (followed_by id b)).

Definition posts_count_eq_user_id (id : string) : Async View (Response unit) :=
  request_count "posts" (λ b, length (posts_of id b)).

(** *** The handler *)

Definition number (n : Z) : jsval := JNum (inject_Z n).

Definition fetchProfile : Async View unit :=
  finally
    (try_catch
       (user ← auth_getUser;
        user ← match user with
               | None => throw (Error "No user found")
               | Some user => mret user
               end;
        r ← single <$> profiles_select_eq_id (auth.id user);
        let profileData := data r in
        throw_if (error r);;
        r ← follows_count_eq_following_id (auth.id user);
        let followersCount := count r in
        throw_if (error r);;
        r ← follows_count_eq_follower_id (auth.id user);
        let followingCount := count r in
        throw_if (error r);;
        r ← posts_count_eq_user_id (auth.id user);
        let postsCount := count r in
        throw_if (error r);;
        let profile :=
          <["posts_count" := number (or_zero postsCount)]>
            (<["following_count" := number (or_zero followingCount)]>
               (<["followers_count" := number (or_zero followersCount)]>
                  (default ∅ profileData))) in
        setView (setProfile profile);;
        setView (setEditedProfile profile))
       (λ error,
          console_error "Error fetching profile:";;
          setView (setError "Failed to load profile data")))
    (setView (setLoading false)).

End ProfileScreen.

(* ===================================================================== *)
(** ** Elapsed-time labels *)
(* ===================================================================== *)

(** The numbers of the label functions: an integer, or NaN.  A date is its
    time in milliseconds; [new Date(s)] of an unreadable string is an invalid
    date, whose [getTime()] is NaN.  [Math.floor(x / c)] on doubles is the
    floor of the exact quotient for integers below 2^53, which times in
    milliseconds and their differences are. *)
Definition jsnum := option Z.

Definition num_minus (a b : jsnum) : jsnum :=
  x ← a; y ← b; Some (x - y).

(** [Math.floor(a / c)] *)
Definition num_floor_div (a : jsnum) (c : Z) : jsnum := (λ x, x / c) <$> a.

(** [a === k] and [a < k]: false when [a] is NaN. *)
Definition num_eq (a : jsnum) (k : Z) : bool := from_option (λ x, x =? k) false a.

Definition num_lt (a : jsnum) (k : Z) : bool := from_option (λ x, x <? k) false a.

(** [`${a}`] *)
Definition num_show (a : jsnum) : string := from_option pretty "NaN" a.

(** [getTimeSince] of the screen of another user's profile; [now] is the
    time of [new Date()]. *)
Definition getTimeSince (now : Z) (date : jsnum) : string :=
  let past := date in
  let diff := num_minus (Some now) past in
  let days := num_floor_div diff (1000 * 60 * 60 * 24) in
  if num_eq days 0 then "Сегодня"
  else if num_eq days 1 then "Вчера"
  else if num_lt days 7 then num_show days +:+ " дн. назад"
  else if num_lt days 30 then num_show (num_floor_div days 7) +:+ " нед. назад"
  else if num_lt days 365 then num_show (num_floor_div days 30) +:+ " мес. назад"
  else num_show (num_floor_div days 365) +:+ " г. назад".

Section TimeAgo.
(** [Date.prototype.toLocaleDateString], which depends on the device's
    locale. *)
Variable toLocaleDateString : jsnum → string.

(** [getTimeAgo], the same function in the tab bar and in the feed. *)
Definition getTimeAgo (now : Z) (date : jsnum) : string :=
  let past := date in
  let diff := num_minus (Some now) past in
  let minutes := num_floor_div diff 60000 in
  let hours := num_floor_div minutes 60 in
  let days := num_floor_div hours 24 in
  if num_lt minutes 60 then num_show minutes +:+ " мин."
  else if num_lt hours 24 then num_show hours +:+ " ч."
  else if num_lt days 7 then num_show days +:+ " дн."
  else toLocaleDateString past.

End TimeAgo.

(* ===================================================================== *)
(** ** The own profile: edit form, posts and follower lists *)
(* ===================================================================== *)

Definition with_profiles (f : list profiles.row → list profiles.row) (b : Backend) : Backend :=
  {| session := session b; tbl_profiles := f (tbl_profiles b);
     tbl_follows := tbl_follows b; tbl_posts := tbl_posts b;
     tbl_likes := tbl_likes b; tbl_comments := tbl_comments b;
     tbl_chats := tbl_chats b;
     tbl_chat_participants := tbl_chat_participants b;
     tbl_messages := tbl_messages b;
     tbl_notifications := tbl_notifications b;
     bucket_post_images := bucket_post_images b;
     id_supply := id_supply b; db_now := db_now b;
     faults := faults b; requests := requests b |}.

(** [Promise.all(callbacks)]: every callback is started, in order, whatever
    the others do; the results keep that order; one rejection rejects the
    whole. *)
Fixpoint Promise_all {V A} (ps : list (Async V A)) : Async V (list A) :=
  match ps with
  | [] => mret []
  | p :: rest =>
      λ s,
        match p s with
        | (Normal a, s') =>
            match Promise_all rest s' with
            | (Normal l, s'') => (Normal (a :: l), s'')
            | (Abrupt e, s'') => (Abrupt e, s'')
            end
        | (Abrupt e, s') =>
            match Promise_all rest s' with
            | (_, s'') => (Abrupt e, s'')
            end
        end
  end.

(** [ProfileScreen] again, now with the state cells of the edit form, of the
    posts and of the follower lists, which the handlers here read and
    write. *)
Module ProfileScreenEditing.

(** The embedded profile of a follow edge: [id, full_name, avatar_url]. *)
Record Snippet := {
  id : string;
  full_name : option string;
  avatar_url : option string }.

Record Post := {
  post_id : string;
  content : jsstring;
  image_url : option string;
  likes : Z;
  created_at : Z }.

Record View := {
  profile : option (gmap string jsval);
  isEditing : bool;
  editedProfile : gmap string jsval;
  saving : bool;
  error_banner : option string;     (* the state cell [error] *)
  userPosts : list Post;
  followers : list (option Snippet);
  following : list (option Snippet) }.

Definition setProfile (p : gmap string jsval) (v : View) : View :=
  {| profile := Some p; isEditing := isEditing v; editedProfile := editedProfile v;
     saving := saving v; error_banner := error_banner v; userPosts := userPosts v;
     followers := followers v; following := following v |}.

Definition setIsEditing (b : bool) (v : View) : View :=
  {| profile := profile v; isEditing := b; editedProfile := editedProfile v;
     saving := saving v; error_banner := error_banner v; userPosts := userPosts v;
     followers := followers v; following := following v |}.

Definition setEditedProfile (p : gmap string jsval) (v : View) : View :=
  {| profile := profile v; isEditing := isEditing v; editedProfile := p;
     saving := saving v; error_banner := error_banner v; userPosts := userPosts v;
     followers := followers v; following := following v |}.

Definition setSaving (b : bool) (v : View) : View :=
  {| profile := profile v; isEditing := isEditing v; editedProfile := editedProfile v;
     saving := b; error_banner := error_banner v; userPosts := userPosts v;
     followers := followers v; following := following v |}.

Definition setError (e : option string) (v : View) : View :=
  {| profile := profile v; isEditing := isEditing v; editedProfile := editedProfile v;
     saving := saving v; error_banner := e; userPosts := userPosts v;
     followers := followers v; following := following v |}.

Definition setUserPosts (l : list Post) (v : View) : View :=
  {| profile := profile v; isEditing := isEditing v; editedProfile := editedProfile v;
     saving := saving v; error_banner := error_banner v; userPosts := l;
     followers := followers v; following := following v |}.

Definition setFollowers (l : list (option Snippet)) (v : View) : View :=
  {| profile := profile v; isEditing := isEditing v; editedProfile := editedProfile v;
     saving := saving v; error_banner := error_banner v; userPosts := userPosts v;
     followers := l; following := following v |}.

Definition setFollowing (l : list (option Snippet)) (v : View) : View :=
  {| profile := profile v; isEditing := isEditing v; editedProfile := editedProfile v;
     saving := saving v; error_banner := error_banner v; userPosts := userPosts v;
     followers := followers v; following := l |}.

(** *** The sports of the edit form *)

(** [editedProfile.sports || []]: the interface declares an array or [null]. *)
Definition sports_or_empty (v : jsval) : list jsval :=
  match v with
  | JArr l => l
  | _ => []
  end.

(** [s === sport] for an element of the array and a string. *)
Definition is_sport (sport : string) (s : jsval) : bool :=
  match s with
  | JStr x => String.eqb x sport
  | _ => false
  end.

Definition toggleSport (sport : string) : Async View unit :=
  v ← getView;
  let editedProfile := editedProfile v in
  let currentSports := sports_or_empty (prop editedProfile "sports") in
  let newSports :=
    if existsb (is_sport sport) currentSports
    then List.filter (λ s, negb (is_sport sport s)) currentSports
    else currentSports ++ [JStr sport] in
  setView (setEditedProfile (<["sports" := JArr newSports]> editedProfile)).

(** *** Saving the edit form *)

(** [profile?.id], when it is a non-empty string as the interface declares;
    [!profile?.id] holds for the other values modelled here as for a missing
    or empty id. *)
Definition profile_id (profile : option (gmap string jsval)) : option string :=
  p ← profile;
  match prop p "id" with
  | JStr s => if String.eqb s "" then None else Some s
  | _ => None
  end.

Section Save.
(** [Date.prototype.toISOString] *)
Variable toISOString : Z → string.

(** The row after [update({ full_name, bio, avatar_url, sports,
    updated_at })]: a property that is [undefined] is not part of the
    request's JSON and leaves its column alone. *)
Definition updated (editedProfile : gmap string jsval) (now : Z)
    (columns : gmap string jsval) : gmap string jsval :=
  <["updated_at" := JStr (toISOString now)]>
    (foldr
       (λ key c,
          match prop editedProfile key with
          | JUndefined => c
          | value => <[key := value]> c
          end)
       columns
       ["full_name"; "bio"; "avatar_url"; "sports"]).

Definition profiles_update_eq_id (editedProfile : gmap string jsval) (now : Z) (id : string)
    : Async View (Response (list profiles.row)) :=
  request UPDATE "profiles" (λ b,
    ([],
     with_profiles
       (fmap (λ r, if decide (profiles.id r = id)
                   then {| profiles.id := profiles.id r;
                           profiles.columns := updated editedProfile now (profiles.columns r) |}
                   else r)) b)).

Definition saveProfile : Async View unit :=
  v ← getView;
  let editedProfile := editedProfile v in
  match profile_id (profile v) with
  | None => mret ()
  | Some id =>
      let profile := default ∅ (profile v) in
      setView (setSaving true);;
      setView (setError None);;
      finally
        (try_catch
           (now ← getDate_now;
            r ← profiles_update_eq_id editedProfile now id;
            throw_if (error r);;
            setView (setProfile (editedProfile ∪ profile));;
            setView (setIsEditing false))
           (λ error,
              console_error "Error saving profile:";;
              setView (setError (Some "Ошибка при сохранении профиля"))))
        (setView (setSaving false))
  end.

End Save.

(** *** The posts and the follower lists *)

Definition posts_select_eq_user_id (uid : string) : Async View (Response (list posts.row)) :=
  request SELECT "posts" (λ b,
    (merge_sort FeedScreen.newer_first
       (filter (λ p, posts.user_id p = Some uid) (tbl_posts b)),
     b)).

Definition likes_count_eq_post_id (pid : string) : Async View (Response unit) :=
  request_count "likes" (λ b, length (filter (λ l, likes.post_id l = pid) (tbl_likes b))).

Definition fetchUserPosts : Async View unit :=
  try_catch
    (user ← auth_getUser;
     match user with
     | None => mret ()
     | Some user =>
         r ← posts_select_eq_user_id (auth.id user);
         let posts := data r in
         throw_if (error r);;
         posts ← deref posts;
         postsWithLikes ←
           Promise_all
             ((λ post,
                 r ← likes_count_eq_post_id (posts.id post);
                 mret {| post_id := posts.id post;
                         content := posts.content post;
                         image_url := posts.image_url post;
                         created_at := posts.created_at post;
                         likes := or_zero (count r) |})
                <$> posts);
         setView (setUserPosts postsWithLikes)
     end)
    (λ error,
       console_error "Error fetching user posts:";;
       setView (setError (Some "Failed to load posts"))).

(** The profile a follow edge embeds through its foreign key. *)
Definition embed_profile (b : Backend) (uid : string) : option Snippet :=
  (λ p, {| id := profiles.id p;
           full_name := text_column (profiles.columns p) "full_name";
           avatar_url := text_column (profiles.columns p) "avatar_url" |})
    <$> head (filter (λ p, profiles.id p = uid) (tbl_profiles b)).

Definition follows_select_follower (uid : string)
    : Async View (Response (list (option Snippet))) :=
  request SELECT "follows" (λ b,
    ((λ e, embed_profile b (follows.follower_id e))
       <$> filter (λ e, follows.following_id e = uid) (tbl_follows b),
     b)).

Definition follows_select_following (uid : string)
    : Async View (Response (list (option Snippet))) :=
  request SELECT "follows" (λ b,
    ((λ e, embed_profile b (follows.following_id e))
       <$> filter (λ e, follows.follower_id e = uid) (tbl_follows b),
     b)).

Definition fetchFollowers : Async View unit :=
  try_catch
    (user ← auth_getUser;
     match user with
     | None => mret ()
     | Some user =>
         r ← follows_select_follower (auth.id user);
         throw_if (error r);;
         data ← deref (data r);
         setView (setFollowers data)
     end)
    (λ error, console_error "Error fetching followers:").

Definition fetchFollowing : Async View unit :=
  try_catch
    (user ← auth_getUser;
     match user with
     | None => mret ()
     | Some user =>
         r ← follows_select_following (auth.id user);
         throw_if (error r);;
         data ← deref (data r);
         setView (setFollowing data)
     end)
    (λ error, console_error "Error fetching following:").

End ProfileScreenEditing.

(* ===================================================================== *)
(** ** Stating what the handlers do *)
(* ===================================================================== *)

(** Unfolds the statements of a handler on a given system state, leaving the
    table contents and the view's own fields alone. *)
Ltac run_async :=
  cbv beta iota zeta delta
    [mbind mret fmap Async_bind Async_ret Async_fmap
     throw try_catch finally getView setView console_error navigate getDate_now
     with_backend request request_count single auth_getUser throw_if deref
     receive next_fault from_option Datatypes.id head tail fst snd
     view backend router console Date_now
     session tbl_profiles tbl_follows tbl_posts tbl_likes tbl_comments tbl_chats
     tbl_chat_participants tbl_messages tbl_notifications bucket_post_images
     id_supply db_now faults requests
     with_follows with_posts with_likes with_chats with_chat_participants
     with_notifications with_post_images with_id_supply
     data count error].

(** The follow edge from the signed-in user to the profile on screen. *)
Definition follow_edge (u : auth.User) (p : UserProfileScreen.Profile) : follows.row :=
  {| follows.follower_id := auth.id u;
     follows.following_id := UserProfileScreen.id p |}.

(** The [follows] table once the backend has carried out the toggle. *)
Definition follows_after_toggle (u : auth.User) (p : UserProfileScreen.Profile)
    (t : list follows.row) : list follows.row :=
  if UserProfileScreen.is_following p
  then filter (λ r, ¬ (follows.follower_id r = auth.id u
                       ∧ follows.following_id r = UserProfileScreen.id p)) t
  else t ++ [follow_edge u p].

(** The like edge of a viewer on a post. *)
Definition like_edge (postId : string) (u : auth.User) : likes.row :=
  {| likes.post_id := postId; likes.user_id := auth.id u |}.

Definition likes_after_toggle (u : auth.User) (post : FeedScreen.Post)
    (t : list likes.row) : list likes.row :=
  if FeedScreen.liked_by_user post
  then filter (λ l, ¬ (likes.post_id l = FeedScreen.id post
                       ∧ likes.user_id l = auth.id u)) t
  else t ++ [like_edge (FeedScreen.id post) u].

(** The feed after [handleLike]: the post [postId] toggled, the others as
    they were. *)
Definition feed_after_toggle (postId : string) (post : FeedScreen.Post)
    (l : list FeedScreen.Post) : list FeedScreen.Post :=
  (λ p, if String.eqb (FeedScreen.id p) postId then FeedScreen.toggled post p else p) <$> l.

(** The rows of [chat_participants] that put [target] in a chat [me] is in
    too: one row per chat the two share. *)
Definition shared_chats (me target : string) (b : Backend) : list chat_participants.row :=
  filter
    (λ r, chat_participants.user_id r = target
          ∧ chat_participants.chat_id r
            ∈ (chat_participants.chat_id
                 <$> filter (λ r, chat_participants.user_id r = me)
                       (tbl_chat_participants b)))
    (tbl_chat_participants b).

(** *** Sample states *)

Definition sample_backend (who : option auth.User) (fs : list fault) : Backend :=
  {| session := who;
     tbl_profiles :=
       [ {| profiles.id := "me";
            profiles.columns :=
              {[ "full_name" := JStr "Mia"; "bio" := JStr "inline";
                 "sports" := JArr [JStr "Скейтборд"] ]} |};
         {| profiles.id := "bob";
            profiles.columns := {[ "full_name" := JStr "Bob" ]} |} ];
     tbl_follows :=
       [ {| follows.follower_id := "ann"; follows.following_id := "me" |};
         {| follows.follower_id := "bob"; follows.following_id := "me" |};
         {| follows.follower_id := "ann"; follows.following_id := "bob" |} ];
     tbl_posts :=
       [ {| posts.id := "p1"; posts.user_id := Some "bob"; posts.content := [104; 105]%N;
            posts.image_url := None; posts.latitude := None; posts.longitude := None;
            posts.created_at := 10 |};
         {| posts.id := "p2"; posts.user_id := Some "me"; posts.content := [];
            posts.image_url := Some "a.jpg"; posts.latitude := None;
            posts.longitude := None; posts.created_at := 30 |};
         {| posts.id := "p3"; posts.user_id := Some "bob"; posts.content := [111]%N;
            posts.image_url := None; posts.latitude := None; posts.longitude := None;
            posts.created_at := 20 |} ];
     tbl_likes :=
       [ {| likes.post_id := "p1"; likes.user_id := "me" |};
         {| likes.post_id := "p1"; likes.user_id := "ann" |};
         {| likes.post_id := "p3"; likes.user_id := "ann" |} ];
     tbl_comments := [ {| comments.id := "k1"; comments.post_id := "p1" |} ];
     tbl_chats := [ {| chats.id := "c1" |}; {| chats.id := "c2" |} ];
     tbl_chat_participants :=
       [ {| chat_participants.chat_id := "c1"; chat_participants.user_id := "me" |};
         {| chat_participants.chat_id := "c1"; chat_participants.user_id := "bob" |};
         {| chat_participants.chat_id := "c2"; chat_participants.user_id := "me" |};
         {| chat_participants.chat_id := "c2"; chat_participants.user_id := "bob" |} ];
     tbl_messages :=
       [ {| messages.id := "m1"; messages.chat_id := "c1"; messages.user_id := "bob";
            messages.read_at := None |};
         {| messages.id := "m2"; messages.chat_id := "c1"; messages.user_id := "me";
            messages.read_at := None |};
         {| messages.id := "m3"; messages.chat_id := "c9"; messages.user_id := "ann";
            messages.read_at := None |};
         {| messages.id := "m4"; messages.chat_id := "c2"; messages.user_id := "bob";
            messages.read_at := Some 5 |} ];
     tbl_notifications :=
       [ {| notifications.id := "n1"; notifications.user_id := "me";
            notifications.type := "like"; notifications.data := {[ "post_id" := "p2" ]};
            notifications.read := false; notifications.created_at := 40 |};
         {| notifications.id := "n2"; notifications.user_id := "bob";
            notifications.type := "follow"; notifications.data := {[ "follower_id" := "ann" ]};
            notifications.read := false; notifications.created_at := 41 |};
         {| notifications.id := "n3"; notifications.user_id := "me";
            notifications.type := "reply"; notifications.data := ∅;
            notifications.read := true; notifications.created_at := 42 |} ];
     bucket_post_images := [];
     id_supply := λ n, "new-" +:+ pretty n;
     db_now := 50;
     faults := fs;
     requests := [] |}.

Definition me : auth.User := {| auth.id := "me" |}.

Definition sample_sys {V} (v : V) (fs : list fault) : Sys V :=
  {| view := v; backend := sample_backend (Some me) fs;
     router := []; console := []; Date_now := 1700000000000 |}.

Definition bob_profile (following : bool) : UserProfileScreen.Profile :=
  {| UserProfileScreen.id := "bob";
     UserProfileScreen.full_name := JStr "Bob";
     UserProfileScreen.avatar_url := JNull;
     UserProfileScreen.bio := JNull;
     UserProfileScreen.sports := JNull;
     UserProfileScreen.followers_count := 1;
     UserProfileScreen.following_count := 1;
     UserProfileScreen.posts_count := 2;
     UserProfileScreen.created_at := JNull;
     UserProfileScreen.is_following := following |}.

Definition bob_screen (following : bool) : UserProfileScreen.View :=
  {| UserProfileScreen.route_id := "bob";
     UserProfileScreen.profile := Some (bob_profile following);
     UserProfileScreen.posts := [];
     UserProfileScreen.loading := false;
     UserProfileScreen.followLoading := false;
     UserProfileScreen.currentUserId := Some "me" |}.

Definition feed_post (pid : string) (n : Z) (liked : bool) : FeedScreen.Post :=
  {| FeedScreen.id := pid; FeedScreen.user_id := Some "bob"; FeedScreen.content := [];
     FeedScreen.image_url := None; FeedScreen.likes := n;
     FeedScreen.comments_count := 0; FeedScreen.latitude := None;
     FeedScreen.longitude := None; FeedScreen.created_at := 10;
     FeedScreen.user := None; FeedScreen.liked_by_user := liked |}.

Definition feed_screen (l : list FeedScreen.Post) (c : jsstring) : FeedScreen.View :=
  {| FeedScreen.posts := l; FeedScreen.isCreating := true;
     FeedScreen.content_input := c; FeedScreen.selectedImage := None;
     FeedScreen.location := None; FeedScreen.isLoading := false;
     FeedScreen.refreshing := false |}.

(** The number of distinct follow edges that point at [id]. *)
Definition distinct_followers (id : string) (b : Backend) : Z :=
  Z.of_nat (length (remove_dups (filter (λ r, follows.following_id r = id) (tbl_follows b)))).

Definition own_screen : ProfileScreen.View :=
  {| ProfileScreen.profile := None; ProfileScreen.loading := true;
     ProfileScreen.editedProfile := ∅; ProfileScreen.error_banner := None |}.

Definition blank_bob_screen : UserProfileScreen.View :=
  {| UserProfileScreen.route_id := "bob";
     UserProfileScreen.profile := None;
     UserProfileScreen.posts := [];
     UserProfileScreen.loading := true;
     UserProfileScreen.followLoading := false;
     UserProfileScreen.currentUserId := Some "me" |}.

(** A profile field counts as filled when its value is truthy and, for an
    array, non-empty. *)
Definition filled (profile : gmap string jsval) (field : string) : Prop :=
  match prop profile field with
  | JArr l => l ≠ []
  | v => truthy v = true
  end.

#[global] Instance filled_dec profile field : Decision (filled profile field).
Proof. unfold filled. destruct (prop profile field); apply _. Defined.

Definition indicator (P : Prop) `{Decision P} : Z := if decide P then 1 else 0.

(** How many of the eight profile fields are filled; none without a
    profile. *)
Definition filled_count (profile : option (gmap string jsval)) : Z :=
  match profile with
  | None => 0
  | Some p =>
      indicator (filled p "full_name") + indicator (filled p "avatar_url")
      + indicator (filled p "bio") + indicator (filled p "city")
      + indicator (filled p "experience_years") + indicator (filled p "skates")
      + indicator (filled p "sports") + indicator (filled p "skating_style")
  end.

Definition sample_notification (t : string) (name : string) : TabLayout.Notification :=
  {| TabLayout.id := "n1"; TabLayout.type := t;
     TabLayout.data := {[ "post_id" := "p2"; "follower_id" := "ann" ]};
     TabLayout.read := false; TabLayout.created_at := 40;
     TabLayout.user := {| TabLayout.full_name := Some name;
                          TabLayout.avatar_url := None |} |}.

Definition tab_screen (n m : Z) : TabLayout.View :=
  {| TabLayout.unreadNotifications := n; TabLayout.unreadMessages := m;
     TabLayout.showNotifications := true; TabLayout.notifications := [] |}.

(** The system once a notification was tapped open: the list closed, the
    route pushed. *)
Definition opened (href : string) (s : Sys TabLayout.View) : Sys TabLayout.View :=
  {| view := TabLayout.setShowNotifications false (view s); backend := backend s;
     router := router s ++ [push href]; console := console s;
     Date_now := Date_now s |}.

(** The [notifications] table once the user's unread rows are marked. *)
Definition marked (uid : string) (t : list notifications.row) : list notifications.row :=
  (λ r, if decide (TabLayout.unread_of uid r) then TabLayout.mark_read r else r) <$> t.

(** The user has a participant row in the chat. *)
Definition participates (uid : string) (b : Backend) (chat : string) : Prop :=
  Exists (λ r, chat_participants.user_id r = uid ∧ chat_participants.chat_id r = chat)
    (tbl_chat_participants b).

(** A message that belongs in the badge of [u]: in one of the user's chats,
    not read yet, written by somebody else. *)
Definition counts_as_unread (u : auth.User) (b : Backend) (m : messages.row) : Prop :=
  participates (auth.id u) b (messages.chat_id m)
  ∧ messages.read_at m = None
  ∧ messages.user_id m ≠ auth.id u.

#[global] Instance counts_as_unread_dec u b m : Decision (counts_as_unread u b m).
Proof. unfold counts_as_unread, participates. apply _. Defined.

(** The columns [saveProfile] sends. *)
Definition saved_keys : list string := ["full_name"; "bio"; "avatar_url"; "sports"].

(** The [profiles] table once the backend has carried out the update of
    [saveProfile]. *)
Definition profiles_after_save (toISOString : Z → string) (edited : gmap string jsval)
    (now : Z) (pid : string) (t : list profiles.row) : list profiles.row :=
  (λ r, if decide (profiles.id r = pid)
        then {| profiles.id := profiles.id r;
                profiles.columns :=
                  ProfileScreenEditing.updated toISOString edited now (profiles.columns r) |}
        else r) <$> t.

Definition editing_screen (p : option (gmap string jsval)) (draft : gmap string jsval)
    : ProfileScreenEditing.View :=
  {| ProfileScreenEditing.profile := p;
     ProfileScreenEditing.isEditing := true;
     ProfileScreenEditing.editedProfile := draft;
     ProfileScreenEditing.saving := false;
     ProfileScreenEditing.error_banner := None;
     ProfileScreenEditing.userPosts := [];
     ProfileScreenEditing.followers := [];
     ProfileScreenEditing.following := [] |}.

Definition my_profile : gmap string jsval :=
  {[ "id" := JStr "me"; "full_name" := JStr "Mia"; "bio" := JStr "inline";
     "city" := JStr "Riga" ]}.

Definition my_draft : gmap string jsval :=
  <["bio" := JStr "aggressive inline"]> (<["city" := JStr "Oslo"]> my_profile).

(** A stand-in for the ISO rendering of a time, for the sample runs. *)
Definition sample_toISOString (t : Z) : string := pretty t.

(** The backend after [n] requests of the same kind, all answered. *)
Definition received (n : nat) (r : Request) (b : Backend) : Backend :=
  Nat.iter n (receive r) b.

(** A post of the own profile with its like count read off the table. *)
Definition counted_post (b : Backend) (post : posts.row) : ProfileScreenEditing.Post :=
  {| ProfileScreenEditing.post_id := posts.id post;
     ProfileScreenEditing.content := posts.content post;
     ProfileScreenEditing.image_url := posts.image_url post;
     ProfileScreenEditing.created_at := posts.created_at post;
     ProfileScreenEditing.likes :=
       Z.of_nat (length (filter (λ l, likes.post_id l = posts.id post) (tbl_likes b))) |}.



Definition lists_screen : ProfileScreenEditing.View := editing_screen None ∅.


(** The name [handleCreatePost] uploads the attached image under. *)
Definition upload_name (now : Z) : string := "post-" +:+ pretty now +:+ ".jpg".

(** The row the database stores for the composer's post. *)
Definition composed_row (u : option auth.User) (s : Sys FeedScreen.View) : posts.row :=
  {| posts.id := id_supply (backend s) 0%nat;
     posts.user_id := auth.id <$> u;
     posts.content := FeedScreen.content_input (view s);
     posts.image_url :=
       if truthy_string (FeedScreen.selectedImage (view s))
       then Some (FeedScreen.storage_getPublicUrl (upload_name (Date_now s)))
       else None;
     posts.latitude := FeedScreen.coords_latitude <$> FeedScreen.location (view s);
     posts.longitude := FeedScreen.coords_longitude <$> FeedScreen.location (view s);
     posts.created_at := db_now (backend s) |}.

Definition draft_screen (c : jsstring) (image : option string) : FeedScreen.View :=
  {| FeedScreen.posts := [feed_post "p1" 2 true]; FeedScreen.isCreating := true;
     FeedScreen.content_input := c; FeedScreen.selectedImage := image;
     FeedScreen.location := None; FeedScreen.isLoading := false;
     FeedScreen.refreshing := false |}.

#[global] Instance fault_eq_dec : EqDecision fault.
Proof. solve_decision. Defined.

(** The search of [handleMessage] for a chat the two users share gives the
    handler no chat: the backend answers with an error or without data, or
    it answers and the rows are not exactly one. *)
Definition finds_no_chat (f : fault) (me target : string) (b : Backend) : Prop :=
  match f with
  | Healthy => ∀ c, shared_chats me target b ≠ [c]
  | ErrorResponse | NullPayload => True
  | Reject => False
  end.

(** The chat a healthy backend inserts next. *)
Definition next_chat (b : Backend) : chats.row := {| chats.id := id_supply b 0%nat |}.

(** The two participant rows [handleMessage] sends for a chat. *)
Definition participants_of (chat me target : string) : list chat_participants.row :=
  [ {| chat_participants.chat_id := chat; chat_participants.user_id := me |};
    {| chat_participants.chat_id := chat; chat_participants.user_id := target |} ].

(** *** What a handler leaves alone *)

(** The stored collections of the backend: the tables and the bucket. *)
Inductive table :=
  | Profiles | Follows | Posts | Likes | Comments | Chats | ChatParticipants
  | Messages | Notifications | PostImages.

Definition untouched (t : table) (b b' : Backend) : Prop :=
  match t with
  | Profiles => tbl_profiles b' = tbl_profiles b
  | Follows => tbl_follows b' = tbl_follows b
  | Posts => tbl_posts b' = tbl_posts b
  | Likes => tbl_likes b' = tbl_likes b
  | Comments => tbl_comments b' = tbl_comments b
  | Chats => tbl_chats b' = tbl_chats b
  | ChatParticipants => tbl_chat_participants b' = tbl_chat_participants b
  | Messages => tbl_messages b' = tbl_messages b
  | Notifications => tbl_notifications b' = tbl_notifications b
  | PostImages => bucket_post_images b' = bucket_post_images b
  end.

(** From [b] to [b'] the session is the same and so is every collection
    that is not listed in [ts]. *)
Definition changes_only (ts : list table) (b b' : Backend) : Prop :=
  session b' = session b ∧ ∀ t, t ∉ ts → untouched t b b'.

(** The handler [m] changes at most the collections [ts], from every state
    and under every schedule of answers. *)
Definition keeps {V A} (ts : list table) (m : Async V A) : Prop :=
  ∀ s, changes_only ts (backend s) (backend (m s).2).

(* ===================================================================== *)
(** ** The follow and like toggles *)
(* ===================================================================== *)

Section Toggles.
Import UserProfileScreen.

Lemma follow_edge_eq (e : follows.row) (u : auth.User) (p : Profile) :
  follows.follower_id e = auth.id u ∧ follows.following_id e = id p
  ↔ e = follow_edge u p.
Proof.
  destruct e. unfold follow_edge. simpl.
  split; [intros [-> ->]; done | intros [= -> ->]; done].
Qed.

Lemma toggled_toggled (p : Profile) : toggled (toggled p) = p.
Proof.
  destruct p as [? ? ? ? ? fc ? ? ? []]; unfold toggled; simpl; f_equal; lia.
Qed.

(** One run of [handleFollow], by the answer the backend gives to the
    delete or insert: only a rejected request keeps the profile as it was. *)
Lemma handleFollow_spec (s : Sys View) (p : Profile) (u : auth.User) :
  profile (view s) = Some p →
  session (backend s) = Some u →
  let s' := (handleFollow s).2 in
  faults (backend s') = tail (faults (backend s))
  ∧ session (backend s') = Some u
  ∧ match next_fault (backend s) with
    | Healthy | NullPayload =>
        profile (view s') = Some (toggled p)
        ∧ tbl_follows (backend s') = follows_after_toggle u p (tbl_follows (backend s))
    | ErrorResponse =>
        profile (view s') = Some (toggled p)
        ∧ tbl_follows (backend s') = tbl_follows (backend s)
    | Reject =>
        profile (view s') = Some p
        ∧ tbl_follows (backend s') = tbl_follows (backend s)
    end.
Proof.
  destruct s as [v b r c d], b, v. simpl. intros -> ->.
  unfold handleFollow, follows_delete_match, follows_insert, follows_after_toggle.
  destruct faults0 as [|[] fs], (is_following p) eqn:E; run_async;
    cbn [profile setProfile setFollowLoading]; rewrite ?E; done.
Qed.

End Toggles.

Section LikeToggle.
Import FeedScreen.

Lemma handleLike_spec (s : Sys View) (postId : string) (post : Post) (u : auth.User) :
  find (λ p, String.eqb (id p) postId) (posts (view s)) = Some post →
  session (backend s) = Some u →
  let s' := (handleLike postId s).2 in
  match next_fault (backend s) with
  | Healthy | NullPayload =>
      posts (view s') = feed_after_toggle postId post (posts (view s))
      ∧ tbl_likes (backend s')
        = (if liked_by_user post
           then filter (λ l, ¬ (likes.post_id l = postId ∧ likes.user_id l = auth.id u))
                  (tbl_likes (backend s))
           else tbl_likes (backend s) ++ [like_edge postId u])
  | ErrorResponse =>
      posts (view s') = feed_after_toggle postId post (posts (view s))
      ∧ tbl_likes (backend s') = tbl_likes (backend s)
  | Reject =>
      posts (view s') = posts (view s)
      ∧ tbl_likes (backend s') = tbl_likes (backend s)
  end.
Proof.
  destruct s as [v b r c d], b, v. simpl. intros Hfind ->.
  unfold handleLike, likes_delete_match, likes_insert, feed_after_toggle.
  destruct faults0 as [|[] fs], (liked_by_user post) eqn:E; run_async;
    cbn [FeedScreen.posts]; rewrite Hfind; cbn [setPosts FeedScreen.posts];
    rewrite ?E; done.
Qed.

End LikeToggle.

(** C1 (fails on the code).  The backend answers the insert of the follow
    edge, and the insert of the like edge, with an error.  [handleFollow] and
    [handleLike] never look at the [error] of the response: the profile on
    screen turns to "following" with one follower more, the post to "liked"
    with one like more, while the tables are as before and nothing is logged. *)
Theorem toggles_applied_despite_error_response :
  let s := (UserProfileScreen.handleFollow
              (sample_sys (bob_screen false) [ErrorResponse])).2 in
  let t := (FeedScreen.handleLike "p3"
              (sample_sys (feed_screen [feed_post "p3" 1 false] []) [ErrorResponse])).2 in
  (UserProfileScreen.profile (view s) = Some (UserProfileScreen.toggled (bob_profile false))
   ∧ (UserProfileScreen.is_following <$> UserProfileScreen.profile (view s)) = Some true
   ∧ (UserProfileScreen.followers_count <$> UserProfileScreen.profile (view s)) = Some 2
   ∧ tbl_follows (backend s) = tbl_follows (sample_backend (Some me) [])
   ∧ console s = [])
  ∧ (FeedScreen.posts (view t) = [feed_post "p3" 2 true]
     ∧ tbl_likes (backend t) = tbl_likes (sample_backend (Some me) [])
     ∧ console t = []).
Proof. vm_compute. repeat split; reflexivity. Qed.

(** C3.  Two [handleFollow] in a row, both requests answered by a healthy
    backend: the profile on screen is exactly the one before, so
    [is_following] and [followers_count] are back at their values.  When the
    view agreed with the [follows] table to begin with, the table holds the
    same edges as before, too. *)
Theorem handleFollow_twice (s : Sys UserProfileScreen.View)
    (p : UserProfileScreen.Profile) (u : auth.User) :
  UserProfileScreen.profile (view s) = Some p →
  session (backend s) = Some u →
  faults (backend s) = [] →
  let s2 := (UserProfileScreen.handleFollow (UserProfileScreen.handleFollow s).2).2 in
  UserProfileScreen.profile (view s2) = Some p
  ∧ ((UserProfileScreen.is_following p = true ↔ follow_edge u p ∈ tbl_follows (backend s)) →
     ∀ e, e ∈ tbl_follows (backend s2) ↔ e ∈ tbl_follows (backend s)).
Proof.
  intros Hp Hu Hf.
  destruct (handleFollow_spec s p u Hp Hu) as (Hf1 & Hu1 & H1).
  unfold next_fault in H1. rewrite Hf in Hf1, H1. simpl in Hf1, H1.
  destruct H1 as [Hp1 Ht1].
  destruct (handleFollow_spec _ _ u Hp1 Hu1) as (Hf2 & Hu2 & H2).
  unfold next_fault in H2. rewrite Hf1 in H2. simpl in H2.
  destruct H2 as [Hp2 Ht2]. simpl. split.
  - by rewrite Hp2, toggled_toggled.
  - intros Hcons e. rewrite Ht2, Ht1. unfold follows_after_toggle.
    change (UserProfileScreen.id (UserProfileScreen.toggled p)) with (UserProfileScreen.id p).
    unfold UserProfileScreen.toggled at 1. cbn [UserProfileScreen.is_following].
    destruct (UserProfileScreen.is_following p) eqn:E; cbn [negb].
    + rewrite elem_of_app, list_elem_of_filter, list_elem_of_singleton, follow_edge_eq.
      split.
      * intros [[_ ?]| ->]; [done|]. by apply Hcons.
      * intros He. destruct (decide (e = follow_edge u p)); [by right | by left].
    + rewrite list_elem_of_filter, elem_of_app, list_elem_of_singleton, follow_edge_eq.
      split.
      * intros [Hn [?| ->]]; done.
      * intros He. split; [|by left]. intros ->.
        apply Hcons in He. done.
Qed.

Lemma handleFollow_twice_witness :
  let s := sample_sys (bob_screen false) [] in
  let s2 := (UserProfileScreen.handleFollow (UserProfileScreen.handleFollow s).2).2 in
  UserProfileScreen.profile (view s2) = Some (bob_profile false)
  ∧ ((UserProfileScreen.is_following (bob_profile false) = true
      ↔ follow_edge me (bob_profile false) ∈ tbl_follows (backend s)) →
     ∀ e, e ∈ tbl_follows (backend s2) ↔ e ∈ tbl_follows (backend s)).
Proof.
  apply (handleFollow_twice (sample_sys (bob_screen false) []) (bob_profile false) me);
    reflexivity.
Defined.

(** On the sample state the view does agree with the table: [me] does not
    follow [bob]. *)
Example sample_view_agrees :
  UserProfileScreen.is_following (bob_profile false) = true
  ↔ follow_edge me (bob_profile false) ∈ tbl_follows (sample_backend (Some me) []).
Proof.
  split; [discriminate|].
  intros H. exfalso. vm_compute in H.
  repeat (apply elem_of_cons in H as [H|H]; [discriminate H|]).
  by apply elem_of_nil in H.
Qed.

(* ===================================================================== *)
(** ** The two profile readers *)
(* ===================================================================== *)

Lemma remove_dups_NoDup `{EqDecision A} (l : list A) : NoDup l → remove_dups l = l.
Proof.
  induction 1 as [|x l Hx _ IH]; simpl; [done|].
  destruct (decide_rel elem_of x l); [done|]. by rewrite IH.
Qed.

Lemma distinct_followers_count (id : string) (b : Backend) :
  NoDup (tbl_follows b) →
  distinct_followers id b
  = Z.of_nat (length (filter (λ r, follows.following_id r = id) (tbl_follows b))).
Proof.
  intros Hnd. unfold distinct_followers.
  rewrite remove_dups_NoDup; [done|]. by apply NoDup_filter.
Qed.

Lemma prop_followers_count (o : gmap string jsval) (x y z : jsval) :
  prop (<["posts_count" := z]> (<["following_count" := y]> (<["followers_count" := x]> o)))
    "followers_count" = x.
Proof.
  unfold prop.
  rewrite lookup_insert_ne by done. rewrite lookup_insert_ne by done.
  by rewrite lookup_insert_eq.
Qed.

(** The reader of another user's profile, by the answer to its
    follower-count query (the second request). *)
Lemma fetchProfile_other (b : Backend) (u : auth.User) (f : fault)
    (v : UserProfileScreen.View) (pr : profiles.row) r c d :
  session b = Some u →
  faults b = [Healthy; f] →
  filter (λ r, profiles.id r = UserProfileScreen.route_id v) (tbl_profiles b) = [pr] →
  let s' := (UserProfileScreen.fetchProfile
               {| view := v; backend := b; router := r; console := c; Date_now := d |}).2 in
  match f with
  | Healthy =>
      UserProfileScreen.followers_count <$> UserProfileScreen.profile (view s')
      = Some (Z.of_nat (length (UserProfileScreen.followers_of (UserProfileScreen.route_id v) b)))
  | _ => UserProfileScreen.profile (view s') = UserProfileScreen.profile v
  end.
Proof.
  destruct b, v. simpl. intros -> -> Hrow.
  unfold UserProfileScreen.fetchProfile, UserProfileScreen.profiles_select_eq_id,
    UserProfileScreen.follows_select_count_eq_following_id,
    UserProfileScreen.follows_select_count_eq_follower_id,
    UserProfileScreen.follows_select_eq_pair.
  destruct f; run_async; cbn [UserProfileScreen.route_id]; rewrite Hrow;
    cbn [list_fmap]; run_async; done.
Qed.

(** The reader of the signed-in user's profile, likewise. *)
Lemma fetchProfile_own (b : Backend) (u : auth.User) (f : fault)
    (v : ProfileScreen.View) (pr : profiles.row) r c d :
  session b = Some u →
  faults b = [Healthy; f] →
  filter (λ r, profiles.id r = auth.id u) (tbl_profiles b) = [pr] →
  let s' := (ProfileScreen.fetchProfile
               {| view := v; backend := b; router := r; console := c; Date_now := d |}).2 in
  match f with
  | Healthy =>
      (λ p, prop p "followers_count") <$> ProfileScreen.profile (view s')
      = Some (ProfileScreen.number
                (Z.of_nat (length (ProfileScreen.followers_of (auth.id u) b))))
  | NullPayload =>
      (λ p, prop p "followers_count") <$> ProfileScreen.profile (view s')
      = Some (ProfileScreen.number 0)
  | ErrorResponse | Reject => ProfileScreen.profile (view s') = ProfileScreen.profile v
  end.
Proof.
  destruct b, v. simpl. intros -> -> Hrow.
  unfold ProfileScreen.fetchProfile, ProfileScreen.profiles_select_eq_id,
    ProfileScreen.follows_count_eq_following_id,
    ProfileScreen.follows_count_eq_follower_id,
    ProfileScreen.posts_count_eq_user_id.
  destruct f; run_async; rewrite Hrow; cbn [list_fmap]; run_async;
    cbn [ProfileScreen.profile ProfileScreen.setProfile ProfileScreen.setLoading
         ProfileScreen.setEditedProfile ProfileScreen.setError
         option_fmap option_map or_zero];
    rewrite ?prop_followers_count; done.
Qed.

(** C2 (as stated, fails on the code): the follower-count query of the own
    profile is answered without a count and without an error, while two
    users follow [me].  The reader stores a profile whose [followers_count]
    is 0, shows no error and logs nothing. *)
Lemma own_profile_reports_zero_followers_without_count :
  let s := sample_sys own_screen [Healthy; NullPayload] in
  let s' := (ProfileScreen.fetchProfile s).2 in
  distinct_followers "me" (backend s) = 2
  ∧ (λ p, prop p "followers_count") <$> ProfileScreen.profile (view s')
    = Some (ProfileScreen.number 0)
  ∧ ProfileScreen.error_banner (view s') = None
  ∧ console s' = [].
Proof. vm_compute. repeat split; reflexivity. Qed.

(** C2 (amended).  The follow edges being unique and the profile row found,
    both readers behave as follows, by the answer [f] to the follower-count
    query (their second request; the others are answered).  Answered: [followers_count] is the number of distinct follow edges
    pointing at the profile.  Answered with an error, or rejected: no profile
    is stored, the view keeps the one it had.  Answered with neither data nor
    error: the reader of another user's profile stores nothing either, the
    reader of the own profile stores a [followers_count] of 0. *)
Theorem fetchProfile_followers_count (b : Backend) (u : auth.User) (f : fault)
    (other : UserProfileScreen.View) (own : ProfileScreen.View)
    (viewed mine : profiles.row) (r : list Navigation) (c : list string) (d : Z) :
  session b = Some u →
  faults b = [Healthy; f] →
  NoDup (tbl_follows b) →
  filter (λ r, profiles.id r = UserProfileScreen.route_id other) (tbl_profiles b) = [viewed] →
  filter (λ r, profiles.id r = auth.id u) (tbl_profiles b) = [mine] →
  let s1 := (UserProfileScreen.fetchProfile
               {| view := other; backend := b; router := r; console := c; Date_now := d |}).2 in
  let s2 := (ProfileScreen.fetchProfile
               {| view := own; backend := b; router := r; console := c; Date_now := d |}).2 in
  match f with
  | Healthy =>
      UserProfileScreen.followers_count <$> UserProfileScreen.profile (view s1)
      = Some (distinct_followers (UserProfileScreen.route_id other) b)
      ∧ (λ p, prop p "followers_count") <$> ProfileScreen.profile (view s2)
        = Some (ProfileScreen.number (distinct_followers (auth.id u) b))
  | ErrorResponse | Reject =>
      UserProfileScreen.profile (view s1) = UserProfileScreen.profile other
      ∧ ProfileScreen.profile (view s2) = ProfileScreen.profile own
  | NullPayload =>
      UserProfileScreen.profile (view s1) = UserProfileScreen.profile other
      ∧ (λ p, prop p "followers_count") <$> ProfileScreen.profile (view s2)
        = Some (ProfileScreen.number 0)
  end.
Proof.
  intros Hu Hf Hnd Hviewed Hmine.
  pose proof (fetchProfile_other b u f other viewed r c d Hu Hf Hviewed) as H1.
  pose proof (fetchProfile_own b u f own mine r c d Hu Hf Hmine) as H2.
  rewrite !distinct_followers_count by done.
  destruct f; simpl in *; split; assumption.
Qed.

Lemma fetchProfile_followers_count_witness :
  let b := sample_backend (Some me) [Healthy; Healthy] in
  let s1 := (UserProfileScreen.fetchProfile
               {| view := blank_bob_screen; backend := b; router := [];
                  console := []; Date_now := 0 |}).2 in
  let s2 := (ProfileScreen.fetchProfile
               {| view := own_screen; backend := b; router := [];
                  console := []; Date_now := 0 |}).2 in
  UserProfileScreen.followers_count <$> UserProfileScreen.profile (view s1)
  = Some (distinct_followers "bob" b)
  ∧ (λ p, prop p "followers_count") <$> ProfileScreen.profile (view s2)
    = Some (ProfileScreen.number (distinct_followers "me" b)).
Proof.
  apply (fetchProfile_followers_count
           (sample_backend (Some me) [Healthy; Healthy]) me Healthy
           blank_bob_screen own_screen
           {| profiles.id := "bob"; profiles.columns := {[ "full_name" := JStr "Bob" ]} |}
           {| profiles.id := "me";
              profiles.columns :=
                {[ "full_name" := JStr "Mia"; "bio" := JStr "inline";
                   "sports" := JArr [JStr "Скейтборд"] ]} |}
           [] [] 0);
    [reflexivity | reflexivity | | reflexivity | reflexivity].
  apply (bool_decide_unpack _). vm_compute. exact I.
Defined.

(* ===================================================================== *)
(** ** Finding or creating the chat *)
(* ===================================================================== *)

Section Messaging.
Import UserProfileScreen.

(** [handleMessage] against a healthy backend, by the number of chats the
    two users share: with exactly one it opens that chat; with none, and
    also with two or more, it creates a chat. *)
Lemma handleMessage_spec (s : Sys View) (p : Profile) (me : string) :
  profile (view s) = Some p →
  currentUserId (view s) = Some me →
  me ≠ "" →
  faults (backend s) = [] →
  let b := backend s in
  let s' := (handleMessage s).2 in
  match shared_chats me (id p) b with
  | [existingChat] =>
      router s' = router s ++ [push ("/chat/" +:+ chat_participants.chat_id existingChat)]
      ∧ tbl_chats (backend s') = tbl_chats b
      ∧ tbl_chat_participants (backend s') = tbl_chat_participants b
  | _ =>
      let newChat := {| chats.id := id_supply b 0%nat |} in
      router s' = router s ++ [push ("/chat/" +:+ chats.id newChat)]
      ∧ tbl_chats (backend s') = tbl_chats b ++ [newChat]
      ∧ tbl_chat_participants (backend s')
        = tbl_chat_participants b
          ++ [ {| chat_participants.chat_id := chats.id newChat;
                  chat_participants.user_id := me |};
               {| chat_participants.chat_id := chats.id newChat;
                  chat_participants.user_id := id p |} ]
  end.
Proof.
  destruct s as [v b r c d], b, v. simpl. intros -> -> Hme ->.
  unfold shared_chats, handleMessage, chat_participants_select_eq_user_id,
    chat_participants_select_eq_user_id_in, chats_insert_select,
    chat_participants_insert, truthy_string.
  apply String.eqb_neq in Hme.
  run_async. cbn [profile currentUserId]. rewrite Hme. run_async. cbn [negb].
  destruct (filter _ tbl_chat_participants0) as [|r1 [|r2 rest]]; done.
Qed.

End Messaging.

(** C4 (fails on the code).  The signed-in user and the profile's user share
    two chats, [c1] and [c2].  The search asks for a [single] row and gets
    two, which is an error without data: [handleMessage] takes the "no chat"
    branch, inserts a third chat with its two participants, and opens it. *)
Theorem handleMessage_creates_chat_despite_existing :
  let s := sample_sys (bob_screen false) [] in
  let s' := (UserProfileScreen.handleMessage s).2 in
  chat_participants.chat_id <$> shared_chats "me" "bob" (backend s) = ["c1"; "c2"]
  ∧ router s' = [push "/chat/new-0"]
  ∧ tbl_chats (backend s')
    = [ {| chats.id := "c1" |}; {| chats.id := "c2" |}; {| chats.id := "new-0" |} ]
  ∧ tbl_chat_participants (backend s')
    = tbl_chat_participants (backend s)
      ++ [ {| chat_participants.chat_id := "new-0"; chat_participants.user_id := "me" |};
           {| chat_participants.chat_id := "new-0"; chat_participants.user_id := "bob" |} ].
Proof. vm_compute. repeat split; reflexivity. Qed.

(* ===================================================================== *)
(** ** Creating a post *)
(* ===================================================================== *)

Lemma trimStart_whitespace (s : jsstring) :
  Forall (λ c, isWhiteSpace c = true) s → trimStart s = [].
Proof.
  induction 1 as [|c s Hc _ IH]; simpl; [done|]. by rewrite Hc.
Qed.

Lemma trim_whitespace (s : jsstring) :
  Forall (λ c, isWhiteSpace c = true) s → trim s = [].
Proof.
  intros H. unfold trim, trimEnd. by rewrite (trimStart_whitespace s H).
Qed.

(** C5.  The composer holds only white space (or nothing) and no image:
    [handleCreatePost] returns at once.  The whole system is as before: the
    view (composer included), the tables and the bucket, and the log of
    requests the backend received. *)
Theorem handleCreatePost_rejects_blank (s : Sys FeedScreen.View) :
  Forall (λ c, isWhiteSpace c = true) (FeedScreen.content_input (view s)) →
  FeedScreen.selectedImage (view s) = None →
  FeedScreen.handleCreatePost s = (Normal (), s).
Proof.
  intros Hws Himg. unfold FeedScreen.handleCreatePost.
  unfold mbind, Async_bind, getView. simpl.
  rewrite (trim_whitespace _ Hws), Himg. reflexivity.
Qed.

Lemma handleCreatePost_rejects_blank_witness :
  let s := sample_sys (feed_screen [] [32; 9; 10; 160; 8202]%N) [] in
  FeedScreen.handleCreatePost s = (Normal (), s).
Proof.
  apply (handleCreatePost_rejects_blank
           (sample_sys (feed_screen [] [32; 9; 10; 160; 8202]%N) []));
    [|reflexivity].
  simpl. repeat constructor.
Defined.

(* ===================================================================== *)
(** ** What a notification shows and opens *)
(* ===================================================================== *)

Section Rendering.
Import TabLayout.

Lemma open_route_spec (href : string) (s : Sys View) :
  open_route href s = (Normal (), opened href s).
Proof. reflexivity. Qed.

End Rendering.

(** C8 (as stated, fails on the code): [reply] and [comment_like] are among
    the five types of the interface, yet their line is the fixed placeholder,
    the same for any actor, and a tap leaves the router as it is.  So it is
    not the case that every enumerated type opens a route. *)
Lemma reply_and_comment_like_render_placeholder :
  let s := sample_sys (tab_screen 1 0) [] in
  (TabLayout.text (TabLayout.getNotificationContent (sample_notification "reply" "Ann"))
   = "Новое уведомление"
   ∧ TabLayout.text (TabLayout.getNotificationContent (sample_notification "reply" "Bob"))
     = "Новое уведомление"
   ∧ TabLayout.onPress (TabLayout.getNotificationContent (sample_notification "reply" "Ann")) s
     = (Normal (), s))
  ∧ (TabLayout.text
       (TabLayout.getNotificationContent (sample_notification "comment_like" "Ann"))
     = "Новое уведомление"
     ∧ TabLayout.onPress
         (TabLayout.getNotificationContent (sample_notification "comment_like" "Ann")) s
       = (Normal (), s))
  ∧ ¬ (∀ n : TabLayout.Notification,
         TabLayout.type n ∈ ["like"; "comment"; "follow"; "comment_like"; "reply"] →
         ∃ href, ∀ s : Sys TabLayout.View,
           router (TabLayout.onPress (TabLayout.getNotificationContent n) s).2
           = router s ++ [push href]).
Proof.
  split; [|split].
  - repeat split; reflexivity.
  - repeat split; reflexivity.
  - intros H.
    destruct (H (sample_notification "reply" "Ann")) as [href Hhref].
    { repeat first [apply list_elem_of_here | apply list_elem_of_further]. }
    specialize (Hhref (sample_sys (tab_screen 1 0) [])).
    discriminate Hhref.
Qed.

(** C8 (amended).  [like] and [comment] show the actor's name followed by
    the fixed phrase and open the post named by the payload's [post_id];
    [follow] does so with its phrase and opens the profile named by
    [follower_id].  Every other type, [comment_like] and [reply] included,
    shows the placeholder and does nothing on a tap. *)
Theorem getNotificationContent_by_type (n : TabLayout.Notification) :
  let c := TabLayout.getNotificationContent n in
  let name := template (TabLayout.full_name (TabLayout.user n)) in
  (TabLayout.type n = "like" →
     TabLayout.text c = name +:+ " лайкнул ваш пост"
     ∧ ∀ s, TabLayout.onPress c s
            = (Normal (), opened ("/post/" +:+ template_prop (TabLayout.data n) "post_id") s))
  ∧ (TabLayout.type n = "comment" →
     TabLayout.text c = name +:+ " прокомментировал ваш пост"
     ∧ ∀ s, TabLayout.onPress c s
            = (Normal (), opened ("/post/" +:+ template_prop (TabLayout.data n) "post_id") s))
  ∧ (TabLayout.type n = "follow" →
     TabLayout.text c = name +:+ " подписался на вас"
     ∧ ∀ s, TabLayout.onPress c s
            = (Normal (), opened ("/" +:+ template_prop (TabLayout.data n) "follower_id") s))
  ∧ (TabLayout.type n ∉ ["like"; "comment"; "follow"] →
     TabLayout.text c = "Новое уведомление"
     ∧ ∀ s, TabLayout.onPress c s = (Normal (), s)).
Proof.
  unfold TabLayout.getNotificationContent. cbv zeta.
  split; [|split; [|split]].
  - intros Ht. rewrite decide_True by done. done.
  - intros Ht. rewrite decide_False by (rewrite Ht; done).
    rewrite decide_True by done. done.
  - intros Ht. do 2 rewrite decide_False by (rewrite Ht; done).
    rewrite decide_True by done. done.
  - intros Hn. rewrite !decide_False; [done | | |]; intros Ht; apply Hn; rewrite Ht;
      repeat first [apply list_elem_of_here | apply list_elem_of_further].
Qed.

Lemma getNotificationContent_by_type_witness :
  let c := TabLayout.getNotificationContent (sample_notification "like" "Ann") in
  TabLayout.text c = "Ann лайкнул ваш пост"
  ∧ ∀ s, TabLayout.onPress c s = (Normal (), opened "/post/p2" s).
Proof.
  apply (getNotificationContent_by_type (sample_notification "like" "Ann")).
  reflexivity.
Defined.

(* ===================================================================== *)
(** ** Profile completion *)
(* ===================================================================== *)

Section Completion.
Import ProfileScreen.

Lemma completed_iff_filled (p : gmap string jsval) (field : string) :
  completed p field = true ↔ filled p field.
Proof.
  unfold completed, filled.
  destruct (prop p field) as [| |b|q|s|l|]; simpl; rewrite ?andb_true_r; try done.
  rewrite bool_decide_eq_true. destruct l; simpl; split; try done; lia.
Qed.

Lemma completed_filled (p : gmap string jsval) (field : string) :
  (if completed p field then 1 else 0) = indicator (filled p field).
Proof.
  unfold indicator. pose proof (completed_iff_filled p field) as H.
  destruct (completed p field); case_decide; try done.
  - exfalso. tauto.
  - exfalso. assert (false = true) by tauto. done.
Qed.

Lemma completedFields_count (p : gmap string jsval) :
  Z.of_nat (length (completedFields p)) = filled_count (Some p).
Proof.
  unfold filled_count. rewrite <- !completed_filled.
  unfold completedFields, PROFILE_FIELDS. simpl.
  repeat match goal with |- context [completed p ?f] => destruct (completed p f) end;
    reflexivity.
Qed.

Lemma indicator_range (P : Prop) `{Decision P} : 0 ≤ indicator P ≤ 1.
Proof. unfold indicator. case_decide; lia. Qed.

Lemma filled_count_range (profile : option (gmap string jsval)) :
  0 ≤ filled_count profile ≤ 8.
Proof.
  destruct profile as [p|]; simpl; [|lia].
  pose proof (indicator_range (filled p "full_name")).
  pose proof (indicator_range (filled p "avatar_url")).
  pose proof (indicator_range (filled p "bio")).
  pose proof (indicator_range (filled p "city")).
  pose proof (indicator_range (filled p "experience_years")).
  pose proof (indicator_range (filled p "skates")).
  pose proof (indicator_range (filled p "sports")).
  pose proof (indicator_range (filled p "skating_style")).
  lia.
Qed.

(** The rounding on the nine values the quotient can take, in integer
    arithmetic: the code's [(k / 8) * 100] and the claim's [100 * k / 8]. *)
Lemma Math_round_eighths (k : Z) :
  0 ≤ k ≤ 8 →
  Math_round (inject_Z k / inject_Z (Z.of_nat (length PROFILE_FIELDS)) * 100)%Q
  = (100 * k + 4) / 8
  ∧ Math_round (100 * inject_Z k / 8)%Q = (100 * k + 4) / 8.
Proof.
  intros Hk.
  assert (k = 0 ∨ k = 1 ∨ k = 2 ∨ k = 3 ∨ k = 4 ∨ k = 5 ∨ k = 6 ∨ k = 7 ∨ k = 8)
    as Hcases by lia.
  destruct Hcases as [->|[->|[->|[->|[->|[->|[->|[->| ->]]]]]]]];
    split; vm_compute; reflexivity.
Qed.

End Completion.

(** C10.  With [k] the number of filled fields among the eight, the
    completion percentage is [Math.round(100 * k / 8)]; it lies between 0 and
    100; the badge shows exactly when the percentage is at least 80, which is
    exactly when at least 7 fields are filled. *)
Theorem completionPercentage_spec (profile : option (gmap string jsval)) :
  let k := filled_count profile in
  let pct := ProfileScreen.completionPercentage profile in
  pct = Math_round (100 * inject_Z k / 8)%Q
  ∧ 0 ≤ pct ≤ 100
  ∧ (ProfileScreen.isVerified profile = true ↔ 80 ≤ pct)
  ∧ (80 ≤ pct ↔ 7 ≤ k).
Proof.
  pose proof (filled_count_range profile) as Hk.
  destruct (Math_round_eighths _ Hk) as [Hcode Hclaim].
  cbv zeta. rewrite Hclaim.
  assert (ProfileScreen.completionPercentage profile = (100 * filled_count profile + 4) / 8)
    as Hpct.
  { destruct profile as [p|]; [|reflexivity].
    unfold ProfileScreen.completionPercentage.
    by rewrite completedFields_count. }
  split; [exact Hpct|].
  split; [rewrite Hpct; Z.div_mod_to_equations; lia|].
  split.
  - destruct profile as [p|].
    + unfold ProfileScreen.isVerified. apply Z.leb_le.
    + split; [done|]. vm_compute. intros H. by destruct H.
  - rewrite Hpct. Z.div_mod_to_equations; lia.
Qed.

(* ===================================================================== *)
(** ** Reading the feed *)
(* ===================================================================== *)

#[global] Instance newer_first_trans : Transitive FeedScreen.newer_first.
Proof. unfold FeedScreen.newer_first. intros x y z ? ?. lia. Qed.

#[global] Instance newer_first_total : Total FeedScreen.newer_first.
Proof. unfold FeedScreen.newer_first. intros x y. lia. Qed.

Section Feed.
Import FeedScreen.

(** With distinct timestamps, "not older" along the list is "newer". *)
Lemma newer_first_strict (l : list posts.row) :
  NoDup (posts.created_at <$> l) →
  StronglySorted newer_first l →
  StronglySorted (λ x y, posts.created_at y < posts.created_at x) l.
Proof.
  induction l as [|x l IH]; intros Hnd Hs; [constructor|].
  rewrite fmap_cons in Hnd. apply NoDup_cons in Hnd as [Hx Hnd].
  apply StronglySorted_cons in Hs as [Hall Hs].
  apply StronglySorted_cons. split; [|by apply IH].
  rewrite Forall_forall in Hall |- *. intros y Hy.
  specialize (Hall y Hy). unfold newer_first in Hall.
  assert (posts.created_at y ≠ posts.created_at x); [|lia].
  intros Heq. apply Hx. rewrite <- Heq. by apply list_elem_of_fmap_2.
Qed.

(** What a healthy backend's answer turns into on screen. *)
Lemma fetchPosts_healthy (s : Sys View) (u : auth.User) :
  session (backend s) = Some u →
  faults (backend s) = [] →
  posts (view (fetchPosts s).2)
  = with_counts u <$> (embed (backend s) <$> merge_sort newer_first (tbl_posts (backend s))).
Proof.
  destruct s as [v b r c d], b, v. simpl. intros -> ->.
  unfold fetchPosts, posts_select_order_created_at. run_async. reflexivity.
Qed.

Lemma with_counts_liked (b : Backend) (u : auth.User) (p : posts.row) :
  liked_by_user (with_counts u (embed b p)) = true
  ↔ like_edge (posts.id p) u ∈ tbl_likes b.
Proof.
  unfold with_counts, embed, likes_of. simpl.
  rewrite existsb_exists. setoid_rewrite <- list_elem_of_In.
  setoid_rewrite list_elem_of_fmap. setoid_rewrite list_elem_of_filter.
  setoid_rewrite String.eqb_eq. split.
  - intros (x & (l & -> & Hpid & Hl) & Hx).
    destruct l as [lp lu]. simpl in *. subst. exact Hl.
  - intros Hl. exists (auth.id u). split; [|done].
    exists (like_edge (posts.id p) u). done.
Qed.

End Feed.

(** C6.  The viewer signed in, the backend healthy and the posts' creation
    times pairwise distinct: the feed on screen holds exactly the posts of the
    table, in strictly descending [created_at] order, each with the number
    of its likes, the number of its comments, and [liked_by_user] true
    exactly when the [likes] table has the edge of this post and viewer. *)
Theorem fetchPosts_feed (s : Sys FeedScreen.View) (u : auth.User) :
  session (backend s) = Some u →
  faults (backend s) = [] →
  NoDup (posts.created_at <$> tbl_posts (backend s)) →
  let b := backend s in
  let feed := FeedScreen.posts (view (FeedScreen.fetchPosts s).2) in
  (λ p, (FeedScreen.id p, FeedScreen.created_at p)) <$> feed
    ≡ₚ (λ r, (posts.id r, posts.created_at r)) <$> tbl_posts b
  ∧ StronglySorted (λ p q, FeedScreen.created_at q < FeedScreen.created_at p) feed
  ∧ Forall (λ p,
      FeedScreen.likes p = Z.of_nat (length (FeedScreen.likes_of (FeedScreen.id p) b))
      ∧ FeedScreen.comments_count p
        = Z.of_nat (length (FeedScreen.comments_of (FeedScreen.id p) b))
      ∧ (FeedScreen.liked_by_user p = true
         ↔ like_edge (FeedScreen.id p) u ∈ tbl_likes b)) feed.
Proof.
  intros Hu Hf Hnd. cbv zeta. rewrite (fetchPosts_healthy s u Hu Hf).
  set (b := backend s) in *. set (sorted := merge_sort FeedScreen.newer_first (tbl_posts b)).
  assert (sorted ≡ₚ tbl_posts b) as Hperm by apply merge_sort_Permutation.
  rewrite <- !list_fmap_compose.
  split; [|split].
  - by rewrite <- Hperm.
  - apply (StronglySorted_fmap _ (λ x y, posts.created_at y < posts.created_at x));
      [done|].
    apply newer_first_strict; [by rewrite Hperm|].
    apply StronglySorted_merge_sort; apply _.
  - apply Forall_fmap, Forall_forall. intros p _. simpl.
    split; [|split].
    + by rewrite length_fmap.
    + done.
    + apply with_counts_liked.
Qed.

Lemma fetchPosts_feed_witness :
  let s := sample_sys (feed_screen [] []) [] in
  let b := backend s in
  let feed := FeedScreen.posts (view (FeedScreen.fetchPosts s).2) in
  (λ p, (FeedScreen.id p, FeedScreen.created_at p)) <$> feed
    ≡ₚ (λ r, (posts.id r, posts.created_at r)) <$> tbl_posts b
  ∧ StronglySorted (λ p q, FeedScreen.created_at q < FeedScreen.created_at p) feed
  ∧ Forall (λ p,
      FeedScreen.likes p = Z.of_nat (length (FeedScreen.likes_of (FeedScreen.id p) b))
      ∧ FeedScreen.comments_count p
        = Z.of_nat (length (FeedScreen.comments_of (FeedScreen.id p) b))
      ∧ (FeedScreen.liked_by_user p = true
         ↔ like_edge (FeedScreen.id p) me ∈ tbl_likes b)) feed.
Proof.
  apply (fetchPosts_feed (sample_sys (feed_screen [] []) []) me);
    [reflexivity | reflexivity |].
  apply (bool_decide_unpack _). vm_compute. exact I.
Defined.

Example fetchPosts_sample :
  FeedScreen.posts (view (FeedScreen.fetchPosts (sample_sys (feed_screen [] []) [])).2)
  = [ {| FeedScreen.id := "p2"; FeedScreen.user_id := Some "me"; FeedScreen.content := [];
         FeedScreen.image_url := Some "a.jpg"; FeedScreen.likes := 0;
         FeedScreen.comments_count := 0; FeedScreen.latitude := None;
         FeedScreen.longitude := None; FeedScreen.created_at := 30;
         FeedScreen.user := Some {| FeedScreen.full_name := Some "Mia";
                                    FeedScreen.avatar_url := None |};
         FeedScreen.liked_by_user := false |};
      {| FeedScreen.id := "p3"; FeedScreen.user_id := Some "bob";
         FeedScreen.content := [111]%N;
         FeedScreen.image_url := None; FeedScreen.likes := 1;
         FeedScreen.comments_count := 0; FeedScreen.latitude := None;
         FeedScreen.longitude := None; FeedScreen.created_at := 20;
         FeedScreen.user := Some {| FeedScreen.full_name := Some "Bob";
                                    FeedScreen.avatar_url := None |};
         FeedScreen.liked_by_user := false |};
      {| FeedScreen.id := "p1"; FeedScreen.user_id := Some "bob";
         FeedScreen.content := [104; 105]%N;
         FeedScreen.image_url := None; FeedScreen.likes := 2;
         FeedScreen.comments_count := 1; FeedScreen.latitude := None;
         FeedScreen.longitude := None; FeedScreen.created_at := 10;
         FeedScreen.user := Some {| FeedScreen.full_name := Some "Bob";
                                    FeedScreen.avatar_url := None |};
         FeedScreen.liked_by_user := true |} ].
Proof. vm_compute. reflexivity. Qed.

(* ===================================================================== *)
(** ** The unread counters *)
(* ===================================================================== *)

Section Counters.
Import TabLayout.

Lemma markNotificationsAsRead_healthy (s : Sys View) (u : auth.User) :
  session (backend s) = Some u →
  faults (backend s) = [] →
  let s' := (markNotificationsAsRead s).2 in
  unreadNotifications (view s') = 0
  ∧ tbl_notifications (backend s') = marked (auth.id u) (tbl_notifications (backend s))
  ∧ session (backend s') = Some u
  ∧ faults (backend s') = [].
Proof.
  destruct s as [v b r c d], b, v. simpl. intros -> ->.
  unfold markNotificationsAsRead, notifications_update_read, fetchNotifications,
    notifications_select_eq_user_id.
  run_async. done.
Qed.

Lemma fetchUnreadNotifications_healthy (s : Sys View) (u : auth.User) :
  session (backend s) = Some u →
  faults (backend s) = [] →
  unreadNotifications (view (fetchUnreadNotifications s).2)
  = Z.of_nat (length (filter (unread_of (auth.id u)) (tbl_notifications (backend s)))).
Proof.
  destruct s as [v b r c d], b, v. simpl. intros -> ->.
  unfold fetchUnreadNotifications, notifications_count_unread.
  run_async. done.
Qed.

Lemma marked_none_unread (uid : string) (t : list notifications.row) :
  filter (unread_of uid) (marked uid t) = [].
Proof.
  induction t as [|r t IH]; [done|].
  unfold marked in *. rewrite fmap_cons, filter_cons, IH.
  rewrite decide_False; [done|].
  case_decide as Hr; [|done].
  unfold unread_of, mark_read. simpl. by intros [_ ?].
Qed.

Lemma marked_read (uid : string) (t : list notifications.row) :
  Forall (λ r, notifications.user_id r = uid → notifications.read r = true) (marked uid t).
Proof.
  unfold marked. apply Forall_fmap, Forall_forall. intros r _. simpl.
  case_decide as Hr; [done|].
  intros Hu. unfold unread_of in Hr.
  destruct (notifications.read r); [done|]. exfalso. by apply Hr.
Qed.

(** The messages query names the user's chats by their ids; that is
    membership in one of them. *)
Lemma unread_message_counts (u : auth.User) (b : Backend) (m : messages.row) :
  unread_message
    (chat_participants.chat_id
       <$> filter (λ r, chat_participants.user_id r = auth.id u) (tbl_chat_participants b))
    (auth.id u) m
  ↔ counts_as_unread u b m.
Proof.
  unfold unread_message, counts_as_unread, participates.
  rewrite list_elem_of_fmap, Exists_exists.
  setoid_rewrite list_elem_of_filter. split.
  - intros ((r & -> & Hr & Hin) & Hread & Hother). split; [|done].
    exists r. done.
  - intros ((r & Hin & Hr & Hc) & Hread & Hother). split; [|done].
    exists r. done.
Qed.

Lemma fetchUnreadMessages_healthy (s : Sys View) (u : auth.User) :
  session (backend s) = Some u →
  faults (backend s) = [] →
  unreadMessages (view (fetchUnreadMessages s).2)
  = Z.of_nat (length (filter (counts_as_unread u (backend s)) (tbl_messages (backend s)))).
Proof.
  destruct s as [v b r c d]. simpl. intros Hu Hf.
  rewrite <- (list_filter_iff _ _ (tbl_messages b) (λ m, unread_message_counts u b m)).
  destruct b, v. simpl in *. subst.
  unfold fetchUnreadMessages, chat_participants_select_eq_user_id, messages_count_unread.
  run_async. done.
Qed.

End Counters.

(** C7.  The user signed in and the backend healthy: after
    [markNotificationsAsRead] the counter on screen is 0; the table is the
    former one with every unread row of this user marked read, so each such
    row is there with its flag on and no row of the user is unread; and a
    [fetchUnreadNotifications] run right after leaves the counter at 0. *)
Theorem markNotificationsAsRead_clears (s : Sys TabLayout.View) (u : auth.User) :
  session (backend s) = Some u →
  faults (backend s) = [] →
  let s1 := (TabLayout.markNotificationsAsRead s).2 in
  TabLayout.unreadNotifications (view s1) = 0
  ∧ tbl_notifications (backend s1) = marked (auth.id u) (tbl_notifications (backend s))
  ∧ (∀ r, r ∈ tbl_notifications (backend s) → TabLayout.unread_of (auth.id u) r →
          TabLayout.mark_read r ∈ tbl_notifications (backend s1))
  ∧ Forall (λ r, notifications.user_id r = auth.id u → notifications.read r = true)
      (tbl_notifications (backend s1))
  ∧ TabLayout.unreadNotifications (view (TabLayout.fetchUnreadNotifications s1).2) = 0.
Proof.
  intros Hu Hf.
  destruct (markNotificationsAsRead_healthy s u Hu Hf) as (Hn & Ht & Hu1 & Hf1).
  cbv zeta. rewrite Ht.
  split; [exact Hn|]. split; [reflexivity|]. split; [|split].
  - intros r Hr Hunread. unfold marked. apply list_elem_of_fmap.
    exists r. by rewrite decide_True.
  - apply marked_read.
  - rewrite (fetchUnreadNotifications_healthy _ u Hu1 Hf1), Ht.
    by rewrite marked_none_unread.
Qed.

Lemma markNotificationsAsRead_clears_witness :
  let s := sample_sys (tab_screen 1 0) [] in
  let s1 := (TabLayout.markNotificationsAsRead s).2 in
  TabLayout.unreadNotifications (view s1) = 0
  ∧ tbl_notifications (backend s1) = marked "me" (tbl_notifications (backend s))
  ∧ (∀ r, r ∈ tbl_notifications (backend s) → TabLayout.unread_of "me" r →
          TabLayout.mark_read r ∈ tbl_notifications (backend s1))
  ∧ Forall (λ r, notifications.user_id r = "me" → notifications.read r = true)
      (tbl_notifications (backend s1))
  ∧ TabLayout.unreadNotifications (view (TabLayout.fetchUnreadNotifications s1).2) = 0.
Proof.
  apply (markNotificationsAsRead_clears (sample_sys (tab_screen 1 0) []) me);
    reflexivity.
Defined.

(** C9.  The user signed in and the backend healthy: the badge is the number
    of messages that are in a chat the user participates in, have no
    [read_at], and were written by another user.  No message of the user's
    own is among the counted ones. *)
Theorem fetchUnreadMessages_counts (s : Sys TabLayout.View) (u : auth.User) :
  session (backend s) = Some u →
  faults (backend s) = [] →
  let b := backend s in
  let counted := filter (counts_as_unread u b) (tbl_messages b) in
  TabLayout.unreadMessages (view (TabLayout.fetchUnreadMessages s).2)
  = Z.of_nat (length counted)
  ∧ Forall (λ m, messages.user_id m ≠ auth.id u) counted.
Proof.
  intros Hu Hf. split.
  - by apply fetchUnreadMessages_healthy.
  - apply Forall_forall. intros m Hm.
    apply list_elem_of_filter in Hm as [(_ & _ & Hother) _]. exact Hother.
Qed.

Lemma fetchUnreadMessages_counts_witness :
  let s := sample_sys (tab_screen 0 7) [] in
  let b := backend s in
  let counted := filter (counts_as_unread me b) (tbl_messages b) in
  TabLayout.unreadMessages (view (TabLayout.fetchUnreadMessages s).2)
  = Z.of_nat (length counted)
  ∧ Forall (λ m, messages.user_id m ≠ "me") counted.
Proof.
  apply (fetchUnreadMessages_counts (sample_sys (tab_screen 0 7) []) me);
    reflexivity.
Defined.

Example fetchUnreadMessages_sample :
  TabLayout.unreadMessages
    (view (TabLayout.fetchUnreadMessages (sample_sys (tab_screen 0 7) [])).2) = 1.
Proof. vm_compute. reflexivity. Qed.
Section CountersAnyAnswer.
Import TabLayout.

(** Whatever the backend answers, the badge ends up as it was, at 0, or at
    the number of messages that count. *)
Lemma fetchUnreadMessages_outcomes (s : Sys View) :
  let n := unreadMessages (view (fetchUnreadMessages s).2) in
  n = unreadMessages (view s)
  ∨ n = 0
  ∨ ∃ u, session (backend s) = Some u
         ∧ n = Z.of_nat (length (filter (counts_as_unread u (backend s))
                                   (tbl_messages (backend s)))).
Proof.
  destruct s as [v b r c d]. cbv zeta.
  destruct (session b) as [u|] eqn:Hu.
  - destruct (faults b) as [|f1 fs] eqn:Hf.
    { right. right. exists u. split; [done|].
      by apply (fetchUnreadMessages_healthy
                  {| view := v; backend := b; router := r; console := c; Date_now := d |}). }
    assert (∀ t k, k = Z.of_nat (length (filter
              (unread_message
                 (chat_participants.chat_id
                    <$> filter (λ r, chat_participants.user_id r = auth.id u) t)
                 (auth.id u)) (tbl_messages b))) →
            t = tbl_chat_participants b →
            ∃ u', Some u = Some u'
                  ∧ k = Z.of_nat (length (filter (counts_as_unread u' b) (tbl_messages b))))
      as Hcount.
    { intros t k -> ->. exists u. split; [done|].
      by rewrite (list_filter_iff _ _ (tbl_messages b)
                    (λ m, unread_message_counts u b m)). }
    destruct b, v. simpl in *. subst.
    unfold fetchUnreadMessages, chat_participants_select_eq_user_id, messages_count_unread.
    destruct f1; [destruct fs as [|[] fs]| | |]; run_async;
      cbn [or_zero unreadMessages setUnreadMessages];
      first [by left | by (right; left) | right; right; by eapply Hcount].
  - left. destruct b, v. simpl in *. subst.
    unfold fetchUnreadMessages. run_async. done.
Qed.

End CountersAnyAnswer.

(* ===================================================================== *)
(** ** Elapsed-time labels *)
(* ===================================================================== *)

(** X1.  [getTimeAgo] by the elapsed milliseconds [diff]: under an hour it
    shows the whole minutes, under a day the whole hours (1 to 23), under a
    week the whole days (1 to 6), from a week on the locale's date; the
    nested roundings of the code are the direct ones.  A date ahead of the
    clock falls in the first case, with a negative number of minutes.  An
    unreadable date is handed to the locale's formatting. *)
Theorem getTimeAgo_thresholds (toLocaleDateString : jsnum → string) (now past : Z) :
  let diff := now - past in
  let label := getTimeAgo toLocaleDateString now (Some past) in
  ((diff < 3600000
    ∧ label = pretty (diff / 60000) +:+ " мин." ∧ diff / 60000 < 60)
   ∨ (3600000 ≤ diff < 86400000
      ∧ label = pretty (diff / 3600000) +:+ " ч." ∧ 1 ≤ diff / 3600000 ≤ 23)
   ∨ (86400000 ≤ diff < 604800000
      ∧ label = pretty (diff / 86400000) +:+ " дн." ∧ 1 ≤ diff / 86400000 ≤ 6)
   ∨ (604800000 ≤ diff ∧ label = toLocaleDateString (Some past)))
  ∧ getTimeAgo toLocaleDateString now None = toLocaleDateString None.
Proof.
  cbv zeta. split; [|reflexivity].
  unfold getTimeAgo, num_minus, num_floor_div, num_lt, num_show. simpl.
  set (diff := now - past).
  assert (diff / 60000 / 60 = diff / 3600000) as Hh
    by (rewrite Z.div_div by lia; reflexivity).
  assert (diff / 60000 / 60 / 24 = diff / 86400000) as Hd
    by (rewrite Hh, Z.div_div by lia; reflexivity).
  rewrite Hd, Hh.
  destruct (Z.ltb_spec (diff / 60000) 60) as [Hm|Hm].
  { left. split; [|done]. Z.div_mod_to_equations. lia. }
  destruct (Z.ltb_spec (diff / 3600000) 24) as [Hh'|Hh'].
  { right; left. repeat split; Z.div_mod_to_equations; lia. }
  destruct (Z.ltb_spec (diff / 86400000) 7) as [Hd'|Hd'].
  { right; right; left. repeat split; Z.div_mod_to_equations; lia. }
  right; right; right. split; [|done]. Z.div_mod_to_equations. lia.
Qed.

(** X2.  [getTimeSince] for a date that is not ahead of the clock, by the
    elapsed milliseconds: today under one day, yesterday under two, then the
    whole days (2 to 6), the whole weeks (1 to 4) under 30 days, the whole
    30-day months (1 to 12) under 365 days, and the whole 365-day years (at
    least 1) from there: the number shown is never 0. *)
Theorem getTimeSince_label (now past : Z) :
  0 ≤ now - past →
  let diff := now - past in
  let day := 86400000 in
  let label := getTimeSince now (Some past) in
  (diff < day ∧ label = "Сегодня")
  ∨ (day ≤ diff < 2 * day ∧ label = "Вчера")
  ∨ (∃ n, 2 ≤ n ≤ 6 ∧ n * day ≤ diff < (n + 1) * day
          ∧ label = pretty n +:+ " дн. назад")
  ∨ (∃ n, 1 ≤ n ≤ 4 ∧ 7 * n * day ≤ diff < 7 * (n + 1) * day ∧ diff < 30 * day
          ∧ label = pretty n +:+ " нед. назад")
  ∨ (∃ n, 1 ≤ n ≤ 12 ∧ 30 * n * day ≤ diff < 30 * (n + 1) * day ∧ diff < 365 * day
          ∧ label = pretty n +:+ " мес. назад")
  ∨ (∃ n, 1 ≤ n ∧ 365 * n * day ≤ diff < 365 * (n + 1) * day
          ∧ label = pretty n +:+ " г. назад").
Proof.
  intros Hpos. cbv zeta.
  unfold getTimeSince, num_minus, num_floor_div, num_eq, num_lt, num_show. simpl.
  change (1000 * 60 * 60 * 24) with 86400000.
  set (diff := now - past) in *.
  set (days := diff / 86400000).
  assert (86400000 * days ≤ diff < 86400000 * days + 86400000) as Hdays
    by (subst days; Z.div_mod_to_equations; lia).
  destruct (Z.eqb_spec days 0) as [H0|H0].
  { left. split; [lia|done]. }
  destruct (Z.eqb_spec days 1) as [H1|H1].
  { right; left. split; [lia|done]. }
  destruct (Z.ltb_spec days 7) as [H7|H7].
  { right; right; left. exists days. repeat split; try lia. }
  destruct (Z.ltb_spec days 30) as [H30|H30].
  { right; right; right; left. exists (days / 7).
    assert (7 * (days / 7) ≤ days < 7 * (days / 7) + 7)
      by (Z.div_mod_to_equations; lia).
    repeat split; try lia. }
  destruct (Z.ltb_spec days 365) as [H365|H365].
  { right; right; right; right; left. exists (days / 30).
    assert (30 * (days / 30) ≤ days < 30 * (days / 30) + 30)
      by (Z.div_mod_to_equations; lia).
    repeat split; try lia. }
  right; right; right; right; right. exists (days / 365).
  assert (365 * (days / 365) ≤ days < 365 * (days / 365) + 365)
    by (Z.div_mod_to_equations; lia).
  repeat split; try lia.
Qed.

Lemma getTimeSince_label_witness :
  let diff := 1700000000000 - 1699000000000 in
  let day := 86400000 in
  let label := getTimeSince 1700000000000 (Some 1699000000000) in
  (diff < day ∧ label = "Сегодня")
  ∨ (day ≤ diff < 2 * day ∧ label = "Вчера")
  ∨ (∃ n, 2 ≤ n ≤ 6 ∧ n * day ≤ diff < (n + 1) * day
          ∧ label = pretty n +:+ " дн. назад")
  ∨ (∃ n, 1 ≤ n ≤ 4 ∧ 7 * n * day ≤ diff < 7 * (n + 1) * day ∧ diff < 30 * day
          ∧ label = pretty n +:+ " нед. назад")
  ∨ (∃ n, 1 ≤ n ≤ 12 ∧ 30 * n * day ≤ diff < 30 * (n + 1) * day ∧ diff < 365 * day
          ∧ label = pretty n +:+ " мес. назад")
  ∨ (∃ n, 1 ≤ n ∧ 365 * n * day ≤ diff < 365 * (n + 1) * day
          ∧ label = pretty n +:+ " г. назад").
Proof.
  apply (getTimeSince_label 1700000000000 1699000000000). lia.
Defined.

(** X3.  [getTimeSince] for a date ahead of the clock (a row stamped by a
    server whose clock runs ahead): the label is a negative number of days
    "ago", also for a date less than a day ahead; it is never "today". *)
Theorem getTimeSince_future (now past : Z) :
  now < past →
  ∃ n, n ≤ -1
       ∧ n * 86400000 ≤ now - past < (n + 1) * 86400000
       ∧ getTimeSince now (Some past) = pretty n +:+ " дн. назад".
Proof.
  intros Hfut. exists ((now - past) / 86400000).
  unfold getTimeSince, num_minus, num_floor_div, num_eq, num_lt, num_show. simpl.
  change (1000 * 60 * 60 * 24) with 86400000.
  set (days := (now - past) / 86400000).
  assert (86400000 * days ≤ now - past < 86400000 * days + 86400000) as Hdays
    by (subst days; Z.div_mod_to_equations; lia).
  assert (days ≤ -1) by lia.
  destruct (Z.eqb_spec days 0); [lia|].
  destruct (Z.eqb_spec days 1); [lia|].
  destruct (Z.ltb_spec days 7); [|lia].
  repeat split; lia.
Qed.

Lemma getTimeSince_future_witness :
  ∃ n, n ≤ -1
       ∧ n * 86400000 ≤ 1700000000000 - 1700000005000 < (n + 1) * 86400000
       ∧ getTimeSince 1700000000000 (Some 1700000005000) = pretty n +:+ " дн. назад".
Proof.
  apply (getTimeSince_future 1700000000000 1700000005000). lia.
Defined.

Example getTimeSince_five_seconds_ahead :
  getTimeSince 1700000000000 (Some 1700000005000) = "-1 дн. назад".
Proof. vm_compute. reflexivity. Qed.

(* ===================================================================== *)
(** ** What holds whatever the backend answers *)
(* ===================================================================== *)

Section ControlFlow.
Context {V : Type}.

Lemma try_catch_completes (body : Async V unit) (handler : Err → Async V unit) (s : Sys V) :
  (∀ e s0, (handler e s0).1 = Normal ()) →
  (try_catch body handler s).1 = Normal ().
Proof.
  intros Hh. unfold try_catch. destruct (body s) as [[[]|e] s']; [done|]. apply Hh.
Qed.

Lemma finally_setView {A} (body : Async V A) (f : V → V) (s : Sys V) :
  finally body (setView f) s = ((body s).1, (setView f (body s).2).2).
Proof. unfold finally. by destruct (body s). Qed.

Lemma finally_completes {A} (body : Async V A) (fin : Async V unit) (s : Sys V) :
  (∀ s0, (fin s0).1 = Normal ()) →
  (finally body fin s).1 = (body s).1.
Proof.
  intros Hfin. unfold finally. destruct (body s) as [c s']. specialize (Hfin s').
  destruct (fin s') as [[[]|e] s'']; done.
Qed.

Lemma bind_completes {A} (m : Async V A) (k : A → Async V unit) (s : Sys V) :
  (∀ a s0, (k a s0).1 = Normal ()) →
  (∀ s0, ∃ a, (m s0).1 = Normal a) →
  ((m ≫= k) s).1 = Normal ().
Proof.
  intros Hk Hm. unfold mbind, Async_bind.
  destruct (Hm s) as [a Ha]. destruct (m s) as [[a'|e] s']; [apply Hk|done].
Qed.

End ControlFlow.

(** Closes a goal [(handler s).1 = Normal ()] for a handler whose body is
    wrapped in [try_catch], possibly under a [finally] that sets a flag. *)
Ltac completes :=
  repeat first
    [ reflexivity
    | rewrite finally_completes by (intros ?; reflexivity)
    | apply try_catch_completes; intros ? ?; reflexivity
    | progress cbv beta iota zeta delta [mbind Async_bind getView setView mret Async_ret] ].

Lemma fetchPosts_completes (s : Sys FeedScreen.View) :
  (FeedScreen.fetchPosts s).1 = Normal ().
Proof. unfold FeedScreen.fetchPosts. completes. Qed.

(** X4.  No handler lets an exception escape: whatever the state and
    whatever the backend answers, each of them completes normally, so the
    calls made without [await] leave no rejected promise behind. *)
Theorem handlers_complete_normally :
  ((∀ s, (UserProfileScreen.checkUser s).1 = Normal ())
   ∧ (∀ s, (UserProfileScreen.fetchProfile s).1 = Normal ())
   ∧ (∀ s, (UserProfileScreen.fetchUserPosts s).1 = Normal ())
   ∧ (∀ s, (UserProfileScreen.handleFollow s).1 = Normal ())
   ∧ (∀ s, (UserProfileScreen.handleMessage s).1 = Normal ()))
  ∧ ((∀ s, (TabLayout.fetchUnreadCounts s).1 = Normal ())
     ∧ (∀ s, (TabLayout.fetchUnreadNotifications s).1 = Normal ())
     ∧ (∀ s, (TabLayout.fetchUnreadMessages s).1 = Normal ())
     ∧ (∀ s, (TabLayout.fetchNotifications s).1 = Normal ())
     ∧ (∀ s, (TabLayout.markNotificationsAsRead s).1 = Normal ()))
  ∧ ((∀ s, (FeedScreen.checkUser s).1 = Normal ())
     ∧ (∀ s, (FeedScreen.fetchPosts s).1 = Normal ())
     ∧ (∀ postId s, (FeedScreen.handleLike postId s).1 = Normal ())
     ∧ (∀ s, (FeedScreen.handleCreatePost s).1 = Normal ())
     ∧ (∀ s, (FeedScreen.onRefresh s).1 = Normal ()))
  ∧ ((∀ s, (ProfileScreen.fetchProfile s).1 = Normal ())
     ∧ (∀ toISOString s, (ProfileScreenEditing.saveProfile toISOString s).1 = Normal ())
     ∧ (∀ s, (ProfileScreenEditing.fetchUserPosts s).1 = Normal ())
     ∧ (∀ s, (ProfileScreenEditing.fetchFollowers s).1 = Normal ())
     ∧ (∀ s, (ProfileScreenEditing.fetchFollowing s).1 = Normal ())).
Proof.
  pose proof fetchPosts_completes as Hfeed.
  assert (∀ s, (TabLayout.fetchUnreadNotifications s).1 = Normal ()) as Hn.
  { intros s. unfold TabLayout.fetchUnreadNotifications. completes. }
  assert (∀ s, (TabLayout.fetchUnreadMessages s).1 = Normal ()) as Hm.
  { intros s. unfold TabLayout.fetchUnreadMessages. completes. }
  assert (∀ s, (TabLayout.fetchNotifications s).1 = Normal ()) as Hl.
  { intros s. unfold TabLayout.fetchNotifications. completes. }
  repeat split; intros.
  - unfold UserProfileScreen.checkUser. completes.
  - unfold UserProfileScreen.fetchProfile. completes.
  - unfold UserProfileScreen.fetchUserPosts. completes.
  - unfold UserProfileScreen.handleFollow. completes.
    destruct (UserProfileScreen.profile (view s)); completes.
  - unfold UserProfileScreen.handleMessage. completes.
  - unfold TabLayout.fetchUnreadCounts.
    apply bind_completes; [intros [] s0|intros s0; exists (); apply Hn].
    apply bind_completes; [intros [] s1; apply Hl|intros s1; exists (); apply Hm].
  - apply Hn.
  - apply Hm.
  - apply Hl.
  - unfold TabLayout.markNotificationsAsRead. completes.
  - unfold FeedScreen.checkUser. completes.
  - apply Hfeed.
  - unfold FeedScreen.handleLike. completes.
  - unfold FeedScreen.handleCreatePost. completes.
    destruct (_ && _); completes.
  - unfold FeedScreen.onRefresh.
    apply bind_completes; [intros [] s0|intros s0; by exists ()].
    apply bind_completes; [intros [] s1; reflexivity|intros s1; exists (); apply Hfeed].
  - unfold ProfileScreen.fetchProfile. completes.
  - unfold ProfileScreenEditing.saveProfile. completes.
    destruct (ProfileScreenEditing.profile_id _); completes.
  - unfold ProfileScreenEditing.fetchUserPosts. completes.
  - unfold ProfileScreenEditing.fetchFollowers. completes.
  - unfold ProfileScreenEditing.fetchFollowing. completes.
Qed.

(** X5.  The busy flags never stay on: whatever the backend answers, the
    readers of both profile screens end with [loading] off and the pull to
    refresh with [refreshing] off; [handleFollow], [handleCreatePost] and
    [saveProfile] end with their flag off unless they returned at their first
    guard, leaving everything as it was. *)
Theorem busy_flags_cleared :
  (∀ s, UserProfileScreen.loading (view (UserProfileScreen.fetchProfile s).2) = false)
  ∧ (∀ s, UserProfileScreen.followLoading (view (UserProfileScreen.handleFollow s).2) = false
          ∨ UserProfileScreen.handleFollow s = (Normal (), s))
  ∧ (∀ s, FeedScreen.isLoading (view (FeedScreen.handleCreatePost s).2) = false
          ∨ FeedScreen.handleCreatePost s = (Normal (), s))
  ∧ (∀ s, FeedScreen.refreshing (view (FeedScreen.onRefresh s).2) = false)
  ∧ (∀ s, ProfileScreen.loading (view (ProfileScreen.fetchProfile s).2) = false)
  ∧ (∀ toISOString s,
       ProfileScreenEditing.saving
         (view (ProfileScreenEditing.saveProfile toISOString s).2) = false
       ∨ ProfileScreenEditing.saveProfile toISOString s = (Normal (), s)).
Proof.
  repeat split; intros.
  - unfold UserProfileScreen.fetchProfile.
    cbv beta iota zeta delta [mbind Async_bind getView].
    by rewrite finally_setView.
  - unfold UserProfileScreen.handleFollow.
    cbv beta iota zeta delta [mbind Async_bind getView].
    destruct (UserProfileScreen.profile (view s)); [left|by right].
    cbn [setView]. by rewrite finally_setView.
  - unfold FeedScreen.handleCreatePost.
    cbv beta iota zeta delta [mbind Async_bind getView].
    destruct (_ && _); [by right|left].
    cbn [setView]. by rewrite finally_setView.
  - unfold FeedScreen.onRefresh.
    cbv beta iota zeta delta [mbind Async_bind]. cbn [setView].
    match goal with |- context [FeedScreen.fetchPosts ?s0] =>
      pose proof (fetchPosts_completes s0) as Hc;
      destruct (FeedScreen.fetchPosts s0) as [[[]|e] s1] end; [done|done].
  - unfold ProfileScreen.fetchProfile. by rewrite finally_setView.
  - unfold ProfileScreenEditing.saveProfile.
    cbv beta iota zeta delta [mbind Async_bind getView].
    destruct (ProfileScreenEditing.profile_id _); [left|by right].
    cbn [setView]. by rewrite finally_setView.
Qed.

(* ===================================================================== *)
(** ** The sports of the edit form *)
(* ===================================================================== *)

Section Sports.
Import ProfileScreenEditing.

Lemma is_sport_eq (sport : string) (x : jsval) : is_sport sport x = true ↔ x = JStr sport.
Proof.
  destruct x; simpl; try (split; congruence).
  rewrite String.eqb_eq. split; congruence.
Qed.

Lemma includes_elem_of (sport : string) (l : list jsval) :
  existsb (is_sport sport) l = true ↔ JStr sport ∈ l.
Proof.
  rewrite existsb_exists. setoid_rewrite <- list_elem_of_In.
  setoid_rewrite is_sport_eq. split; [intros (x & Hx & ->); done | eauto].
Qed.

Lemma elem_of_without (sport : string) (l : list jsval) (x : jsval) :
  x ∈ List.filter (λ s, negb (is_sport sport s)) l ↔ x ∈ l ∧ x ≠ JStr sport.
Proof.
  rewrite !list_elem_of_In, filter_In, negb_true_iff, <- is_sport_eq.
  destruct (is_sport sport x); split; intros [? ?]; split; congruence.
Qed.

Lemma NoDup_without (sport : string) (l : list jsval) :
  NoDup l → NoDup (List.filter (λ s, negb (is_sport sport s)) l).
Proof.
  induction 1 as [|x l Hx _ IH]; simpl; [constructor|].
  destruct (negb (is_sport sport x)); [|done].
  constructor; [|done]. rewrite elem_of_without. tauto.
Qed.

(** The sports of the draft after [toggleSport]. *)
Lemma toggleSport_sports (sport : string) (s : Sys View) :
  let before := sports_or_empty (prop (editedProfile (view s)) "sports") in
  sports_or_empty (prop (editedProfile (view (toggleSport sport s).2)) "sports")
  = if existsb (is_sport sport) before
    then List.filter (λ s, negb (is_sport sport s)) before
    else before ++ [JStr sport].
Proof.
  unfold toggleSport. cbv beta iota zeta delta [mbind Async_bind getView setView snd].
  cbn [view editedProfile setEditedProfile]. unfold prop at 1.
  by rewrite lookup_insert_eq.
Qed.

End Sports.

(** X6.  [toggleSport] flips the chosen sport in the draft and nothing else:
    the sport is among the draft's sports afterwards exactly when it was not
    before, every other entry is in exactly when it was, a list without
    duplicates stays one, the draft's other fields are as before, and neither
    the saved profile nor the backend is touched. *)
Theorem toggleSport_flips (sport : string) (s : Sys ProfileScreenEditing.View) :
  let sports_of v :=
    ProfileScreenEditing.sports_or_empty (prop (ProfileScreenEditing.editedProfile v) "sports") in
  let s' := (ProfileScreenEditing.toggleSport sport s).2 in
  (JStr sport ∈ sports_of (view s') ↔ JStr sport ∉ sports_of (view s))
  ∧ (∀ x, x ≠ JStr sport → (x ∈ sports_of (view s') ↔ x ∈ sports_of (view s)))
  ∧ (NoDup (sports_of (view s)) → NoDup (sports_of (view s')))
  ∧ (∀ key, key ≠ "sports" →
       ProfileScreenEditing.editedProfile (view s') !! key
       = ProfileScreenEditing.editedProfile (view s) !! key)
  ∧ ProfileScreenEditing.profile (view s') = ProfileScreenEditing.profile (view s)
  ∧ backend s' = backend s.
Proof.
  cbv beta zeta. rewrite toggleSport_sports. cbv beta zeta.
  set (before := ProfileScreenEditing.sports_or_empty _).
  pose proof (includes_elem_of sport before) as Hin.
  split; [|split; [|split; [|split; [|split]]]].
  - destruct (existsb _ before).
    + rewrite elem_of_without. split; [intros [_ ?]; done|]. intros Hn. exfalso.
      apply Hn. by apply Hin.
    + rewrite elem_of_app, list_elem_of_singleton. split; [|by right].
      intros _ Hb. apply Hin in Hb. done.
  - intros x Hx. destruct (existsb _ before).
    + rewrite elem_of_without. tauto.
    + rewrite elem_of_app, list_elem_of_singleton. tauto.
  - intros Hnd. destruct (existsb _ before) eqn:E.
    + by apply NoDup_without.
    + apply NoDup_app. split; [done|]. split; [|apply NoDup_singleton].
      intros x Hx Hx'. apply list_elem_of_singleton in Hx' as ->.
      apply Hin in Hx. done.
  - intros key Hkey. unfold ProfileScreenEditing.toggleSport.
    cbv beta iota zeta delta [mbind Async_bind getView setView snd].
    cbn [view ProfileScreenEditing.editedProfile ProfileScreenEditing.setEditedProfile].
    by rewrite lookup_insert_ne.
  - reflexivity.
  - reflexivity.
Qed.

(** X7.  [toggleSport] twice for the same sport: the draft holds the same
    sports as before; when the sport was not chosen at the start, the list is
    the very same; when it was, the sport has moved to the end of the list. *)
Theorem toggleSport_twice (sport : string) (s : Sys ProfileScreenEditing.View) :
  let sports_of v :=
    ProfileScreenEditing.sports_or_empty (prop (ProfileScreenEditing.editedProfile v) "sports") in
  let s2 := (ProfileScreenEditing.toggleSport sport
               (ProfileScreenEditing.toggleSport sport s).2).2 in
  (∀ x, x ∈ sports_of (view s2) ↔ x ∈ sports_of (view s))
  ∧ (JStr sport ∉ sports_of (view s) → sports_of (view s2) = sports_of (view s))
  ∧ (JStr sport ∈ sports_of (view s) →
     sports_of (view s2)
     = List.filter (λ x, negb (ProfileScreenEditing.is_sport sport x)) (sports_of (view s))
       ++ [JStr sport]).
Proof.
  cbv beta zeta. rewrite !toggleSport_sports. cbv beta zeta.
  set (before := ProfileScreenEditing.sports_or_empty _).
  pose proof (includes_elem_of sport before) as Hin.
  assert (existsb (ProfileScreenEditing.is_sport sport)
            (List.filter (λ x, negb (ProfileScreenEditing.is_sport sport x)) before) = false)
    as Hout.
  { apply not_true_is_false. rewrite includes_elem_of, elem_of_without. tauto. }
  assert (existsb (ProfileScreenEditing.is_sport sport) (before ++ [JStr sport]) = true)
    as Hadded.
  { apply includes_elem_of, elem_of_app. right. apply list_elem_of_here. }
  destruct (existsb _ before) eqn:E.
  - rewrite Hout. split; [|split].
    + intros x. rewrite elem_of_app, elem_of_without, list_elem_of_singleton.
      split; [intros [[? _]| ->]; [done|by apply Hin]|].
      intros Hx. destruct (existsb (ProfileScreenEditing.is_sport sport) [x]) eqn:Ex.
      * right. simpl in Ex. rewrite orb_false_r in Ex. by apply is_sport_eq.
      * left. split; [done|]. intros ->. simpl in Ex.
        rewrite String.eqb_refl in Ex. done.
    + intros Hn. exfalso. apply Hn. by apply Hin.
    + done.
  - rewrite Hadded.
    assert (List.filter (λ x, negb (ProfileScreenEditing.is_sport sport x))
              (before ++ [JStr sport]) = before) as Hback.
    { rewrite List.filter_app. simpl. rewrite String.eqb_refl. simpl.
      rewrite app_nil_r. apply forallb_filter_id, forallb_forall.
      intros x Hx. apply negb_true_iff, not_true_is_false.
      rewrite is_sport_eq. intros ->. apply list_elem_of_In in Hx.
      apply Hin in Hx. done. }
    rewrite Hback. split; [done|]. split; [done|].
    intros Hs. apply Hin in Hs. done.
Qed.

(* ===================================================================== *)
(** ** Saving the edit form *)
(* ===================================================================== *)

Section Saving.
Import ProfileScreenEditing.
Variable toISOString : Z → string.

Lemma patch_lookup (edited c : gmap string jsval) (keys : list string) (key : string) :
  foldr (λ k c, match prop edited k with JUndefined => c | value => <[k := value]> c end)
    c keys !! key
  = match prop edited key with
    | JUndefined => c !! key
    | value => if decide (key ∈ keys) then Some value else c !! key
    end.
Proof.
  induction keys as [|k keys IH]; simpl.
  { destruct (prop edited key); try done; by rewrite decide_False by apply not_elem_of_nil. }
  destruct (decide (key = k)) as [->|Hne].
  - destruct (prop edited k) eqn:E; rewrite ?lookup_insert_eq, ?IH, ?E; try done;
      by rewrite decide_True by apply list_elem_of_here.
  - assert (key ∈ k :: keys ↔ key ∈ keys) as Hiff by (rewrite elem_of_cons; tauto).
    destruct (prop edited k) eqn:E; rewrite ?lookup_insert_ne by done; rewrite IH;
      destruct (prop edited key); try done; repeat case_decide; try done; exfalso; tauto.
Qed.

Lemma updated_saved (edited c : gmap string jsval) (now : Z) (key : string) :
  key ∈ saved_keys →
  prop edited key ≠ JUndefined →
  prop (updated toISOString edited now c) key = prop edited key.
Proof.
  intros Hk Hdef. unfold updated, prop at 1.
  rewrite lookup_insert_ne.
  - rewrite patch_lookup. unfold prop in Hdef |- *.
    destruct (default JUndefined (edited !! key)); try done; by rewrite decide_True.
  - intros <-. unfold saved_keys in Hk.
    repeat (apply elem_of_cons in Hk as [Hk|Hk]; [discriminate Hk|]).
    by apply elem_of_nil in Hk.
Qed.

Lemma updated_other (edited c : gmap string jsval) (now : Z) (key : string) :
  key ∉ "updated_at" :: saved_keys →
  updated toISOString edited now c !! key = c !! key.
Proof.
  intros Hk. unfold updated.
  rewrite lookup_insert_ne by (intros <-; apply Hk, list_elem_of_here).
  rewrite patch_lookup.
  destruct (prop edited key); try done; rewrite decide_False; try done;
    intros Hin; apply Hk; by apply list_elem_of_further.
Qed.

(** One run of [saveProfile] past its guard, by the backend's answer. *)
Lemma saveProfile_spec (s : Sys View) (pid : string) :
  profile_id (profile (view s)) = Some pid →
  let edited := editedProfile (view s) in
  let s' := (saveProfile toISOString s).2 in
  editedProfile (view s') = edited
  ∧ saving (view s') = false
  ∧ match next_fault (backend s) with
    | Healthy | NullPayload =>
        profile (view s') = Some (edited ∪ default ∅ (profile (view s)))
        ∧ isEditing (view s') = false
        ∧ error_banner (view s') = None
        ∧ console s' = console s
        ∧ tbl_profiles (backend s')
          = profiles_after_save toISOString edited (Date_now s) pid (tbl_profiles (backend s))
    | ErrorResponse | Reject =>
        profile (view s') = profile (view s)
        ∧ isEditing (view s') = isEditing (view s)
        ∧ error_banner (view s') = Some "Ошибка при сохранении профиля"
        ∧ console s' = console s ++ ["Error saving profile:"]
        ∧ tbl_profiles (backend s') = tbl_profiles (backend s)
    end.
Proof.
  destruct s as [v b r c d], b, v. simpl. intros Hid.
  unfold saveProfile, profiles_update_eq_id, profiles_after_save.
  cbv beta iota zeta delta [mbind Async_bind getView]. cbn [view profile editedProfile].
  rewrite Hid.
  destruct faults0 as [|[] fs]; run_async; cbn; done.
Qed.

End Saving.

(** X8.  A save the backend carries out: the screen shows the draft laid
    over the profile, leaves edit mode, shows no error; every row of that id
    has the update applied; and for each of [full_name], [bio], [avatar_url]
    and [sports] that the draft defines, the row and the screen hold the
    same value. *)
Theorem saveProfile_saved (toISOString : Z → string) (s : Sys ProfileScreenEditing.View)
    (pid : string) :
  ProfileScreenEditing.profile_id (ProfileScreenEditing.profile (view s)) = Some pid →
  faults (backend s) = [] →
  let edited := ProfileScreenEditing.editedProfile (view s) in
  let s' := (ProfileScreenEditing.saveProfile toISOString s).2 in
  let shown := edited ∪ default ∅ (ProfileScreenEditing.profile (view s)) in
  ProfileScreenEditing.profile (view s') = Some shown
  ∧ ProfileScreenEditing.isEditing (view s') = false
  ∧ ProfileScreenEditing.saving (view s') = false
  ∧ ProfileScreenEditing.error_banner (view s') = None
  ∧ tbl_profiles (backend s')
    = profiles_after_save toISOString edited (Date_now s) pid (tbl_profiles (backend s))
  ∧ ∀ r key, r ∈ tbl_profiles (backend s') → profiles.id r = pid →
             key ∈ saved_keys → prop edited key ≠ JUndefined →
             prop (profiles.columns r) key = prop shown key.
Proof.
  intros Hid Hf.
  destruct (saveProfile_spec toISOString s pid Hid) as (_ & Hsaving & H).
  unfold next_fault in H. rewrite Hf in H. simpl in H.
  destruct H as (Hp & He & Hb & _ & Ht). cbv zeta.
  repeat split; try done.
  intros r key Hr Hrid Hkey Hdef. rewrite Ht in Hr.
  unfold profiles_after_save in Hr. apply list_elem_of_fmap in Hr as (r0 & -> & Hr0).
  assert (prop (ProfileScreenEditing.editedProfile (view s)
                ∪ default ∅ (ProfileScreenEditing.profile (view s))) key
          = prop (ProfileScreenEditing.editedProfile (view s)) key) as Hshown.
  { unfold prop in Hdef |- *.
    destruct (ProfileScreenEditing.editedProfile (view s) !! key) as [x|] eqn:E; [|done].
    by rewrite (lookup_union_Some_l _ _ _ _ E). }
  rewrite Hshown.
  case_decide as Hpid; simpl in *.
  - by apply updated_saved.
  - done.
Qed.

Lemma saveProfile_saved_witness :
  let s := sample_sys (editing_screen (Some my_profile) my_draft) [] in
  let edited := my_draft in
  let s' := (ProfileScreenEditing.saveProfile sample_toISOString s).2 in
  let shown := edited ∪ my_profile in
  ProfileScreenEditing.profile (view s') = Some shown
  ∧ ProfileScreenEditing.isEditing (view s') = false
  ∧ ProfileScreenEditing.saving (view s') = false
  ∧ ProfileScreenEditing.error_banner (view s') = None
  ∧ tbl_profiles (backend s')
    = profiles_after_save sample_toISOString edited (Date_now s) "me"
        (tbl_profiles (backend s))
  ∧ ∀ r key, r ∈ tbl_profiles (backend s') → profiles.id r = "me" →
             key ∈ saved_keys → prop edited key ≠ JUndefined →
             prop (profiles.columns r) key = prop shown key.
Proof.
  apply (saveProfile_saved sample_toISOString
           (sample_sys (editing_screen (Some my_profile) my_draft) []) "me");
    reflexivity.
Defined.

(** X9.  A save the backend answers with an error, or rejects: the table
    and the profile on screen are as before, the screen stays in edit mode
    with the draft intact, shows the error banner, and the failure is
    logged. *)
Theorem saveProfile_failed (toISOString : Z → string) (s : Sys ProfileScreenEditing.View)
    (pid : string) :
  ProfileScreenEditing.profile_id (ProfileScreenEditing.profile (view s)) = Some pid →
  next_fault (backend s) = ErrorResponse ∨ next_fault (backend s) = Reject →
  let s' := (ProfileScreenEditing.saveProfile toISOString s).2 in
  tbl_profiles (backend s') = tbl_profiles (backend s)
  ∧ ProfileScreenEditing.profile (view s') = ProfileScreenEditing.profile (view s)
  ∧ ProfileScreenEditing.editedProfile (view s') = ProfileScreenEditing.editedProfile (view s)
  ∧ ProfileScreenEditing.isEditing (view s') = ProfileScreenEditing.isEditing (view s)
  ∧ ProfileScreenEditing.saving (view s') = false
  ∧ ProfileScreenEditing.error_banner (view s') = Some "Ошибка при сохранении профиля"
  ∧ console s' = console s ++ ["Error saving profile:"].
Proof.
  intros Hid Hfault.
  destruct (saveProfile_spec toISOString s pid Hid) as (Hdraft & Hsaving & H).
  cbv zeta. destruct Hfault as [Hfault|Hfault]; rewrite Hfault in H;
    destruct H as (Hp & He & Hb & Hc & Ht); repeat split; done.
Qed.

Lemma saveProfile_failed_witness :
  let s := sample_sys (editing_screen (Some my_profile) my_draft) [ErrorResponse] in
  let s' := (ProfileScreenEditing.saveProfile sample_toISOString s).2 in
  tbl_profiles (backend s') = tbl_profiles (backend s)
  ∧ ProfileScreenEditing.profile (view s') = ProfileScreenEditing.profile (view s)
  ∧ ProfileScreenEditing.editedProfile (view s') = ProfileScreenEditing.editedProfile (view s)
  ∧ ProfileScreenEditing.isEditing (view s') = ProfileScreenEditing.isEditing (view s)
  ∧ ProfileScreenEditing.saving (view s') = false
  ∧ ProfileScreenEditing.error_banner (view s') = Some "Ошибка при сохранении профиля"
  ∧ console s' = console s ++ ["Error saving profile:"].
Proof.
  apply (saveProfile_failed sample_toISOString
           (sample_sys (editing_screen (Some my_profile) my_draft) [ErrorResponse]) "me");
    [reflexivity | left; reflexivity].
Defined.

(** X10.  Whatever the state and the backend's answer, [saveProfile] adds
    and removes no profile row, changes no id, and leaves every column other
    than [full_name], [bio], [avatar_url], [sports] and [updated_at] as it
    was: an edit of another field, such as the city, is never stored. *)
Theorem saveProfile_writes_only (toISOString : Z → string)
    (s : Sys ProfileScreenEditing.View) (key : string) :
  key ∉ "updated_at" :: saved_keys →
  let s' := (ProfileScreenEditing.saveProfile toISOString s).2 in
  (λ r, (profiles.id r, profiles.columns r !! key)) <$> tbl_profiles (backend s')
  = (λ r, (profiles.id r, profiles.columns r !! key)) <$> tbl_profiles (backend s).
Proof.
  intros Hkey. cbv zeta.
  destruct (ProfileScreenEditing.profile_id (ProfileScreenEditing.profile (view s)))
    as [pid|] eqn:Hid.
  - destruct (saveProfile_spec toISOString s pid Hid) as (_ & _ & H).
    destruct (next_fault (backend s)); destruct H as (_ & _ & _ & _ & ->); try done.
    all: unfold profiles_after_save; rewrite <- list_fmap_compose;
      apply list_fmap_ext; intros i r _; simpl;
      case_decide; simpl; [|done]; by rewrite updated_other.
  - unfold ProfileScreenEditing.saveProfile.
    cbv beta iota zeta delta [mbind Async_bind getView]. by rewrite Hid.
Qed.

Lemma saveProfile_writes_only_witness :
  let s := sample_sys (editing_screen (Some my_profile) my_draft) [] in
  let s' := (ProfileScreenEditing.saveProfile sample_toISOString s).2 in
  (λ r, (profiles.id r, profiles.columns r !! "city")) <$> tbl_profiles (backend s')
  = (λ r, (profiles.id r, profiles.columns r !! "city")) <$> tbl_profiles (backend s).
Proof.
  apply (saveProfile_writes_only sample_toISOString
           (sample_sys (editing_screen (Some my_profile) my_draft) []) "city").
  intros H. repeat (apply elem_of_cons in H as [H|H]; [discriminate H|]).
  by apply elem_of_nil in H.
Defined.

(* ===================================================================== *)
(** ** The own profile's follower lists and posts *)
(* ===================================================================== *)

Section OwnLists.
Import ProfileScreenEditing.

Lemma fetchProfile_own_healthy (b : Backend) (u : auth.User) (v : ProfileScreen.View)
    (mine : profiles.row) r c d :
  session b = Some u →
  faults b = [] →
  filter (λ r, profiles.id r = auth.id u) (tbl_profiles b) = [mine] →
  ProfileScreen.profile
    (view (ProfileScreen.fetchProfile
             {| view := v; backend := b; router := r; console := c; Date_now := d |}).2)
  = Some (<["posts_count" :=
              ProfileScreen.number (Z.of_nat (length (ProfileScreen.posts_of (auth.id u) b)))]>
            (<["following_count" :=
                 ProfileScreen.number
                   (Z.of_nat (length (ProfileScreen.followed_by (auth.id u) b)))]>
               (<["followers_count" :=
                    ProfileScreen.number
                      (Z.of_nat (length (ProfileScreen.followers_of (auth.id u) b)))]>
                  (ProfileScreen.row_object mine)))).
Proof.
  destruct b, v. simpl. intros -> -> Hrow.
  unfold ProfileScreen.fetchProfile, ProfileScreen.profiles_select_eq_id,
    ProfileScreen.follows_count_eq_following_id,
    ProfileScreen.follows_count_eq_follower_id,
    ProfileScreen.posts_count_eq_user_id.
  run_async. rewrite Hrow. cbn [list_fmap]. run_async. done.
Qed.

Lemma fetchFollowers_healthy (s : Sys View) (u : auth.User) :
  session (backend s) = Some u →
  faults (backend s) = [] →
  followers (view (fetchFollowers s).2)
  = (λ e, embed_profile (backend s) (follows.follower_id e))
      <$> filter (λ e, follows.following_id e = auth.id u) (tbl_follows (backend s)).
Proof.
  destruct s as [v b r c d], b, v. simpl. intros -> ->.
  unfold fetchFollowers, follows_select_follower. run_async. done.
Qed.

Lemma fetchFollowing_healthy (s : Sys View) (u : auth.User) :
  session (backend s) = Some u →
  faults (backend s) = [] →
  following (view (fetchFollowing s).2)
  = (λ e, embed_profile (backend s) (follows.following_id e))
      <$> filter (λ e, follows.follower_id e = auth.id u) (tbl_follows (backend s)).
Proof.
  destruct s as [v b r c d], b, v. simpl. intros -> ->.
  unfold fetchFollowing, follows_select_following. run_async. done.
Qed.

Lemma embed_profile_id (b : Backend) (uid : string) (sn : Snippet) :
  embed_profile b uid = Some sn → id sn = uid.
Proof.
  unfold embed_profile. intros H.
  destruct (head _) as [p|] eqn:Hp; simplify_eq/=.
  apply head_Some_elem_of, list_elem_of_filter in Hp as [Hp _]. done.
Qed.

End OwnLists.

(** X11.  On the own profile, against a healthy backend, the lists behind
    the two counters have as many entries as the counters show: the followers
    list is as long as [followers_count], the following list as long as
    [following_count].  Every profile listed belongs to a follow edge of the
    signed-in user, in the right direction. *)
Theorem follower_lists_match_counts (b : Backend) (u : auth.User)
    (own : ProfileScreen.View) (lists : ProfileScreenEditing.View) (mine : profiles.row)
    (r : list Navigation) (c : list string) (d : Z) :
  session b = Some u →
  faults b = [] →
  filter (λ r, profiles.id r = auth.id u) (tbl_profiles b) = [mine] →
  let shown :=
    ProfileScreen.profile
      (view (ProfileScreen.fetchProfile
               {| view := own; backend := b; router := r; console := c; Date_now := d |}).2) in
  let start := {| view := lists; backend := b; router := r; console := c; Date_now := d |} in
  let followers :=
    ProfileScreenEditing.followers (view (ProfileScreenEditing.fetchFollowers start).2) in
  let following :=
    ProfileScreenEditing.following (view (ProfileScreenEditing.fetchFollowing start).2) in
  (λ p, prop p "followers_count") <$> shown
    = Some (ProfileScreen.number (Z.of_nat (length followers)))
  ∧ (λ p, prop p "following_count") <$> shown
    = Some (ProfileScreen.number (Z.of_nat (length following)))
  ∧ (∀ sn, Some sn ∈ followers →
       {| follows.follower_id := ProfileScreenEditing.id sn;
          follows.following_id := auth.id u |} ∈ tbl_follows b)
  ∧ (∀ sn, Some sn ∈ following →
       {| follows.follower_id := auth.id u;
          follows.following_id := ProfileScreenEditing.id sn |} ∈ tbl_follows b).
Proof.
  intros Hu Hf Hmine. cbv zeta.
  rewrite (fetchProfile_own_healthy b u own mine r c d Hu Hf Hmine).
  rewrite (fetchFollowers_healthy
             {| view := lists; backend := b; router := r; console := c; Date_now := d |}
             u Hu Hf).
  rewrite (fetchFollowing_healthy
             {| view := lists; backend := b; router := r; console := c; Date_now := d |}
             u Hu Hf).
  cbn [backend]. rewrite !length_fmap.
  split; [|split; [|split]].
  - simpl. by rewrite prop_followers_count.
  - simpl. unfold prop. rewrite lookup_insert_ne by done. by rewrite lookup_insert_eq.
  - intros sn Hsn. apply list_elem_of_fmap in Hsn as (e & He & Hin).
    apply list_elem_of_filter in Hin as [Hto Hin].
    symmetry in He. apply embed_profile_id in He. rewrite He, <- Hto. by destruct e.
  - intros sn Hsn. apply list_elem_of_fmap in Hsn as (e & He & Hin).
    apply list_elem_of_filter in Hin as [Hfrom Hin].
    symmetry in He. apply embed_profile_id in He. rewrite He, <- Hfrom. by destruct e.
Qed.

Lemma follower_lists_match_counts_witness :
  let b := sample_backend (Some me) [] in
  let shown :=
    ProfileScreen.profile
      (view (ProfileScreen.fetchProfile
               {| view := own_screen; backend := b; router := []; console := [];
                  Date_now := 0 |}).2) in
  let start := {| view := lists_screen; backend := b; router := []; console := [];
                  Date_now := 0 |} in
  let followers :=
    ProfileScreenEditing.followers (view (ProfileScreenEditing.fetchFollowers start).2) in
  let following :=
    ProfileScreenEditing.following (view (ProfileScreenEditing.fetchFollowing start).2) in
  (λ p, prop p "followers_count") <$> shown
    = Some (ProfileScreen.number (Z.of_nat (length followers)))
  ∧ (λ p, prop p "following_count") <$> shown
    = Some (ProfileScreen.number (Z.of_nat (length following)))
  ∧ (∀ sn, Some sn ∈ followers →
       {| follows.follower_id := ProfileScreenEditing.id sn;
          follows.following_id := "me" |} ∈ tbl_follows b)
  ∧ (∀ sn, Some sn ∈ following →
       {| follows.follower_id := "me";
          follows.following_id := ProfileScreenEditing.id sn |} ∈ tbl_follows b).
Proof.
  apply (follower_lists_match_counts (sample_backend (Some me) []) me own_screen
           lists_screen
           {| profiles.id := "me";
              profiles.columns :=
                {[ "full_name" := JStr "Mia"; "bio" := JStr "inline";
                   "sports" := JArr [JStr "Скейтборд"] ]} |}
           [] [] 0); reflexivity.
Defined.

Section OwnPosts.
Import ProfileScreenEditing.

Lemma received_log (n : nat) (r : Request) (b : Backend) :
  requests (received n r b) = requests b ++ replicate n r.
Proof.
  induction n as [|n IH]; simpl; [by rewrite app_nil_r|].
  rewrite IH, <- app_assoc. f_equal.
  change (replicate n r ++ [r]) with (replicate n r ++ replicate 1 r).
  rewrite <- replicate_add. by rewrite Nat.add_1_r.
Qed.

Lemma received_tables (n : nat) (r : Request) (b : Backend) :
  tbl_posts (received n r b) = tbl_posts b ∧ tbl_likes (received n r b) = tbl_likes b.
Proof. induction n as [|n [IH1 IH2]]; [done|]. simpl. done. Qed.

(** The like counts of [fetchUserPosts], one request per post, all
    answered. *)
Lemma Promise_all_counted (l : list posts.row) (s : Sys View) :
  faults (backend s) = [] →
  Promise_all
    ((λ post,
        r ← likes_count_eq_post_id (posts.id post);
        mret {| post_id := posts.id post;
                content := posts.content post;
                image_url := posts.image_url post;
                created_at := posts.created_at post;
                likes := or_zero (count r) |})
       <$> l) s
  = (Normal (counted_post (backend s) <$> l),
     with_backend (received (length l) {| verb := SELECT; target := "likes" |} (backend s)) s).
Proof.
  revert s. induction l as [|post l IH]; intros s Hf.
  { destruct s. reflexivity. }
  cbn [list_fmap fmap Promise_all]. unfold likes_count_eq_post_id at 1.
  cbv beta iota zeta delta [mbind Async_bind request_count mret Async_ret next_fault].
  rewrite Hf. cbn [head default from_option Datatypes.id].
  change (list_fmap _ _ ?f l) with (f <$> l).
  rewrite IH by (cbn; by rewrite Hf).
  cbn [with_backend backend view router console Date_now length].
  unfold received. rewrite Nat.iter_succ_r. reflexivity.
Qed.

Lemma fetchUserPosts_healthy (s : Sys View) (u : auth.User) :
  session (backend s) = Some u →
  faults (backend s) = [] →
  let mine :=
    merge_sort FeedScreen.newer_first
      (filter (λ p, posts.user_id p = Some (auth.id u)) (tbl_posts (backend s))) in
  let s' := (fetchUserPosts s).2 in
  userPosts (view s') = counted_post (backend s) <$> mine
  ∧ requests (backend s')
    = requests (backend s)
      ++ [ {| verb := GET_USER; target := "auth" |}; {| verb := SELECT; target := "posts" |} ]
      ++ replicate (length mine) {| verb := SELECT; target := "likes" |}.
Proof.
  destruct s as [v b r c d], b, v. simpl. intros -> ->.
  unfold fetchUserPosts, posts_select_eq_user_id. run_async.
  rewrite Promise_all_counted by done.
  cbn [with_backend backend view router console Date_now userPosts setUserPosts fst snd].
  split; [done|].
  etrans; [exact (received_log _ _ _)|]. cbn [requests]. by rewrite <- !app_assoc.
Qed.

End OwnPosts.


(** X12.  The posts of the own profile, against a healthy backend: the list
    holds exactly the signed-in user's posts, newest first, each with the
    number of its like edges; the handler asks for the posts once and then
    sends one count request per post. *)
Theorem fetchUserPosts_own (s : Sys ProfileScreenEditing.View) (u : auth.User) :
  session (backend s) = Some u →
  faults (backend s) = [] →
  let b := backend s in
  let mine := filter (λ p, posts.user_id p = Some (auth.id u)) (tbl_posts b) in
  let s' := (ProfileScreenEditing.fetchUserPosts s).2 in
  let shown := ProfileScreenEditing.userPosts (view s') in
  (λ p, (ProfileScreenEditing.post_id p, ProfileScreenEditing.created_at p)) <$> shown
    ≡ₚ (λ r, (posts.id r, posts.created_at r)) <$> mine
  ∧ StronglySorted
      (λ p q, ProfileScreenEditing.created_at q ≤ ProfileScreenEditing.created_at p) shown
  ∧ Forall (λ p,
      ProfileScreenEditing.likes p
      = Z.of_nat (length (filter (λ l, likes.post_id l = ProfileScreenEditing.post_id p)
                            (tbl_likes b)))) shown
  ∧ requests (backend s')
    = requests b
      ++ [ {| verb := GET_USER; target := "auth" |}; {| verb := SELECT; target := "posts" |} ]
      ++ replicate (length mine) {| verb := SELECT; target := "likes" |}.
Proof.
  intros Hu Hf. cbv zeta.
  destruct (fetchUserPosts_healthy s u Hu Hf) as [Hshown Hlog].
  rewrite Hshown, Hlog.
  set (mine := filter _ (tbl_posts (backend s))).
  assert (merge_sort FeedScreen.newer_first mine ≡ₚ mine) as Hperm
    by apply merge_sort_Permutation.
  split; [|split; [|split]].
  - rewrite <- list_fmap_compose. by rewrite Hperm.
  - apply (StronglySorted_fmap _ FeedScreen.newer_first); [done|].
    apply StronglySorted_merge_sort; apply _.
  - apply Forall_fmap, Forall_forall. by intros p _.
  - by rewrite Hperm.
Qed.

Lemma fetchUserPosts_own_witness :
  let s := sample_sys lists_screen [] in
  let b := backend s in
  let mine := filter (λ p, posts.user_id p = Some "me") (tbl_posts b) in
  let s' := (ProfileScreenEditing.fetchUserPosts s).2 in
  let shown := ProfileScreenEditing.userPosts (view s') in
  (λ p, (ProfileScreenEditing.post_id p, ProfileScreenEditing.created_at p)) <$> shown
    ≡ₚ (λ r, (posts.id r, posts.created_at r)) <$> mine
  ∧ StronglySorted
      (λ p q, ProfileScreenEditing.created_at q ≤ ProfileScreenEditing.created_at p) shown
  ∧ Forall (λ p,
      ProfileScreenEditing.likes p
      = Z.of_nat (length (filter (λ l, likes.post_id l = ProfileScreenEditing.post_id p)
                            (tbl_likes b)))) shown
  ∧ requests (backend s')
    = requests b
      ++ [ {| verb := GET_USER; target := "auth" |}; {| verb := SELECT; target := "posts" |} ]
      ++ replicate (length mine) {| verb := SELECT; target := "likes" |}.
Proof.
  apply (fetchUserPosts_own (sample_sys lists_screen []) me); reflexivity.
Defined.



(* ===================================================================== *)
(** ** More on the like toggle *)
(* ===================================================================== *)

Section Likes.
Import FeedScreen.

Lemma find_feed_after_toggle (postId : string) (post : Post) (l : list Post) :
  find (λ p, String.eqb (id p) postId) l = Some post →
  find (λ p, String.eqb (id p) postId) (feed_after_toggle postId post l)
  = Some (toggled post post).
Proof.
  unfold feed_after_toggle. induction l as [|p l IH]; [done|]. simpl.
  destruct (String.eqb (id p) postId) eqn:E.
  - intros [= ->]. simpl. by rewrite E.
  - intros H. rewrite E. by apply IH.
Qed.

Lemma toggled_back (post p : Post) :
  liked_by_user p = liked_by_user post →
  toggled (toggled post post) (toggled post p) = p.
Proof.
  destruct p, post. unfold toggled. simpl. intros ->.
  destruct liked_by_user1; simpl; f_equal; lia.
Qed.

Lemma find_unique (postId : string) (post p : Post) (l : list Post) :
  NoDup (id <$> l) →
  find (λ p, String.eqb (id p) postId) l = Some post →
  p ∈ l → id p = postId → p = post.
Proof.
  induction l as [|q l IH]; [done|]. rewrite fmap_cons, NoDup_cons. simpl.
  intros [Hq Hnd] Hfind Hp Hid.
  destruct (String.eqb (id q) postId) eqn:E.
  - injection Hfind as ->. apply String.eqb_eq in E.
    apply elem_of_cons in Hp as [->|Hp]; [done|].
    exfalso. apply Hq. rewrite E, <- Hid. by apply list_elem_of_fmap_2.
  - apply String.eqb_neq in E.
    apply elem_of_cons in Hp as [->|Hp]; [done|]. by apply IH.
Qed.

Lemma feed_after_toggle_twice (postId : string) (post : Post) (l : list Post) :
  NoDup (id <$> l) →
  find (λ p, String.eqb (id p) postId) l = Some post →
  feed_after_toggle postId (toggled post post) (feed_after_toggle postId post l) = l.
Proof.
  intros Hnd Hfind. unfold feed_after_toggle. rewrite <- list_fmap_compose.
  rewrite <- (list_fmap_id l) at 2. apply Forall_fmap_ext_1, Forall_forall.
  intros p Hp. simpl.
  destruct (String.eqb (id p) postId) eqn:E; simpl; rewrite E; [|done].
  apply String.eqb_eq in E.
  rewrite (find_unique postId post p l Hnd Hfind Hp E). by apply toggled_back.
Qed.

End Likes.

(** X14.  A like toggle the backend does not reject touches one post only:
    the feed keeps its length and order, every post with another id is
    untouched, and the post liked has its flag flipped and its count moved by
    exactly one, up when it becomes liked and down when it stops being. *)
Theorem handleLike_changes_one_post (postId : string) (s : Sys FeedScreen.View)
    (post : FeedScreen.Post) (u : auth.User) :
  find (λ p, String.eqb (FeedScreen.id p) postId) (FeedScreen.posts (view s)) = Some post →
  session (backend s) = Some u →
  next_fault (backend s) ≠ Reject →
  let before := FeedScreen.posts (view s) in
  let after := FeedScreen.posts (view (FeedScreen.handleLike postId s).2) in
  length after = length before
  ∧ FeedScreen.id <$> after = FeedScreen.id <$> before
  ∧ (∀ i p, before !! i = Some p → FeedScreen.id p ≠ postId → after !! i = Some p)
  ∧ (∀ p, p ∈ after → FeedScreen.id p = postId →
       FeedScreen.liked_by_user p = negb (FeedScreen.liked_by_user post))
  ∧ (∀ i p, before !! i = Some p → FeedScreen.id p = postId →
       ∃ q, after !! i = Some q
            ∧ FeedScreen.likes q
              = FeedScreen.likes p + (if FeedScreen.liked_by_user post then -1 else 1)
            ∧ FeedScreen.content q = FeedScreen.content p
            ∧ FeedScreen.comments_count q = FeedScreen.comments_count p).
Proof.
  intros Hfind Hu Hrej.
  pose proof (handleLike_spec s postId post u Hfind Hu) as H. cbv zeta in H |- *.
  assert (FeedScreen.posts (view (FeedScreen.handleLike postId s).2)
          = feed_after_toggle postId post (FeedScreen.posts (view s))) as ->.
  { destruct (next_fault (backend s)); try done; by destruct H. }
  unfold feed_after_toggle. split; [by rewrite length_fmap|].
  split; [|split; [|split]].
  - rewrite <- list_fmap_compose. apply list_fmap_ext. intros i p _. simpl.
    by destruct (String.eqb _ _).
  - intros i p Hp Hid. rewrite list_lookup_fmap, Hp. simpl.
    apply String.eqb_neq in Hid. by rewrite Hid.
  - intros p Hp Hid. apply list_elem_of_fmap in Hp as (p0 & -> & _).
    destruct (String.eqb (FeedScreen.id p0) postId) eqn:E; [done|].
    apply String.eqb_neq in E. done.
  - intros i p Hp Hid. rewrite list_lookup_fmap, Hp. simpl.
    apply String.eqb_eq in Hid. rewrite Hid. eexists. split; [done|].
    simpl. destruct (FeedScreen.liked_by_user post); repeat split; lia.
Qed.

Lemma handleLike_changes_one_post_witness :
  let s := sample_sys (feed_screen [feed_post "p1" 2 true; feed_post "p3" 1 false] []) [] in
  let before := FeedScreen.posts (view s) in
  let after := FeedScreen.posts (view (FeedScreen.handleLike "p3" s).2) in
  length after = length before
  ∧ FeedScreen.id <$> after = FeedScreen.id <$> before
  ∧ (∀ i p, before !! i = Some p → FeedScreen.id p ≠ "p3" → after !! i = Some p)
  ∧ (∀ p, p ∈ after → FeedScreen.id p = "p3" →
       FeedScreen.liked_by_user p = negb (FeedScreen.liked_by_user (feed_post "p3" 1 false)))
  ∧ (∀ i p, before !! i = Some p → FeedScreen.id p = "p3" →
       ∃ q, after !! i = Some q
            ∧ FeedScreen.likes q
              = FeedScreen.likes p
                + (if FeedScreen.liked_by_user (feed_post "p3" 1 false) then -1 else 1)
            ∧ FeedScreen.content q = FeedScreen.content p
            ∧ FeedScreen.comments_count q = FeedScreen.comments_count p).
Proof.
  apply (handleLike_changes_one_post "p3"
           (sample_sys (feed_screen [feed_post "p1" 2 true; feed_post "p3" 1 false] []) [])
           (feed_post "p3" 1 false) me);
    [reflexivity | reflexivity | discriminate].
Defined.

(** X15.  Liking and unliking: two [handleLike] in a row for the same post,
    both answered by a healthy backend, on a feed whose post ids are
    distinct, give back the very feed there was; and when the post's flag
    agreed with the [likes] table, the table holds the same edges. *)
Theorem handleLike_twice (postId : string) (s : Sys FeedScreen.View)
    (post : FeedScreen.Post) (u : auth.User) :
  find (λ p, String.eqb (FeedScreen.id p) postId) (FeedScreen.posts (view s)) = Some post →
  session (backend s) = Some u →
  faults (backend s) = [] →
  NoDup (FeedScreen.id <$> FeedScreen.posts (view s)) →
  let s1 := (FeedScreen.handleLike postId s).2 in
  let s2 := (FeedScreen.handleLike postId s1).2 in
  FeedScreen.posts (view s2) = FeedScreen.posts (view s)
  ∧ ((FeedScreen.liked_by_user post = true ↔ like_edge postId u ∈ tbl_likes (backend s)) →
     ∀ e, e ∈ tbl_likes (backend s2) ↔ e ∈ tbl_likes (backend s)).
Proof.
  intros Hfind Hu Hf Hnd. cbv zeta.
  assert (∀ s0 : Sys FeedScreen.View, session (backend s0) = Some u →
            session (backend (FeedScreen.handleLike postId s0).2) = Some u
            ∧ faults (backend (FeedScreen.handleLike postId s0).2)
              = match find (λ p, String.eqb (FeedScreen.id p) postId)
                        (FeedScreen.posts (view s0)) with
                | Some _ => tail (faults (backend s0))
                | None => faults (backend s0)
                end) as Hkeep.
  { intros [v0 b0 r0 c0 d0] Hu0. destruct b0, v0. simpl in Hu0. subst.
    unfold FeedScreen.handleLike, FeedScreen.likes_delete_match, FeedScreen.likes_insert.
    run_async. cbn [FeedScreen.posts].
    destruct (find _ posts) as [p0|]; [|done].
    destruct faults0 as [|[] fs], (FeedScreen.liked_by_user p0); run_async; done. }
  pose proof (handleLike_spec s postId post u Hfind Hu) as H1.
  unfold next_fault in H1. rewrite Hf in H1. cbv zeta in H1. simpl in H1.
  destruct H1 as [Hp1 Ht1].
  destruct (Hkeep s Hu) as [Hu1 Hf1]. rewrite Hfind, Hf in Hf1. simpl in Hf1.
  assert (find (λ p, String.eqb (FeedScreen.id p) postId)
            (FeedScreen.posts (view (FeedScreen.handleLike postId s).2))
          = Some (FeedScreen.toggled post post)) as Hfind1.
  { rewrite Hp1. by apply find_feed_after_toggle. }
  pose proof (handleLike_spec _ postId _ u Hfind1 Hu1) as H2.
  unfold next_fault in H2. rewrite Hf1 in H2. cbv zeta in H2. simpl in H2.
  destruct H2 as [Hp2 Ht2]. split.
  - rewrite Hp2, Hp1. by apply feed_after_toggle_twice.
  - intros Hcons e. rewrite Ht2, Ht1.
    assert (∀ l : likes.row,
              likes.post_id l = postId ∧ likes.user_id l = auth.id u ↔ l = like_edge postId u)
      as Hedge.
    { intros [lp lu]. unfold like_edge. simpl. split; [intros [-> ->]; done|].
      intros [= -> ->]. done. }
    destruct (FeedScreen.liked_by_user post) eqn:E; simpl.
    + rewrite elem_of_app, list_elem_of_filter, list_elem_of_singleton, Hedge. split.
      * intros [[_ ?]| ->]; [done|]. by apply Hcons.
      * intros He. destruct (decide (e = like_edge postId u)); [by right|by left].
    + rewrite list_elem_of_filter, elem_of_app, list_elem_of_singleton, Hedge. split.
      * intros [Hn [?| ->]]; done.
      * intros He. split; [|by left]. intros ->. apply Hcons in He. done.
Qed.

Lemma handleLike_twice_witness :
  let s := sample_sys (feed_screen [feed_post "p1" 2 true; feed_post "p3" 1 false] []) [] in
  let s1 := (FeedScreen.handleLike "p3" s).2 in
  let s2 := (FeedScreen.handleLike "p3" s1).2 in
  FeedScreen.posts (view s2) = FeedScreen.posts (view s)
  ∧ ((FeedScreen.liked_by_user (feed_post "p3" 1 false) = true
      ↔ like_edge "p3" me ∈ tbl_likes (backend s)) →
     ∀ e, e ∈ tbl_likes (backend s2) ↔ e ∈ tbl_likes (backend s)).
Proof.
  apply (handleLike_twice "p3"
           (sample_sys (feed_screen [feed_post "p1" 2 true; feed_post "p3" 1 false] []) [])
           (feed_post "p3" 1 false) me);
    [reflexivity | reflexivity | reflexivity |].
  apply (bool_decide_unpack _). vm_compute. exact I.
Defined.

(* ===================================================================== *)
(** ** More on creating a post *)
(* ===================================================================== *)

Section Creating.
Import FeedScreen.

(** [handleCreatePost] against a healthy backend, past the guard. *)
Lemma handleCreatePost_healthy (s : Sys View) (u : auth.User) :
  truthy_jsstring (trim (content_input (view s))) = true
  ∨ truthy_string (selectedImage (view s)) = true →
  session (backend s) = Some u →
  faults (backend s) = [] →
  let s' := (handleCreatePost s).2 in
  tbl_posts (backend s') = tbl_posts (backend s) ++ [composed_row (Some u) s]
  ∧ bucket_post_images (backend s')
    = (if truthy_string (selectedImage (view s))
       then bucket_post_images (backend s) ++ [upload_name (Date_now s)]
       else bucket_post_images (backend s))
  ∧ content_input (view s') = []
  ∧ selectedImage (view s') = None
  ∧ location (view s') = None
  ∧ isCreating (view s') = false
  ∧ isLoading (view s') = false
  ∧ posts (view s')
    = with_counts u
        <$> (embed (backend s')
               <$> merge_sort newer_first (tbl_posts (backend s) ++ [composed_row (Some u) s])).
Proof.
  destruct s as [v b r c d], b, v. simpl. intros Hguard -> ->.
  unfold handleCreatePost, storage_upload, posts_insert, fetchPosts,
    posts_select_order_created_at, composed_row, upload_name.
  cbv beta iota zeta delta [mbind Async_bind getView].
  cbn [view content_input selectedImage location].
  destruct (truthy_jsstring (trim content_input0)) eqn:Ec,
    (truthy_string selectedImage0) eqn:Ei;
    try (destruct Hguard; discriminate);
    cbn [negb andb]; run_async; rewrite ?Ei; run_async;
    cbn [view backend]; repeat split; reflexivity.
Qed.

End Creating.

(** X16.  A post the backend accepts: one row is appended to [posts], with
    the text exactly as typed (not trimmed) and, when an image is attached,
    the public URL of the object uploaded as [post-<time>.jpg]; without an
    image nothing is uploaded.  The composer is emptied and closed, the busy
    flag is off, and the refreshed feed contains the new post. *)
Theorem handleCreatePost_publishes (s : Sys FeedScreen.View) (u : auth.User) :
  truthy_jsstring (trim (FeedScreen.content_input (view s))) = true
  ∨ truthy_string (FeedScreen.selectedImage (view s)) = true →
  session (backend s) = Some u →
  faults (backend s) = [] →
  let row := composed_row (Some u) s in
  let s' := (FeedScreen.handleCreatePost s).2 in
  tbl_posts (backend s') = tbl_posts (backend s) ++ [row]
  ∧ posts.content row = FeedScreen.content_input (view s)
  ∧ bucket_post_images (backend s')
    = (if truthy_string (FeedScreen.selectedImage (view s))
       then bucket_post_images (backend s) ++ [upload_name (Date_now s)]
       else bucket_post_images (backend s))
  ∧ (FeedScreen.content_input (view s') = []
     ∧ FeedScreen.selectedImage (view s') = None
     ∧ FeedScreen.location (view s') = None
     ∧ FeedScreen.isCreating (view s') = false
     ∧ FeedScreen.isLoading (view s') = false)
  ∧ posts.id row ∈ FeedScreen.id <$> FeedScreen.posts (view s').
Proof.
  intros Hguard Hu Hf.
  destruct (handleCreatePost_healthy s u Hguard Hu Hf)
    as (Ht & Hb & Hc & Hi & Hl & Hcr & Hld & Hfeed).
  cbv zeta. repeat split; try done.
  rewrite Hfeed, <- !list_fmap_compose.
  apply list_elem_of_fmap. exists (composed_row (Some u) s). split; [done|].
  rewrite merge_sort_Permutation. apply elem_of_app. right. apply list_elem_of_here.
Qed.

Lemma handleCreatePost_publishes_witness :
  let s := sample_sys (draft_screen [32; 104; 105; 32]%N (Some "file:///a.jpg")) [] in
  let row := composed_row (Some me) s in
  let s' := (FeedScreen.handleCreatePost s).2 in
  tbl_posts (backend s') = tbl_posts (backend s) ++ [row]
  ∧ posts.content row = FeedScreen.content_input (view s)
  ∧ bucket_post_images (backend s')
    = (if truthy_string (FeedScreen.selectedImage (view s))
       then bucket_post_images (backend s) ++ [upload_name (Date_now s)]
       else bucket_post_images (backend s))
  ∧ (FeedScreen.content_input (view s') = []
     ∧ FeedScreen.selectedImage (view s') = None
     ∧ FeedScreen.location (view s') = None
     ∧ FeedScreen.isCreating (view s') = false
     ∧ FeedScreen.isLoading (view s') = false)
  ∧ posts.id row ∈ FeedScreen.id <$> FeedScreen.posts (view s').
Proof.
  apply (handleCreatePost_publishes
           (sample_sys (draft_screen [32; 104; 105; 32]%N (Some "file:///a.jpg")) []) me);
    [left; reflexivity | reflexivity | reflexivity].
Defined.

(** X17.  The insert of the post is answered with an error, or rejected:
    no row is added and the feed is not reloaded; the draft stays in the
    composer (text, image, location, open composer), the failure is logged,
    the busy flag is off.  An image uploaded just before stays in the
    bucket, referenced by no post. *)
Theorem handleCreatePost_insert_fails (s : Sys FeedScreen.View) (f : fault)
    (fs : list fault) :
  truthy_jsstring (trim (FeedScreen.content_input (view s))) = true
  ∨ truthy_string (FeedScreen.selectedImage (view s)) = true →
  f = ErrorResponse ∨ f = Reject →
  faults (backend s)
  = (if truthy_string (FeedScreen.selectedImage (view s)) then [Healthy] else []) ++ f :: fs →
  let s' := (FeedScreen.handleCreatePost s).2 in
  tbl_posts (backend s') = tbl_posts (backend s)
  ∧ bucket_post_images (backend s')
    = (if truthy_string (FeedScreen.selectedImage (view s))
       then bucket_post_images (backend s) ++ [upload_name (Date_now s)]
       else bucket_post_images (backend s))
  ∧ (FeedScreen.content_input (view s') = FeedScreen.content_input (view s)
     ∧ FeedScreen.selectedImage (view s') = FeedScreen.selectedImage (view s)
     ∧ FeedScreen.location (view s') = FeedScreen.location (view s)
     ∧ FeedScreen.isCreating (view s') = FeedScreen.isCreating (view s)
     ∧ FeedScreen.posts (view s') = FeedScreen.posts (view s))
  ∧ FeedScreen.isLoading (view s') = false
  ∧ console s' = console s ++ ["Error creating post:"].
Proof.
  destruct s as [v b r c d], b, v. simpl. intros Hguard Hfault ->.
  unfold FeedScreen.handleCreatePost, FeedScreen.storage_upload, FeedScreen.posts_insert,
    upload_name.
  cbv beta iota zeta delta [mbind Async_bind getView].
  cbn [view FeedScreen.content_input FeedScreen.selectedImage FeedScreen.location].
  destruct (truthy_jsstring (trim content_input)) eqn:Ec,
    (truthy_string selectedImage) eqn:Ei;
    try (destruct Hguard; discriminate);
    destruct Hfault as [-> | ->];
    cbn [negb andb app]; run_async; rewrite ?Ei; run_async;
    cbn [view backend]; repeat split; reflexivity.
Qed.

Lemma handleCreatePost_insert_fails_witness :
  let s := sample_sys (draft_screen [104; 105]%N (Some "file:///a.jpg"))
             [Healthy; ErrorResponse] in
  let s' := (FeedScreen.handleCreatePost s).2 in
  tbl_posts (backend s') = tbl_posts (backend s)
  ∧ bucket_post_images (backend s')
    = (if truthy_string (FeedScreen.selectedImage (view s))
       then bucket_post_images (backend s) ++ [upload_name (Date_now s)]
       else bucket_post_images (backend s))
  ∧ (FeedScreen.content_input (view s') = FeedScreen.content_input (view s)
     ∧ FeedScreen.selectedImage (view s') = FeedScreen.selectedImage (view s)
     ∧ FeedScreen.location (view s') = FeedScreen.location (view s)
     ∧ FeedScreen.isCreating (view s') = FeedScreen.isCreating (view s)
     ∧ FeedScreen.posts (view s') = FeedScreen.posts (view s))
  ∧ FeedScreen.isLoading (view s') = false
  ∧ console s' = console s ++ ["Error creating post:"].
Proof.
  apply (handleCreatePost_insert_fails
           (sample_sys (draft_screen [104; 105]%N (Some "file:///a.jpg"))
              [Healthy; ErrorResponse])
           ErrorResponse []);
    [left; reflexivity | left; reflexivity | reflexivity].
Defined.

(** X18.  The upload of the attached image is not answered with its path
    (an error, a rejection, or a response without data): the post is not
    inserted, no insert is even requested; the draft stays in the composer,
    the failure is logged, the busy flag is off. *)
Theorem handleCreatePost_upload_fails (s : Sys FeedScreen.View) :
  truthy_string (FeedScreen.selectedImage (view s)) = true →
  next_fault (backend s) ≠ Healthy →
  let s' := (FeedScreen.handleCreatePost s).2 in
  requests (backend s') = requests (backend s) ++ [{| verb := UPLOAD; target := "post-images" |}]
  ∧ tbl_posts (backend s') = tbl_posts (backend s)
  ∧ (FeedScreen.content_input (view s') = FeedScreen.content_input (view s)
     ∧ FeedScreen.selectedImage (view s') = FeedScreen.selectedImage (view s)
     ∧ FeedScreen.location (view s') = FeedScreen.location (view s)
     ∧ FeedScreen.isCreating (view s') = FeedScreen.isCreating (view s)
     ∧ FeedScreen.posts (view s') = FeedScreen.posts (view s))
  ∧ FeedScreen.isLoading (view s') = false
  ∧ console s' = console s ++ ["Error creating post:"].
Proof.
  destruct s as [v [ses tp tf tpo tl tc tch tcp tm tn bk ids now fl rq] r c d], v.
  simpl. intros Hi Hfault.
  unfold FeedScreen.handleCreatePost, FeedScreen.storage_upload, FeedScreen.posts_insert.
  cbv beta iota zeta delta [mbind Async_bind getView].
  cbn [view FeedScreen.content_input FeedScreen.selectedImage FeedScreen.location].
  rewrite Hi, andb_false_r.
  unfold next_fault in Hfault. simpl in Hfault.
  destruct fl as [|[] fs]; try done;
    run_async; rewrite ?Hi; run_async; cbn [view backend]; repeat split; reflexivity.
Qed.

Lemma handleCreatePost_upload_fails_witness :
  let s := sample_sys (draft_screen [104; 105]%N (Some "file:///a.jpg")) [Reject] in
  let s' := (FeedScreen.handleCreatePost s).2 in
  requests (backend s') = requests (backend s) ++ [{| verb := UPLOAD; target := "post-images" |}]
  ∧ tbl_posts (backend s') = tbl_posts (backend s)
  ∧ (FeedScreen.content_input (view s') = FeedScreen.content_input (view s)
     ∧ FeedScreen.selectedImage (view s') = FeedScreen.selectedImage (view s)
     ∧ FeedScreen.location (view s') = FeedScreen.location (view s)
     ∧ FeedScreen.isCreating (view s') = FeedScreen.isCreating (view s)
     ∧ FeedScreen.posts (view s') = FeedScreen.posts (view s))
  ∧ FeedScreen.isLoading (view s') = false
  ∧ console s' = console s ++ ["Error creating post:"].
Proof.
  apply (handleCreatePost_upload_fails
           (sample_sys (draft_screen [104; 105]%N (Some "file:///a.jpg")) [Reject]));
    [reflexivity | discriminate].
Defined.

(* ===================================================================== *)
(** ** Opening a chat: the answers the handler does not expect *)
(* ===================================================================== *)

Section MessagingAnswers.
Import UserProfileScreen.

(** The create branch of [handleMessage], for every answer to the two
    inserts: it is reached when the first search is answered and the second
    gives no chat. *)
Lemma handleMessage_create_branch (s : Sys View) (p : Profile) (me : string)
    (f2 f3 f4 : fault) (fs : list fault) :
  profile (view s) = Some p →
  currentUserId (view s) = Some me →
  me ≠ "" →
  faults (backend s) = Healthy :: f2 :: f3 :: f4 :: fs →
  finds_no_chat f2 me (id p) (backend s) →
  let b := backend s in
  let s' := (handleMessage s).2 in
  let opened := router s ++ [push ("/chat/" +:+ chats.id (next_chat b))] in
  let logged := console s ++ ["Error creating chat:"] in
  tbl_chats (backend s')
  = (if decide (f3 = Healthy ∨ f3 = NullPayload)
     then tbl_chats b ++ [next_chat b] else tbl_chats b)
  ∧ tbl_chat_participants (backend s')
    = (if decide (f3 = Healthy ∧ (f4 = Healthy ∨ f4 = NullPayload))
       then tbl_chat_participants b ++ participants_of (chats.id (next_chat b)) me (id p)
       else tbl_chat_participants b)
  ∧ router s' = (if decide (f3 = Healthy ∧ f4 ≠ Reject) then opened else router s)
  ∧ console s' = (if decide (f3 = Healthy ∧ f4 ≠ Reject) then console s else logged).
Proof.
  destruct s as [v [ses tp tf tpo tl tc tch tcp tm tn bk ids now fl rq] r c d], v.
  simpl. intros -> -> Hme -> Hnone.
  unfold shared_chats, handleMessage, chat_participants_select_eq_user_id,
    chat_participants_select_eq_user_id_in, chats_insert_select,
    chat_participants_insert, truthy_string, next_chat, participants_of.
  apply String.eqb_neq in Hme.
  run_async. cbn [profile currentUserId]. rewrite Hme. run_async. cbn [negb].
  destruct f2; simpl in Hnone; try done.
  - unfold shared_chats in Hnone. simpl in Hnone. run_async.
    destruct (filter _ tcp) as [|r1 [|r2 rest]] eqn:E; [| by destruct (Hnone r1) |];
      destruct f3, f4; run_async; cbn [backend router console]; repeat split; done.
  - destruct f3, f4; run_async; cbn [backend router console]; repeat split; done.
  - destruct f3, f4; run_async; cbn [backend router console]; repeat split; done.
Qed.

End MessagingAnswers.





(** X21.  The insert of the chat is answered with an error, or rejected:
    no chat and no participant is stored, no chat is opened, and the failure
    is logged. *)
Theorem handleMessage_chat_insert_fails (s : Sys UserProfileScreen.View)
    (p : UserProfileScreen.Profile) (me : string) (f2 f3 f4 : fault) (fs : list fault) :
  UserProfileScreen.profile (view s) = Some p →
  UserProfileScreen.currentUserId (view s) = Some me →
  me ≠ "" →
  faults (backend s) = Healthy :: f2 :: f3 :: f4 :: fs →
  finds_no_chat f2 me (UserProfileScreen.id p) (backend s) →
  f3 = ErrorResponse ∨ f3 = Reject →
  let s' := (UserProfileScreen.handleMessage s).2 in
  tbl_chats (backend s') = tbl_chats (backend s)
  ∧ tbl_chat_participants (backend s') = tbl_chat_participants (backend s)
  ∧ router s' = router s
  ∧ console s' = console s ++ ["Error creating chat:"].
Proof.
  intros Hp Hu Hme Hfaults Hnone Hf3.
  destruct (handleMessage_create_branch s p me f2 f3 f4 fs Hp Hu Hme Hfaults Hnone)
    as (Hc & Hcp & Hr & Hl).
  cbv zeta. rewrite Hc, Hcp, Hr, Hl.
  destruct Hf3 as [-> | ->]; repeat case_decide; try done; exfalso; intuition congruence.
Qed.

Lemma handleMessage_chat_insert_fails_witness :
  let s := sample_sys (bob_screen false) [Healthy; Healthy; ErrorResponse; Healthy] in
  let s' := (UserProfileScreen.handleMessage s).2 in
  tbl_chats (backend s') = tbl_chats (backend s)
  ∧ tbl_chat_participants (backend s') = tbl_chat_participants (backend s)
  ∧ router s' = router s
  ∧ console s' = console s ++ ["Error creating chat:"].
Proof.
  apply (handleMessage_chat_insert_fails
           (sample_sys (bob_screen false) [Healthy; Healthy; ErrorResponse; Healthy])
           (bob_profile false) "me" Healthy ErrorResponse Healthy []);
    [reflexivity | reflexivity | discriminate | reflexivity
    | intros c; vm_compute; discriminate | left; reflexivity].
Defined.



(* ===================================================================== *)
(** ** The tab bar: badge and list *)
(* ===================================================================== *)

#[global] Instance notifications_newer_first_trans : Transitive TabLayout.newer_first.
Proof. unfold TabLayout.newer_first. intros x y z ? ?. lia. Qed.

#[global] Instance notifications_newer_first_total : Total TabLayout.newer_first.
Proof. unfold TabLayout.newer_first. intros x y. lia. Qed.

Section Tabs.
Import TabLayout.

(** The three fetches of [fetchUnreadCounts] against a healthy backend. *)
Lemma fetchUnreadCounts_healthy (s : Sys View) (u : auth.User) :
  session (backend s) = Some u →
  faults (backend s) = [] →
  let b := backend s in
  let v' := view (fetchUnreadCounts s).2 in
  unreadNotifications v'
  = Z.of_nat (length (filter (unread_of (auth.id u)) (tbl_notifications b)))
  ∧ notifications v'
    = omap (embed_user b)
        (merge_sort newer_first
           (filter (λ r, notifications.user_id r = auth.id u) (tbl_notifications b))).
Proof.
  destruct s as [v [ses tp tf tpo tl tc tch tcp tm tn bk ids now fl rq] r c d], v.
  simpl. intros -> ->.
  unfold fetchUnreadCounts, fetchUnreadNotifications, fetchUnreadMessages,
    fetchNotifications, notifications_count_unread, chat_participants_select_eq_user_id,
    messages_count_unread, notifications_select_eq_user_id.
  run_async. done.
Qed.

(** The embedding of the profile succeeds on every row of a user whose
    profile exists, and keeps the row's id, flag and time. *)
Lemma embed_user_rows (b : Backend) (uid : string) (l : list notifications.row) :
  uid ∈ profiles.id <$> tbl_profiles b →
  Forall (λ r, notifications.user_id r = uid) l →
  ∃ g : notifications.row → Notification,
    (∀ r, id (g r) = notifications.id r
          ∧ read (g r) = notifications.read r
          ∧ created_at (g r) = notifications.created_at r)
    ∧ omap (embed_user b) l = g <$> l.
Proof.
  intros Hin Hl.
  assert (∃ p, head (filter (λ p, profiles.id p = uid) (tbl_profiles b)) = Some p)
    as [p Hp].
  { apply list_elem_of_fmap in Hin as (p & -> & Hin).
    destruct (filter (λ q, profiles.id q = profiles.id p) (tbl_profiles b)) as [|q t] eqn:E.
    - assert (p ∈ filter (λ q, profiles.id q = profiles.id p) (tbl_profiles b)) as Hp
        by (by apply list_elem_of_filter).
      rewrite E in Hp. by apply elem_of_nil in Hp.
    - by exists q. }
  exists (λ r, {| id := notifications.id r;
                  type := notifications.type r;
                  data := notifications.data r;
                  read := notifications.read r;
                  created_at := notifications.created_at r;
                  user := {| full_name := text_column (profiles.columns p) "full_name";
                             avatar_url := text_column (profiles.columns p) "avatar_url" |} |}).
  split; [done|].
  induction Hl as [|r l Hr _ IH]; [done|].
  cbn [omap list_omap fmap list_fmap]. unfold embed_user at 1.
  rewrite Hr, Hp. simpl. f_equal. exact IH.
Qed.

Lemma filter_fmap_length {A B} (P : A → Prop) (Q : B → Prop)
    `{∀ x, Decision (P x)} `{∀ y, Decision (Q y)} (f : A → B) (l : list A) :
  (∀ x, Q (f x) ↔ P x) →
  length (filter Q (f <$> l)) = length (filter P l).
Proof.
  intros HPQ. induction l as [|x l IH]; [done|].
  rewrite fmap_cons, !filter_cons.
  destruct (decide (Q (f x))) as [Hq|Hq], (decide (P x)) as [Hp|Hp]; simpl;
    rewrite ?IH; try done; exfalso; first [by apply Hp, HPQ | by apply Hq, HPQ].
Qed.

End Tabs.



(** X24.  After [fetchUnreadCounts] against a healthy backend, for a user
    whose profile row exists: the badge is the number of unread entries of
    the list on screen; the list holds the user's notifications and no
    others, newest first. *)
Theorem fetchUnreadCounts_badge_matches_list (s : Sys TabLayout.View) (u : auth.User) :
  session (backend s) = Some u →
  faults (backend s) = [] →
  auth.id u ∈ profiles.id <$> tbl_profiles (backend s) →
  let b := backend s in
  let v' := view (TabLayout.fetchUnreadCounts s).2 in
  TabLayout.unreadNotifications v'
  = Z.of_nat (length (filter (λ n, TabLayout.read n = false) (TabLayout.notifications v')))
  ∧ TabLayout.id <$> TabLayout.notifications v'
    ≡ₚ notifications.id
         <$> filter (λ r, notifications.user_id r = auth.id u) (tbl_notifications b)
  ∧ Sorted (λ n m, TabLayout.created_at m ≤ TabLayout.created_at n)
      (TabLayout.notifications v').
Proof.
  intros Hu Hf Hp. cbv zeta.
  destruct (fetchUnreadCounts_healthy s u Hu Hf) as [Hbadge Hlist].
  rewrite Hbadge, Hlist. clear Hbadge Hlist.
  set (b := backend s) in *.
  set (mine := filter (λ r, notifications.user_id r = auth.id u) (tbl_notifications b)).
  assert (merge_sort TabLayout.newer_first mine ≡ₚ mine) as Hperm
    by apply merge_sort_Permutation.
  destruct (embed_user_rows b (auth.id u) (merge_sort TabLayout.newer_first mine) Hp)
    as (g & Hg & ->).
  { rewrite Hperm. apply Forall_forall. intros r Hr.
    by apply list_elem_of_filter in Hr as [? _]. }
  split; [|split].
  - rewrite (filter_fmap_length (λ r, notifications.read r = false) _ g).
    2: { intros r. by rewrite (proj1 (proj2 (Hg r))). }
    rewrite Hperm. unfold mine. f_equal.
    rewrite list_filter_filter. f_equal.
    apply list_filter_iff. intros r. unfold TabLayout.unread_of. tauto.
  - rewrite <- list_fmap_compose.
    rewrite (list_fmap_ext (TabLayout.id ∘ g) notifications.id)
      by (intros i r _; apply (Hg r)).
    by rewrite Hperm.
  - apply (Sorted_fmap g TabLayout.newer_first).
    + intros x y Hxy. unfold TabLayout.newer_first in Hxy.
      by rewrite (proj2 (proj2 (Hg x))), (proj2 (proj2 (Hg y))).
    + apply Sorted_merge_sort. apply _.
Qed.

Lemma fetchUnreadCounts_badge_matches_list_witness :
  let s := sample_sys (tab_screen 0 0) [] in
  let b := backend s in
  let v' := view (TabLayout.fetchUnreadCounts s).2 in
  TabLayout.unreadNotifications v'
  = Z.of_nat (length (filter (λ n, TabLayout.read n = false) (TabLayout.notifications v')))
  ∧ TabLayout.id <$> TabLayout.notifications v'
    ≡ₚ notifications.id
         <$> filter (λ r, notifications.user_id r = "me") (tbl_notifications b)
  ∧ Sorted (λ n m, TabLayout.created_at m ≤ TabLayout.created_at n)
      (TabLayout.notifications v').
Proof.
  apply (fetchUnreadCounts_badge_matches_list (sample_sys (tab_screen 0 0) []) me);
    [reflexivity | reflexivity | vm_compute; apply list_elem_of_here].
Defined.



(** X26.  [fetchNotifications], when the list cannot be read: on an error
    response or a rejected request the list on screen stays as it was and
    the failure is logged; on a response with neither rows nor error the
    list is emptied, silently. *)
Theorem fetchNotifications_unanswered (s : Sys TabLayout.View) (u : auth.User) :
  session (backend s) = Some u →
  next_fault (backend s) ≠ Healthy →
  let s' := (TabLayout.fetchNotifications s).2 in
  (if decide (next_fault (backend s) = NullPayload)
   then TabLayout.notifications (view s') = [] ∧ console s' = console s
   else TabLayout.notifications (view s') = TabLayout.notifications (view s)
        ∧ console s' = console s ++ ["Error fetching notifications:"])
  ∧ TabLayout.unreadNotifications (view s') = TabLayout.unreadNotifications (view s)
  ∧ TabLayout.unreadMessages (view s') = TabLayout.unreadMessages (view s).
Proof.
  destruct s as [v [ses tp tf tpo tl tc tch tcp tm tn bk ids now fl rq] r c d], v.
  simpl. intros -> Hfault.
  unfold TabLayout.fetchNotifications, TabLayout.notifications_select_eq_user_id,
    next_fault in *.
  cbn [faults] in *.
  destruct fl as [|[] fs]; try done; run_async; repeat case_decide; done.
Qed.

Lemma fetchNotifications_unanswered_witness :
  let s := sample_sys (tab_screen 1 0) [NullPayload] in
  let s' := (TabLayout.fetchNotifications s).2 in
  (if decide (next_fault (backend s) = NullPayload)
   then TabLayout.notifications (view s') = [] ∧ console s' = console s
   else TabLayout.notifications (view s') = TabLayout.notifications (view s)
        ∧ console s' = console s ++ ["Error fetching notifications:"])
  ∧ TabLayout.unreadNotifications (view s') = TabLayout.unreadNotifications (view s)
  ∧ TabLayout.unreadMessages (view s') = TabLayout.unreadMessages (view s).
Proof.
  apply (fetchNotifications_unanswered (sample_sys (tab_screen 1 0) [NullPayload]) me);
    [reflexivity | discriminate].
Defined.

(* ===================================================================== *)
(** ** Mounting a screen *)
(* ===================================================================== *)

#[global] Instance user_posts_newer_first_trans : Transitive UserProfileScreen.newer_first.
Proof. unfold UserProfileScreen.newer_first. intros x y z ? ?. lia. Qed.

#[global] Instance user_posts_newer_first_total : Total UserProfileScreen.newer_first.
Proof. unfold UserProfileScreen.newer_first. intros x y. lia. Qed.

Section Mounting.
Import UserProfileScreen.

(** The mount of a user's profile against a healthy backend. *)
Lemma checkUser_healthy (s : Sys View) (u : auth.User) (pr : profiles.row) :
  session (backend s) = Some u →
  faults (backend s) = [] →
  filter (λ r, profiles.id r = route_id (view s)) (tbl_profiles (backend s)) = [pr] →
  let b := backend s in
  let s' := (checkUser s).2 in
  currentUserId (view s') = Some (auth.id u)
  ∧ loading (view s') = false
  ∧ id <$> profile (view s') = Some (profiles.id pr)
  ∧ posts_count <$> profile (view s') = Some (count_posts_of (profiles.id pr) b)
  ∧ posts (view s')
    = with_likes_count
        <$> ((λ p, {| up_row := p;
                      up_likes :=
                        [ {| agg.count :=
                               Z.of_nat (length (filter (λ l, likes.post_id l = posts.id p)
                                                   (tbl_likes b))) |} ] |})
               <$> merge_sort newer_first
                     (filter (λ p, posts.user_id p = Some (route_id (view s))) (tbl_posts b)))
  ∧ router s' = router s
  ∧ console s' = console s.
Proof.
  destruct s as [v [ses tp tf tpo tl tc tch tcp tm tn bk ids now fl rq] r c d], v.
  simpl. intros -> -> Hrow.
  unfold checkUser, fetchProfile, fetchUserPosts, profiles_select_eq_id,
    follows_select_count_eq_following_id, follows_select_count_eq_follower_id,
    follows_select_eq_pair, posts_select_eq_user_id, setCurrentUserId, setPosts,
    count_posts_of.
  run_async. cbn [route_id]. rewrite Hrow.
  cbn [list_fmap]. run_async. repeat split; reflexivity.
Qed.

End Mounting.

(** X27.  Nobody is signed in when a screen mounts: [checkUser] of the feed
    and of a user's profile replace the route by [/auth] and do nothing
    else; no table is asked, the view stays as it is, nothing is logged. *)
Theorem checkUser_signed_out (s : Sys UserProfileScreen.View) (t : Sys FeedScreen.View) :
  session (backend s) = None →
  session (backend t) = None →
  let s' := (UserProfileScreen.checkUser s).2 in
  let t' := (FeedScreen.checkUser t).2 in
  (router s' = router s ++ [replace "/auth"]
   ∧ view s' = view s ∧ console s' = console s
   ∧ requests (backend s') = requests (backend s) ++ [{| verb := GET_USER; target := "auth" |}])
  ∧ (router t' = router t ++ [replace "/auth"]
     ∧ view t' = view t ∧ console t' = console t
     ∧ requests (backend t') = requests (backend t) ++ [{| verb := GET_USER; target := "auth" |}]).
Proof.
  destruct s as [v [ses tp tf tpo tl tc tch tcp tm tn bk ids now fl rq] r c d].
  destruct t as [v2 [ses2 tp2 tf2 tpo2 tl2 tc2 tch2 tcp2 tm2 tn2 bk2 ids2 now2 fl2 rq2] r2 c2 d2].
  simpl. intros -> ->.
  unfold UserProfileScreen.checkUser, FeedScreen.checkUser. run_async. done.
Qed.

Lemma checkUser_signed_out_witness :
  let s := {| view := bob_screen false; backend := sample_backend None [];
              router := []; console := []; Date_now := 0 |} in
  let t := {| view := feed_screen [] []; backend := sample_backend None [];
              router := []; console := []; Date_now := 0 |} in
  let s' := (UserProfileScreen.checkUser s).2 in
  let t' := (FeedScreen.checkUser t).2 in
  (router s' = router s ++ [replace "/auth"]
   ∧ view s' = view s ∧ console s' = console s
   ∧ requests (backend s') = requests (backend s) ++ [{| verb := GET_USER; target := "auth" |}])
  ∧ (router t' = router t ++ [replace "/auth"]
     ∧ view t' = view t ∧ console t' = console t
     ∧ requests (backend t') = requests (backend t) ++ [{| verb := GET_USER; target := "auth" |}]).
Proof.
  apply (checkUser_signed_out
           {| view := bob_screen false; backend := sample_backend None [];
              router := []; console := []; Date_now := 0 |}
           {| view := feed_screen [] []; backend := sample_backend None [];
              router := []; console := []; Date_now := 0 |}); reflexivity.
Defined.

(** X28.  A user's profile mounts with somebody signed in, the backend
    healthy and exactly one profile row for the route's id: the signed-in
    user's id is remembered, the profile of the route is shown with the
    spinner off, and its [posts_count] is the number of posts listed under
    it; these are the posts of that user, newest first.  Nothing is logged
    and the route is left alone. *)
Theorem checkUser_shows_profile_and_posts (s : Sys UserProfileScreen.View) (u : auth.User)
    (pr : profiles.row) :
  session (backend s) = Some u →
  faults (backend s) = [] →
  filter (λ r, profiles.id r = UserProfileScreen.route_id (view s)) (tbl_profiles (backend s))
  = [pr] →
  let b := backend s in
  let v' := view (UserProfileScreen.checkUser s).2 in
  UserProfileScreen.currentUserId v' = Some (auth.id u)
  ∧ UserProfileScreen.loading v' = false
  ∧ UserProfileScreen.id <$> UserProfileScreen.profile v'
    = Some (UserProfileScreen.route_id (view s))
  ∧ UserProfileScreen.posts_count <$> UserProfileScreen.profile v'
    = Some (Z.of_nat (length (UserProfileScreen.posts v')))
  ∧ UserProfileScreen.post_id <$> UserProfileScreen.posts v'
    ≡ₚ posts.id <$> filter (λ p, posts.user_id p = Some (UserProfileScreen.route_id (view s)))
                      (tbl_posts b)
  ∧ Sorted (λ p q, UserProfileScreen.post_created_at q ≤ UserProfileScreen.post_created_at p)
      (UserProfileScreen.posts v')
  ∧ router (UserProfileScreen.checkUser s).2 = router s
  ∧ console (UserProfileScreen.checkUser s).2 = console s.
Proof.
  intros Hu Hf Hrow. cbv zeta.
  destruct (checkUser_healthy s u pr Hu Hf Hrow) as (Hc & Hl & Hi & Hn & Hp & Hr & Hcon).
  rewrite Hc, Hl, Hi, Hn, Hp, Hr, Hcon. clear Hc Hl Hi Hn Hp Hr Hcon.
  assert (profiles.id pr = UserProfileScreen.route_id (view s)) as Hid.
  { assert (pr ∈ filter (λ r, profiles.id r = UserProfileScreen.route_id (view s))
                   (tbl_profiles (backend s))) as Hin
      by (rewrite Hrow; apply list_elem_of_here).
    by apply list_elem_of_filter in Hin as [? _]. }
  pose proof (merge_sort_Permutation UserProfileScreen.newer_first
                (filter (λ p, posts.user_id p = Some (UserProfileScreen.route_id (view s)))
                   (tbl_posts (backend s)))) as Hperm.
  rewrite Hid. repeat split.
  - unfold UserProfileScreen.count_posts_of. by rewrite !length_fmap, Hperm.
  - rewrite <- !list_fmap_compose. by rewrite Hperm.
  - rewrite <- list_fmap_compose.
    apply (Sorted_fmap _ UserProfileScreen.newer_first); [done|].
    apply Sorted_merge_sort. apply _.
Qed.

Lemma checkUser_shows_profile_and_posts_witness :
  let s := sample_sys blank_bob_screen [] in
  let b := backend s in
  let v' := view (UserProfileScreen.checkUser s).2 in
  UserProfileScreen.currentUserId v' = Some "me"
  ∧ UserProfileScreen.loading v' = false
  ∧ UserProfileScreen.id <$> UserProfileScreen.profile v'
    = Some (UserProfileScreen.route_id (view s))
  ∧ UserProfileScreen.posts_count <$> UserProfileScreen.profile v'
    = Some (Z.of_nat (length (UserProfileScreen.posts v')))
  ∧ UserProfileScreen.post_id <$> UserProfileScreen.posts v'
    ≡ₚ posts.id <$> filter (λ p, posts.user_id p = Some (UserProfileScreen.route_id (view s)))
                      (tbl_posts b)
  ∧ Sorted (λ p q, UserProfileScreen.post_created_at q ≤ UserProfileScreen.post_created_at p)
      (UserProfileScreen.posts v')
  ∧ router (UserProfileScreen.checkUser s).2 = router s
  ∧ console (UserProfileScreen.checkUser s).2 = console s.
Proof.
  apply (checkUser_shows_profile_and_posts (sample_sys blank_bob_screen []) me
           {| profiles.id := "bob"; profiles.columns := {[ "full_name" := JStr "Bob" ]} |});
    reflexivity.
Defined.

(* ===================================================================== *)
(** ** What the handlers leave alone *)
(* ===================================================================== *)

Section Frame.
Context {V : Type} (ts : list table).

Lemma changes_only_refl (b : Backend) : changes_only ts b b.
Proof. split; [done|]. intros t _. by destruct t. Qed.

Lemma changes_only_trans (b1 b2 b3 : Backend) :
  changes_only ts b1 b2 → changes_only ts b2 b3 → changes_only ts b1 b3.
Proof.
  intros [H1 H1'] [H2 H2']. split; [congruence|].
  intros t Ht. specialize (H1' t Ht). specialize (H2' t Ht).
  destruct t; simpl in *; congruence.
Qed.

Lemma changes_only_receive (r : Request) (b : Backend) : changes_only ts b (receive r b).
Proof. split; [done|]. intros t _. by destruct t. Qed.

Lemma keeps_ret {A} (a : A) : keeps ts (mret a : Async V A).
Proof. intros s. apply changes_only_refl. Qed.

Lemma keeps_bind {A B} (m : Async V A) (k : A → Async V B) :
  keeps ts m → (∀ a, keeps ts (k a)) → keeps ts (m ≫= k).
Proof.
  intros Hm Hk s. unfold mbind, Async_bind. specialize (Hm s).
  destruct (m s) as [[a|e] s']; simpl in *; [|done].
  eapply changes_only_trans; [exact Hm|apply Hk].
Qed.

Lemma keeps_fmap {A B} (f : A → B) (m : Async V A) : keeps ts m → keeps ts (f <$> m).
Proof.
  intros Hm s. unfold fmap, Async_fmap. specialize (Hm s).
  by destruct (m s) as [[a|e] s'].
Qed.

Lemma keeps_throw {A} (e : Err) : keeps ts (throw e : Async V A).
Proof. intros s. apply changes_only_refl. Qed.

Lemma keeps_throw_if (e : option Err) : keeps ts (throw_if e : Async V unit).
Proof. intros s. destruct e; apply changes_only_refl. Qed.

Lemma keeps_deref {A} (o : option A) : keeps ts (deref o : Async V A).
Proof. intros s. destruct o; apply changes_only_refl. Qed.

Lemma keeps_getView : keeps ts (getView : Async V V).
Proof. intros s. apply changes_only_refl. Qed.

Lemma keeps_setView (f : V → V) : keeps ts (setView f).
Proof. intros s. apply changes_only_refl. Qed.

Lemma keeps_console_error (label : string) : keeps ts (console_error label : Async V unit).
Proof. intros s. apply changes_only_refl. Qed.

Lemma keeps_navigate (n : Navigation) : keeps ts (navigate n : Async V unit).
Proof. intros s. apply changes_only_refl. Qed.

Lemma keeps_getDate_now : keeps ts (getDate_now : Async V Z).
Proof. intros s. apply changes_only_refl. Qed.

Lemma keeps_auth_getUser : keeps ts (auth_getUser : Async V (option auth.User)).
Proof. intros s. split; [done|]. intros t _. by destruct t. Qed.

Lemma keeps_try_catch (body : Async V unit) (handler : Err → Async V unit) :
  keeps ts body → (∀ e, keeps ts (handler e)) → keeps ts (try_catch body handler).
Proof.
  intros Hb Hh s. unfold try_catch. specialize (Hb s).
  destruct (body s) as [[a|e] s']; simpl in *; [done|].
  eapply changes_only_trans; [exact Hb|apply Hh].
Qed.

Lemma keeps_finally {A} (body : Async V A) (fin : Async V unit) :
  keeps ts body → keeps ts fin → keeps ts (finally body fin).
Proof.
  intros Hb Hf s. unfold finally. specialize (Hb s).
  destruct (body s) as [c s']. specialize (Hf s').
  destruct (fin s') as [[a|e] s'']; simpl in *;
    (eapply changes_only_trans; [exact Hb|exact Hf]).
Qed.

Lemma keeps_request {A} (v : Verb) (t : string) (act : Backend → A * Backend) :
  (∀ b, changes_only ts b (act b).2) → keeps ts (request v t act : Async V _).
Proof.
  intros Hact s. unfold request.
  pose proof (changes_only_receive {| verb := v; target := t |} (backend s)) as Hr.
  pose proof (Hact (receive {| verb := v; target := t |} (backend s))) as Ha.
  destruct (next_fault (backend s)); try destruct (act _) as [a b'];
    simpl in *; try done; by eapply changes_only_trans.
Qed.

Lemma keeps_request_count (t : string) (rows : Backend → nat) :
  keeps ts (request_count t rows : Async V _).
Proof.
  intros s. unfold request_count.
  destruct (next_fault (backend s)); simpl; apply changes_only_receive.
Qed.

Lemma keeps_Promise_all {A} (ps : list (Async V A)) :
  Forall (keeps ts) ps → keeps ts (Promise_all ps).
Proof.
  induction 1 as [|p ps Hp _ IH]; intros s; simpl; [apply changes_only_refl|].
  specialize (Hp s). destruct (p s) as [[a|e] s'].
  - specialize (IH s'). destruct (Promise_all ps s') as [[l|e] s'']; simpl in *;
      by eapply changes_only_trans.
  - specialize (IH s'). destruct (Promise_all ps s') as [c s'']; simpl in *.
    by eapply changes_only_trans.
Qed.

End Frame.

Lemma keeps_storage_upload (ts : list table) (name : string) :
  PostImages ∈ ts → keeps ts (FeedScreen.storage_upload name).
Proof.
  intros Hin s. unfold FeedScreen.storage_upload.
  pose proof (keeps_request ts (V := FeedScreen.View) UPLOAD "post-images"
                (λ b, ({| FeedScreen.path := name |},
                       with_post_images (λ o, o ++ [name]) b))) as Hreq.
  specialize (Hreq ltac:(intros b; split; [done|]; intros t Ht; destruct t; done) s).
  by destruct (request _ _ _ s) as [[a|e] s'].
Qed.

(** The answer of a query that only reads, and the change of one that
    writes to a collection [ts] allows. *)
Ltac frame_act :=
  let b := fresh "b" in
  let t := fresh "t" in
  let Ht := fresh "Ht" in
  intros b; cbv beta iota zeta delta [snd];
  first
    [ apply changes_only_refl
    | split;
      [ reflexivity
      | intros t Ht; destruct t; try reflexivity; exfalso; apply Ht; repeat constructor ] ].

Ltac frame_head t :=
  lazymatch t with
  | ?f _ => frame_head f
  | _ => t
  end.

Ltac frame_step :=
  cbv beta zeta;
  lazymatch goal with
  | |- keeps _ (@mret _ _ _ _) => apply keeps_ret
  | |- keeps _ (@throw _ _ _) => apply keeps_throw
  | |- keeps _ (@throw_if _ _) => apply keeps_throw_if
  | |- keeps _ (@deref _ _ _) => apply keeps_deref
  | |- keeps _ (@getView _) => apply keeps_getView
  | |- keeps _ (@setView _ _) => apply keeps_setView
  | |- keeps _ (@console_error _ _) => apply keeps_console_error
  | |- keeps _ (@navigate _ _) => apply keeps_navigate
  | |- keeps _ (@getDate_now _) => apply keeps_getDate_now
  | |- keeps _ (@auth_getUser _) => apply keeps_auth_getUser
  | |- keeps _ (@request_count _ _ _) => apply keeps_request_count
  | |- keeps _ (@request _ _ _ _ _) => apply keeps_request; frame_act
  | |- keeps _ (FeedScreen.storage_upload _) =>
      apply keeps_storage_upload; repeat constructor
  | |- keeps _ (@try_catch _ _ _) => apply keeps_try_catch; [|intros ?]
  | |- keeps _ (@finally _ _ _ _) => apply keeps_finally
  | |- keeps _ (@Promise_all _ _ (_ <$> _)) =>
      apply keeps_Promise_all; apply Forall_fmap, Forall_forall; intros ? _;
      unfold compose
  | |- keeps _ (@fmap _ _ _ _ _ _) => apply keeps_fmap
  | |- keeps _ (@mbind _ _ _ _ _ _) => apply keeps_bind; [|intros ?]
  | |- keeps _ (match ?x with _ => _ end) => destruct x
  | |- keeps _ ?m => let h := frame_head m in unfold h
  end.

Ltac frame := repeat frame_step.

Ltac frame_intro :=
  lazymatch goal with
  | |- ∀ _, _ => intros ?
  | |- _ => idtac
  end.

Lemma fetchPosts_keeps (ts : list table) : keeps ts FeedScreen.fetchPosts.
Proof. frame. Qed.

Lemma fetchNotifications_keeps (ts : list table) : keeps ts TabLayout.fetchNotifications.
Proof. frame. Qed.

(** X29.  The handlers that read (the fetches of the four screens, the
    mounts, the pull to refresh and the tap on a notification) change no
    table and no stored image, and leave the session alone, from every
    state and whatever the backend answers. *)
Theorem readers_change_no_table :
  keeps [] UserProfileScreen.fetchProfile
  ∧ keeps [] UserProfileScreen.fetchUserPosts
  ∧ keeps [] UserProfileScreen.checkUser
  ∧ keeps [] TabLayout.fetchUnreadNotifications
  ∧ keeps [] TabLayout.fetchUnreadMessages
  ∧ keeps [] TabLayout.fetchNotifications
  ∧ keeps [] TabLayout.fetchUnreadCounts
  ∧ (∀ n, keeps [] (TabLayout.onPress (TabLayout.getNotificationContent n)))
  ∧ keeps [] FeedScreen.fetchPosts
  ∧ keeps [] FeedScreen.checkUser
  ∧ keeps [] FeedScreen.onRefresh
  ∧ keeps [] ProfileScreen.fetchProfile
  ∧ keeps [] ProfileScreenEditing.fetchUserPosts
  ∧ keeps [] ProfileScreenEditing.fetchFollowers
  ∧ keeps [] ProfileScreenEditing.fetchFollowing
  ∧ (∀ sport, keeps [] (ProfileScreenEditing.toggleSport sport)).
Proof.
  repeat apply conj; frame_intro; try (by frame).
  unfold TabLayout.getNotificationContent.
  repeat case_decide; cbn [TabLayout.onPress]; frame.
Qed.

(** X30.  Each handler that writes changes at most its own collections:
    follow and unfollow the [follows] table, like and unlike [likes],
    opening a chat [chats] and [chat_participants], publishing a post
    [posts] and the image bucket, marking notifications read
    [notifications], saving the profile [profiles].  Every other table and
    the session are as before, from every state and whatever the backend
    answers. *)
Theorem writers_change_their_tables_only :
  keeps [Follows] UserProfileScreen.handleFollow
  ∧ keeps [Chats; ChatParticipants] UserProfileScreen.handleMessage
  ∧ (∀ postId, keeps [Likes] (FeedScreen.handleLike postId))
  ∧ keeps [Posts; PostImages] FeedScreen.handleCreatePost
  ∧ keeps [Notifications] TabLayout.markNotificationsAsRead
  ∧ (∀ toISOString, keeps [Profiles] (ProfileScreenEditing.saveProfile toISOString)).
Proof.
  repeat apply conj; frame_intro; by frame.
Qed.
